(** * The ElevenLabs extension updater ([update_extension.py])

    A shallow embedding of the updater script and the properties of its
    file patcher, snapshot writer, version bumper, report writer and
    top-level run.

    Conventions of the embedding.
    - Python text is a [string]: a sequence of code points, those below 256.
    - Values decoded from JSON are the inductive [json]; a Python [dict] is an
      association list in insertion order, looked up by its first binding
      (the decoder never produces a key twice).
    - Effects are explicit: a computation of type [M A] takes a [world]
      (the files of the extension directory, the log of files opened for
      writing, standard output) and either returns a value or raises a
      Python exception, in both cases with the world it leaves behind.
    - The calls into [json] (decoding and encoding of a document) and the
      printing of a float are parameters of the development: every theorem
      holds for any implementation of them.
    - A file holds text in UTF-8; reading it translates its line ends as
      [open(p, 'r')] does, writing it keeps a line feed as it is (POSIX).
    - Opening a file for writing succeeds when the file exists or its
      directory does, and raises [FileNotFoundError] otherwise; permissions
      and failures of the disk are left out. Different file names of the
      extension directory denote different files.
    - A text that UTF-8 cannot encode (a lone surrogate) is not among the
      texts of the embedding, so no write fails for its text here. *)

From Stdlib Require Import ZArith Floats Ascii.
From stdpp Require Import gmap strings list pretty.

Local Open Scope Z_scope.
Local Open Scope stdpp_scope.

(** ** Text *)

Module Text.

Definition nl : string := String "010" "".
Definition dq : string := String "034" "".
Definition sq : string := String "039" "".
Definition bslash : string := String "092" "".

Definition code (c : ascii) : N := N_of_ascii c.

Definition between (lo hi : N) (c : ascii) : bool :=
  ((lo <=? code c) && (code c <=? hi))%N.

(** [str.isspace] on one code point, which is also the class [\s] of [re]
    for a text pattern. *)
Definition is_space (c : ascii) : bool :=
  between 9 13 c || between 28 32 c || (code c =? 133)%N || (code c =? 160)%N.

Definition is_digit (c : ascii) : bool := between 48 57 c.
Definition is_octdigit (c : ascii) : bool := between 48 55 c.
Definition is_ascii_letter (c : ascii) : bool := between 65 90 c || between 97 122 c.

Definition digit_val (c : ascii) : Z := Z.of_N (code c) - 48.

(** [str.lower] on one code point. *)
Definition lower_char (c : ascii) : ascii :=
  if between 65 90 c || between 192 214 c || between 216 222 c
  then ascii_of_N (code c + 32) else c.

Fixpoint map_chars (f : ascii → ascii) (s : string) : string :=
  match s with
  | "" => ""
  | String c s' => String (f c) (map_chars f s')
  end.

Definition lower : string → string := map_chars lower_char.

Fixpoint forallb (p : ascii → bool) (s : string) : bool :=
  match s with
  | "" => true
  | String c s' => p c && forallb p s'
  end.

Fixpoint existsb (p : ascii → bool) (s : string) : bool :=
  match s with
  | "" => false
  | String c s' => p c || existsb p s'
  end.

Fixpoint take (n : nat) (s : string) : string :=
  match n, s with
  | S n', String c s' => String c (take n' s')
  | _, _ => ""
  end.

Fixpoint drop (n : nat) (s : string) : string :=
  match n, s with
  | S n', String _ s' => drop n' s'
  | _, _ => s
  end.

(** [s[:n]] and [s[-n:]] for a literal [n]. *)
Definition slice_to (n : nat) (s : string) : string := take n s.
Definition slice_last (n : nat) (s : string) : string :=
  drop (String.length s - n) s.

Fixpoint lstrip (s : string) : string :=
  match s with
  | String c s' => if is_space c then lstrip s' else s
  | "" => ""
  end.

Definition rstrip (s : string) : string := String.rev (lstrip (String.rev s)).

(** [str.strip()] *)
Definition strip (s : string) : string := rstrip (lstrip s).

(** [sep.join(l)] *)
Fixpoint join (sep : string) (l : list string) : string :=
  match l with
  | [] => ""
  | [x] => x
  | x :: l' => x +:+ sep +:+ join sep l'
  end.

(** [c * n] for a one-character text [c]. *)
Fixpoint repeat (c : ascii) (n : nat) : string :=
  match n with
  | O => ""
  | S n' => String c (repeat c n')
  end.

Fixpoint is_prefix (p s : string) : bool :=
  match p, s with
  | "", _ => true
  | String a p', String b s' => if decide (a = b) then is_prefix p' s' else false
  | String _ _, "" => false
  end.

(** [s.split(sep)] for a one-character separator: the pieces between the
    separators, so one piece more than there are separators. *)
Fixpoint split (sep : ascii) (s : string) : list string :=
  match s with
  | "" => [""]
  | String c s' =>
      if decide (c = sep) then "" :: split sep s'
      else match split sep s' with
           | piece :: pieces => String c piece :: pieces
           | [] => [String c ""]
           end
  end.

(** [s.replace(old, new)]: every occurrence of [old], left to right and
    without overlap. [skip] counts the characters of the occurrence being
    replaced that are still to be dropped. With an empty [old], [new] goes
    before every character and at the end. *)
Fixpoint replace_go (old new : string) (skip : nat) (s : string) : string :=
  match s with
  | "" => if decide (old = "") then new else ""
  | String c s' =>
      match skip with
      | S k => replace_go old new k s'
      | O =>
          if decide (old = "") then new +:+ String c (replace_go old new 0 s')
          else if is_prefix old s
               then new +:+ replace_go old new (String.length old - 1) s'
               else String c (replace_go old new 0 s')
      end
  end.
Definition replace (old new s : string) : string := replace_go old new 0 s.

(** What a text-mode read makes of the line ends ([newline=None]): a
    carriage return and the line feed after it, or a carriage return
    alone, becomes one line feed. *)
Fixpoint universal_newlines (s : string) : string :=
  match s with
  | "" => ""
  | String c s' =>
      if decide (c = "013"%char) then
        match s' with
        | String "010" s'' => String "010" (universal_newlines s'')
        | _ => String "010" (universal_newlines s')
        end
      else String c (universal_newlines s')
  end.

(** The value of a numeral in base [base], most significant digit first. *)
Fixpoint numeral_go (base : Z) (acc : Z) (s : string) : Z :=
  match s with
  | "" => acc
  | String c s' => numeral_go base (base * acc + digit_val c) s'
  end.
Definition numeral_value (base : Z) (s : string) : Z := numeral_go base 0 s.

(** The hexadecimal digits of [n], lower case, on [width] places. *)
Definition hex_digit (n : N) : ascii :=
  if (n <? 10)%N then ascii_of_N (48 + n) else ascii_of_N (87 + n).
Fixpoint hex (width : nat) (n : N) : string :=
  match width with
  | O => ""
  | S w => hex w (n / 16)%N +:+ String (hex_digit (n mod 16)%N) ""
  end.

End Text.

(** ** Exceptions and fallible values *)

(** The Python exceptions the script can meet, each with the text [str(e)]
    gives. [re.error] and the [IndexError] of a replacement template carry
    none: they are raised outside every handler of the script, so their
    text is never printed. *)
Inductive exn : Type :=
  | AttributeError (msg : string)
  | TypeError (msg : string)
  | KeyError (msg : string)
  | ValueError (msg : string)
  | JSONDecodeError (msg : string)
  | FileNotFoundError (msg : string)
  | EOFError (msg : string)
  | IndexError
  | re_error
  | SystemExit (status : Z).

Definition exn_str (e : exn) : string :=
  match e with
  | AttributeError m | TypeError m | KeyError m | ValueError m
  | JSONDecodeError m | FileNotFoundError m | EOFError m => m
  | IndexError => "IndexError"
  | re_error => "re.error"
  | SystemExit n => pretty n
  end.

(** CPython refuses to convert between an integer and a decimal numeral of
    more than 4300 digits. *)
Definition max_str_digits : nat := 4300.
Definition str_to_int_limit (digits : nat) : exn :=
  ValueError ("Exceeds the limit (4300 digits) for integer string conversion: value has "
              +:+ pretty digits
              +:+ " digits; use sys.set_int_max_str_digits() to increase the limit").
Definition int_to_str_limit : exn :=
  ValueError ("Exceeds the limit (4300 digits) for integer string conversion; "
              +:+ "use sys.set_int_max_str_digits() to increase the limit").

(** [isinstance(e, Exception)]: what [except Exception] catches. *)
Definition is_Exception (e : exn) : bool :=
  match e with SystemExit _ => false | _ => true end.

Inductive result (A : Type) : Type :=
  | Ok (a : A)
  | Err (e : exn).
Arguments Ok {A} a.
Arguments Err {A} e.

Global Instance result_ret : MRet result := λ A a, Ok a.
Global Instance result_bind : MBind result := λ A B f r,
  match r with Ok a => f a | Err e => Err e end.
Global Instance result_fmap : FMap result := λ A B f r,
  match r with Ok a => Ok (f a) | Err e => Err e end.

(** A comprehension or loop whose body can raise: the first exception, in
    the order of the list, ends it. *)
Fixpoint map_result {A B} (f : A → result B) (l : list A) : result (list B) :=
  match l with
  | [] => Ok []
  | x :: l' => y ← f x; ys ← map_result f l'; mret (y :: ys)
  end.

(** ** Regular expressions: the fragment of [re] the script uses *)

Module Re.

(** A pattern is a sequence of literals and of starred character classes,
    greedy ([c*]) or lazy ([c*?]). *)
Inductive atom : Type :=
  | Lit (s : string)
  | Star (cls : ascii → bool)
  | LazyStar (cls : ascii → bool).

Definition pattern := list atom.

(** The backtracking matcher: the length of the first match of [p] at the
    start of [s] in the order [re] tries them, a greedy star from the
    longest repetition down, a lazy one from the shortest up. *)
Fixpoint match_here (p : pattern) : string → option nat :=
  match p with
  | [] => λ _, Some O
  | Lit l :: rest => λ s,
      if Text.is_prefix l s
      then (λ n, String.length l + n)%nat <$> match_here rest (Text.drop (String.length l) s)
      else None
  | Star cls :: rest =>
      fix greedy (s : string) : option nat :=
        match s with
        | String c s' =>
            if cls c
            then match greedy s' with
                 | Some n => Some (S n)
                 | None => match_here rest s
                 end
            else match_here rest s
        | "" => match_here rest s
        end
  | LazyStar cls :: rest =>
      fix lazy (s : string) : option nat :=
        match match_here rest s with
        | Some n => Some n
        | None =>
            match s with
            | String c s' => if cls c then S <$> lazy s' else None
            | "" => None
            end
        end
  end.

(** [re.search(p, s)]: the leftmost match, as (start, length). *)
Fixpoint search (p : pattern) (s : string) : option (nat * nat) :=
  match match_here p s with
  | Some n => Some (O, n)
  | None =>
      match s with
      | "" => None
      | String _ s' => (λ '(i, n), (S i, n)) <$> search p s'
      end
  end.

(** [match.group(1)] for a pattern that is one group. *)
Definition group (s : string) (m : nat * nat) : string :=
  Text.take (snd m) (Text.drop (fst m) s).

(** A parsed replacement template: literal text and references to the
    one group of the pattern. *)
Inductive piece : Type :=
  | PLit (s : string)
  | PGroup.

(** An escape of the replacement template that stands for one character. *)
Definition escape_char (c : ascii) : option ascii :=
  if decide (c = "a"%char) then Some "007"%char
  else if decide (c = "b"%char) then Some "008"%char
  else if decide (c = "f"%char) then Some "012"%char
  else if decide (c = "n"%char) then Some "010"%char
  else if decide (c = "r"%char) then Some "013"%char
  else if decide (c = "t"%char) then Some "009"%char
  else if decide (c = "v"%char) then Some "011"%char
  else if decide (c = "\"%char) then Some "\"%char
  else None.

(** [str.isidentifier] on the Text.code points below 256. *)
Definition is_id_start (c : ascii) : bool :=
  Text.is_ascii_letter c || (Text.code c =? 95)%N || (Text.code c =? 170)%N || (Text.code c =? 181)%N
  || (Text.code c =? 186)%N || Text.between 192 214 c || Text.between 216 246 c || Text.between 248 255 c.
Definition is_id_continue (c : ascii) : bool :=
  is_id_start c || Text.is_digit c || (Text.code c =? 183)%N.
Definition is_identifier (s : string) : bool :=
  match s with
  | "" => false
  | String c s' => is_id_start c && Text.forallb is_id_continue s'
  end.

Definition decimal_value : string → Z := Text.numeral_value 10.
Definition octal_value : string → Z := Text.numeral_value 8.

Definition chr (n : Z) : string := String (ascii_of_N (Z.to_N n)) "".

(** The text up to the first [>], and what follows it. *)
Fixpoint until_gt (s : string) : option (string * string) :=
  match s with
  | "" => None
  | String c s' =>
      if decide (c = ">"%char) then Some ("", s')
      else (λ '(name, rest), (String c name, rest)) <$> until_gt s'
  end.

(** The groups of the pattern: both patterns of the script are one group. *)
Definition groups : Z := 1.

(** One escape of a template, [rest] being the text after the backslash:
    the piece it stands for and the text left. *)
Definition parse_escape (rest : string) : result (piece * string) :=
  match rest with
  | "" => Err re_error
  | String c r1 =>
      if decide (c = "g"%char) then
        match r1 with
        | String "<" r2 =>
            match until_gt r2 with
            | None => Err re_error
            | Some ("", _) => Err re_error
            | Some (name, r3) =>
                if Text.forallb Text.is_digit name then
                  if (max_str_digits <? String.length name)%nat
                  then Err (str_to_int_limit (String.length name))
                  else if decimal_value name <=? groups then Ok (PGroup, r3)
                  else Err re_error
                else if is_identifier name then Err IndexError
                else Err re_error
            end
        | _ => Err re_error
        end
      else if decide (c = "0"%char) then
        (* an octal escape of up to three digits *)
        match r1 with
        | String d1 r2 =>
            if Text.is_octdigit d1 then
              match r2 with
              | String d2 r3 =>
                  if Text.is_octdigit d2
                  then Ok (PLit (chr (Z.land (octal_value (String c (String d1 (String d2 "")))) 255)), r3)
                  else Ok (PLit (chr (octal_value (String c (String d1 "")))), r2)
              | "" => Ok (PLit (chr (octal_value (String c (String d1 "")))), r2)
              end
            else Ok (PLit (chr 0), r1)
        | "" => Ok (PLit (chr 0), r1)
        end
      else if Text.is_digit c then
        match r1 with
        | String d1 r2 =>
            if Text.is_digit d1 then
              match r2 with
              | String d2 r3 =>
                  if Text.is_octdigit c && Text.is_octdigit d1 && Text.is_octdigit d2 then
                    let v := octal_value (String c (String d1 (String d2 ""))) in
                    if 255 <? v then Err re_error else Ok (PLit (chr v), r3)
                  else if decimal_value (String c (String d1 "")) <=? groups
                       then Ok (PGroup, r2) else Err re_error
              | "" =>
                  if decimal_value (String c (String d1 "")) <=? groups
                  then Ok (PGroup, r2) else Err re_error
              end
            else if Text.digit_val c <=? groups then Ok (PGroup, r1) else Err re_error
        | "" => if Text.digit_val c <=? groups then Ok (PGroup, r1) else Err re_error
        end
      else
        match escape_char c with
        | Some e => Ok (PLit (String e ""), r1)
        | None =>
            if Text.is_ascii_letter c then Err re_error
            else Ok (PLit (String "\" (String c "")), r1)
        end
  end.

(** [parse_template]: the replacement text read once, before any match
    is replaced. [fuel] bounds the characters still to read. *)
Fixpoint parse_template_go (fuel : nat) (s : string) : result (list piece) :=
  match fuel with
  | O => Ok []
  | S fuel' =>
      match s with
      | "" => Ok []
      | String c s' =>
          if decide (c = "\"%char) then
            '(p, rest) ← parse_escape s';
            ps ← parse_template_go fuel' rest;
            mret (p :: ps)
          else
            ps ← parse_template_go fuel' s';
            mret (PLit (String c "") :: ps)
      end
  end.
Definition parse_template (s : string) : result (list piece) :=
  parse_template_go (String.length s) s.

Definition expand (t : list piece) (matched : string) : string :=
  foldr (λ p acc, match p with PLit l => l +:+ acc | PGroup => matched +:+ acc end) "" t.

(** The replacement of every match of [p] in [s], left to right and
    without overlap; [skip] as in [Text.replace_go]. After an empty match
    the next character is copied. *)
Fixpoint sub_go (p : pattern) (t : list piece) (skip : nat) (s : string) : string :=
  match s with
  | "" => match skip, match_here p "" with
          | O, Some _ => expand t ""
          | _, _ => ""
          end
  | String c s' =>
      match skip with
      | S k => sub_go p t k s'
      | O =>
          match match_here p s with
          | Some (S n) => expand t (Text.take (S n) s) +:+ sub_go p t n s'
          | Some O => expand t "" +:+ String c (sub_go p t 0 s')
          | None => String c (sub_go p t 0 s')
          end
      end
  end.

(** [re.sub(p, repl, s)] *)
Definition sub (p : pattern) (repl s : string) : result string :=
  t ← parse_template repl; mret (sub_go p t 0 s).

End Re.

(** ** Python values *)

(** A value decoded from JSON. *)
#[warnings="-register-all"]
Inductive json : Type :=
  | JNull
  | JBool (b : bool)
  | JInt (n : Z)
  | JFloat (x : float)
  | JStr (s : string)
  | JList (l : list json)
  | JDict (d : list (string * json)).

Definition dict := list (string * json).

(** [d.get(k)] as an option, [d.get(k, default)], and [d[k] = v]. *)
Fixpoint dict_lookup (k : string) (d : dict) : option json :=
  match d with
  | [] => None
  | (k', v) :: d' => if decide (k = k') then Some v else dict_lookup k d'
  end.

Definition dict_get (d : dict) (k : string) (default : json) : json :=
  match dict_lookup k d with
  | Some v => v
  | None => default
  end.

Fixpoint dict_set (k : string) (v : json) (d : dict) : dict :=
  match d with
  | [] => [(k, v)]
  | (k', v') :: d' => if decide (k = k') then (k, v) :: d' else (k', v') :: dict_set k v d'
  end.

Definition type_name (v : json) : string :=
  match v with
  | JNull => "NoneType"
  | JBool _ => "bool"
  | JInt _ => "int"
  | JFloat _ => "float"
  | JStr _ => "str"
  | JList _ => "list"
  | JDict _ => "dict"
  end.

(** [bool(v)] *)
Definition truthy (v : json) : bool :=
  match v with
  | JNull => false
  | JBool b => b
  | JInt n => negb (n =? 0)
  | JFloat x => negb (PrimFloat.eqb x 0%float)
  | JStr s => negb (bool_decide (s = ""))
  | JList l => negb (bool_decide (length l = O))
  | JDict d => negb (bool_decide (length d = O))
  end.

Definition no_attribute (v : json) (attr : string) : exn :=
  AttributeError (Text.sq +:+ type_name v +:+ Text.sq +:+ " object has no attribute "
                  +:+ Text.sq +:+ attr +:+ Text.sq).

(** [v.get(k, default)] on a value of any type. *)
Definition py_get (v : json) (k : string) (default : json) : result json :=
  match v with
  | JDict d => Ok (dict_get d k default)
  | _ => Err (no_attribute v "get")
  end.

(** [len(v)] *)
Definition py_len (v : json) : result nat :=
  match v with
  | JStr s => Ok (String.length s)
  | JList l => Ok (length l)
  | JDict d => Ok (length d)
  | _ => Err (TypeError ("object of type " +:+ Text.sq +:+ type_name v +:+ Text.sq
                         +:+ " has no len()"))
  end.

Fixpoint chars (s : string) : list string :=
  match s with
  | "" => []
  | String c s' => String c "" :: chars s'
  end.

(** The items a [for] loop or a comprehension over [v] visits. *)
Definition py_iter (v : json) : result (list json) :=
  match v with
  | JList l => Ok l
  | JStr s => Ok (JStr <$> chars s)
  | JDict d => Ok ((λ kv, JStr kv.1) <$> d)
  | _ => Err (TypeError (Text.sq +:+ type_name v +:+ Text.sq +:+ " object is not iterable"))
  end.

(** [v[:n]]; since Python 3.12, which the script requires, a slice is
    hashable and a dict answers it with [KeyError]. *)
Definition py_slice_to (n : nat) (v : json) : result json :=
  match v with
  | JStr s => Ok (JStr (Text.slice_to n s))
  | JList l => Ok (JList (take n l))
  | JDict _ => Err (KeyError ("slice(None, " +:+ pretty n +:+ ", None)"))
  | _ => Err (TypeError (Text.sq +:+ type_name v +:+ Text.sq +:+ " object is not subscriptable"))
  end.

(** [repr(s)] of a text. *)
Definition repr_char (quote : ascii) (c : ascii) : string :=
  if decide (c = quote) then String "\" (String c "")
  else if decide (c = "\"%char) then "\\"
  else if decide (c = "009"%char) then "\t"
  else if decide (c = "010"%char) then "\n"
  else if decide (c = "013"%char) then "\r"
  else if Text.between 32 126 c || Text.between 161 172 c || Text.between 174 255 c
       then String c ""
       else "\x" +:+ Text.hex 2 (Text.code c).

Fixpoint concat_map (f : ascii → string) (s : string) : string :=
  match s with
  | "" => ""
  | String c s' => f c +:+ concat_map f s'
  end.

Definition repr_str (s : string) : string :=
  let quote : ascii :=
    if Text.existsb (λ c, bool_decide (c = "039"%char)) s
       && negb (Text.existsb (λ c, bool_decide (c = "034"%char)) s)
    then "034"%char else "039"%char in
  String quote (concat_map (repr_char quote) s) +:+ String quote "".

(** [v[k]] for a text key, as the report writer uses it on a language item. *)
Definition py_index (v : json) (k : string) : result json :=
  match v with
  | JDict d =>
      match dict_lookup k d with
      | Some x => Ok x
      | None => Err (KeyError (repr_str k))
      end
  | JList _ => Err (TypeError "list indices must be integers or slices, not str")
  | JStr _ => Err (TypeError ("string indices must be integers, not " +:+ Text.sq +:+ "str" +:+ Text.sq))
  | _ => Err (TypeError (Text.sq +:+ type_name v +:+ Text.sq +:+ " object is not subscriptable"))
  end.

(** [int(s)] of a text. *)
Module PyInt.

Definition is_int_space (c : ascii) : bool :=
  Text.between 9 13 c || (Text.code c =? 32)%N || (Text.code c =? 133)%N
  || (Text.code c =? 160)%N.

Fixpoint skip_space (s : string) : string :=
  match s with
  | String c s' => if is_int_space c then skip_space s' else s
  | "" => ""
  end.

(** The numeral at the start of [s]: its value, its number of digits and
    the text after it; [None] when it is empty or an underscore is not
    between two digits. [prev_us] tells that the previous character was
    an underscore, [seen] that a digit has been read. *)
Fixpoint numeral (acc : Z) (digits : nat) (seen prev_us : bool) (s : string)
  : option (Z * nat * string) :=
  match s with
  | String c s' =>
      if Text.is_digit c then numeral (10 * acc + Text.digit_val c) (S digits) true false s'
      else if decide (c = "_"%char) then
        if seen && negb prev_us then numeral acc digits seen true s' else None
      else if seen && negb prev_us then Some (acc, digits, s) else None
  | "" => if seen && negb prev_us then Some (acc, digits, s) else None
  end.

Definition invalid_literal (s : string) : exn :=
  ValueError ("invalid literal for int() with base 10: " +:+ Text.take 200 (repr_str s)).

Definition parse (s : string) : result Z :=
  let body := skip_space s in
  let '(negative, body) :=
    match body with
    | String c b =>
        if decide (c = "-"%char) then (true, b)
        else if decide (c = "+"%char) then (false, b)
        else (false, body)
    | "" => (false, body)
    end in
  match numeral 0 O false false body with
  | None => Err (invalid_literal s)
  | Some (v, digits, rest) =>
      if (max_str_digits <? digits)%nat then Err (str_to_int_limit digits)
      else match skip_space rest with
           | "" => Ok (if negative then - v else v)
           | _ => Err (invalid_literal s)
           end
  end.

(** [str(n)] of an integer. *)
Definition to_str (n : Z) : result string :=
  if (max_str_digits <? String.length (pretty (Z.abs n)))%nat
  then Err int_to_str_limit else Ok (pretty n).

End PyInt.

(** ** Paths ([pathlib], POSIX flavour) *)

Module Path.

(** A path is a root ([""], ["/"] or ["//"]) and its components; empty
    components and ["."] are dropped when the text is read. *)
Record t : Type := make { root : string; parts : list string }.

Definition root_of (s : string) : string :=
  match s with
  | String "/" (String "/" (String "/" _)) => "/"
  | String "/" (String "/" _) => "//"
  | String "/" _ => "/"
  | _ => ""
  end.

Definition keep (part : string) : bool :=
  negb (bool_decide (part = "")) && negb (bool_decide (part = ".")).

(** [Path(s)] *)
Definition of_string (s : string) : t :=
  {| root := root_of s; parts := filter (λ p, keep p = true) (Text.split "/" s) |}.

(** [p / name] for a plain file name. *)
Definition joinpath (p : t) (name : string) : t :=
  {| root := root p; parts := parts p ++ [name] |}.

(** [str(p)] *)
Definition str (p : t) : string :=
  match root p, parts p with
  | "", [] => "."
  | r, ps => r +:+ Text.join "/" ps
  end.

End Path.

(** ** The world and the monad of the script *)

(** What [requests.get(url, headers)] followed by [raise_for_status()] and
    [response.json()] comes to: a [RequestException] with its text, the
    decoded document, or an exception that is no [RequestException],
    raised while the body is decoded (the [ValueError] of an integer of
    more than 4300 digits, a [RecursionError]). *)
Inductive http_result : Type :=
  | HttpError (msg : string)
  | HttpJson (data : json)
  | HttpRaise (e : exn).

Record world : Type := World {
  files : gmap string string;        (* the text of every file that exists *)
  opened : list string;              (* the files opened for writing, oldest first *)
  stdout : list string;              (* what was written to standard output, oldest first *)
  clock : string;                    (* the local time, as '%Y-%m-%d %H:%M:%S' prints it *)
  api : string → string → http_result; (* the remote API: URL and key to response *)
  keyboard : list string;            (* the lines the user is still to type *)
  creatable : string → bool          (* the paths whose directory exists: a file can be created there *)
}.

Definition set_files (f : gmap string string → gmap string string) (w : world) : world :=
  {| files := f (files w); opened := opened w; stdout := stdout w;
     clock := clock w; api := api w; keyboard := keyboard w;
     creatable := creatable w |}.
Definition set_opened (f : list string → list string) (w : world) : world :=
  {| files := files w; opened := f (opened w); stdout := stdout w;
     clock := clock w; api := api w; keyboard := keyboard w;
     creatable := creatable w |}.
Definition set_stdout (f : list string → list string) (w : world) : world :=
  {| files := files w; opened := opened w; stdout := f (stdout w);
     clock := clock w; api := api w; keyboard := keyboard w;
     creatable := creatable w |}.
Definition set_keyboard (k : list string) (w : world) : world :=
  {| files := files w; opened := opened w; stdout := stdout w;
     clock := clock w; api := api w; keyboard := k;
     creatable := creatable w |}.
Definition set_clock (t : string) (w : world) : world :=
  {| files := files w; opened := opened w; stdout := stdout w;
     clock := t; api := api w; keyboard := keyboard w;
     creatable := creatable w |}.

Inductive outcome (A : Type) : Type :=
  | Ret (a : A) (w : world)
  | Raise (e : exn) (w : world).
Arguments Ret {A} a w.
Arguments Raise {A} e w.

Definition world_of {A} (o : outcome A) : world :=
  match o with Ret _ w | Raise _ w => w end.

Definition M (A : Type) : Type := world → outcome A.

Global Instance M_ret : MRet M := λ A a w, Ret a w.
Global Instance M_bind : MBind M := λ A B f m w,
  match m w with
  | Ret a w' => f a w'
  | Raise e w' => Raise e w'
  end.

Definition lift {A} (r : result A) : M A := λ w,
  match r with Ok a => Ret a w | Err e => Raise e w end.

Definition raise {A} (e : exn) : M A := λ w, Raise e w.

(** [try: m  except Exception as e: h e] *)
Definition try_except {A} (m : M A) (h : exn → M A) : M A := λ w,
  match m w with
  | Ret a w' => Ret a w'
  | Raise e w' => if is_Exception e then h e w' else Raise e w'
  end.

Fixpoint for_each {A} (l : list A) (body : A → M unit) : M unit :=
  match l with
  | [] => mret ()
  | x :: l' => body x;; for_each l' body
  end.

(** [print(s)] *)
Definition print (s : string) : M unit := λ w,
  Ret () (set_stdout (λ out, out ++ [s +:+ Text.nl]) w).

(** [path.exists()] *)
Definition path_exists (p : string) : M bool := λ w,
  Ret (bool_decide (is_Some (files w !! p))) w.

(** Whether [open(p, 'w')] finds the file or can create it, and the
    exception of an [open] that finds neither file nor directory. *)
Definition can_open (w : world) (p : string) : bool :=
  bool_decide (is_Some (files w !! p)) || creatable w p.

Definition no_such_file (p : string) : exn :=
  FileNotFoundError ("[Errno 2] No such file or directory: " +:+ repr_str p).

(** [open(p, 'r', encoding='utf-8')] and [f.read()]: the text of the
    file with its line ends translated. *)
Definition read_text (p : string) : M string := λ w,
  match files w !! p with
  | Some text => Ret (Text.universal_newlines text) w
  | None => Raise (no_such_file p) w
  end.

(** [open(p, 'w', encoding='utf-8')]: when the file exists, or can be
    created because its directory exists, it is there and empty afterwards;
    when the directory is missing nothing is opened. *)
Definition open_w (p : string) : M unit := λ w,
  if can_open w p
  then Ret () (set_opened (λ o, o ++ [p]) (set_files (insert p "") w))
  else Raise (no_such_file p) w.

(** [f.write(s)] on the file opened at [p]: the text goes to its end, a
    line feed as it is (POSIX). *)
Definition f_write (p : string) (s : string) : M unit := λ w,
  Ret () (set_files (λ fs, <[p := default "" (fs !! p) +:+ s]> fs) w).

(** [with open(p, 'w', encoding='utf-8') as f: f.write(s)] *)
Definition write_text (p : string) (s : string) : M unit :=
  open_w p;; f_write p s.

(** [datetime.datetime.now().strftime('%Y-%m-%d %H:%M:%S')] *)
Definition now : M string := λ w, Ret (clock w) w.

(** The request of one endpoint, up to the decoded response. *)
Definition http_get (url key : string) : M http_result := λ w, Ret (api w url key) w.

(** [getpass(prompt)]: the prompt goes to the terminal, not to standard
    output; the line typed comes back without its newline, and at the end
    of the input [EOFError] is raised with no text. *)
Definition getpass (prompt : string) : M string := λ w,
  match keyboard w with
  | line :: rest => Ret line (set_keyboard rest w)
  | [] => Raise (EOFError "") w
  end.

(** [input(prompt)]: the prompt goes to standard output, without newline;
    at the end of the input [EOFError] is raised with the text of [input]. *)
Definition input (prompt : string) : M string := λ w,
  match keyboard w with
  | line :: rest => Ret line (set_keyboard rest (set_stdout (λ out, out ++ [prompt]) w))
  | [] => Raise (EOFError "EOF when reading a line") (set_stdout (λ out, out ++ [prompt]) w)
  end.

(** ** The updater *)

(** The library calls the development leaves open: [json.load] on the text
    of a file, [json.dump(v, f, indent=2)] as the text it writes, and [str]
    of a float. *)
Class Runtime : Type := {
  json_loads : string → result json;
  json_dumps : json → string;
  float_str : float → string
}.

Section Updater.

Context `{!Runtime}.

(** [repr(v)] and [str(v)], the latter being what an f-string puts for
    [{v}]. An integer decoded from JSON has at most 4300 digits, so its
    conversion back to text is the numeral. *)
Fixpoint py_repr (v : json) : string :=
  match v with
  | JNull => "None"
  | JBool true => "True"
  | JBool false => "False"
  | JInt n => pretty n
  | JFloat x => float_str x
  | JStr s => repr_str s
  | JList l => "[" +:+ Text.join ", " (map py_repr l) +:+ "]"
  | JDict d =>
      "{" +:+ Text.join ", " (map (λ '(k, x), repr_str k +:+ ": " +:+ py_repr x) d) +:+ "}"
  end.

Definition py_str (v : json) : string :=
  match v with
  | JStr s => s
  | _ => py_repr v
  end.

(** [v.lower()], [v.split(".")] and [v[k] = x] on a value of any type. *)
Definition py_lower (v : json) : result string :=
  match v with
  | JStr s => Ok (Text.lower s)
  | _ => Err (no_attribute v "lower")
  end.

Definition py_split_dot (v : json) : result (list string) :=
  match v with
  | JStr s => Ok (Text.split "." s)
  | _ => Err (no_attribute v "split")
  end.

Definition py_setitem (v : json) (k : string) (x : json) : result json :=
  match v with
  | JDict d => Ok (JDict (dict_set k x d))
  | _ => Err (TypeError (Text.sq +:+ type_name v +:+ Text.sq
                         +:+ " object does not support item assignment"))
  end.

(** [ElevenLabsExtensionUpdater]: the fields [__init__] sets. *)
Record updater : Type := Updater {
  api_key : string;
  extension_path : Path.t;
  base_url : string
}.

Definition new_updater (key : string) (path : string) : updater :=
  {| api_key := key; extension_path := Path.of_string path;
     base_url := "https://api.elevenlabs.io/v1" |}.

Context (self : updater).

(** [self.extension_path / name], as the text that names the file. *)
Definition file (name : string) : string :=
  Path.str (Path.joinpath (extension_path self) name).

(** [[model for model in data if model.get("can_do_text_to_speech", False)]] *)
Definition tts_only (data : json) : result (list dict) :=
  items ← py_iter data;
  kept ← map_result
           (λ model, flag ← py_get model "can_do_text_to_speech" (JBool false);
                     mret (model, truthy flag)) items;
  mret (omap (M := list)
              (λ '(model, keep), match model with
                                 | JDict d => if keep : bool then Some d else None
                                 | _ => None
                                 end) kept).

Definition fetch_models : M (list dict) :=
  print "Fetching available models...";;
  response ← http_get (base_url self +:+ "/models") (api_key self);
  match response with
  | HttpJson data =>
      tts_models ← lift (tts_only data);
      print ("Found " +:+ pretty (length tts_models) +:+ " TTS models");;
      mret tts_models
  | HttpError e =>
      print ("Error fetching models: " +:+ e);;
      mret []
  | HttpRaise e => raise e
  end.

Definition fetch_voices : M json :=
  print "Fetching available voices...";;
  response ← http_get (base_url self +:+ "/voices") (api_key self);
  match response with
  | HttpJson data =>
      voices ← lift (py_get data "voices" (JList []));
      n ← lift (py_len voices);
      print ("Found " +:+ pretty n +:+ " voices");;
      mret voices
  | HttpError e =>
      print ("Error fetching voices: " +:+ e);;
      mret (JList [])
  | HttpRaise e => raise e
  end.

Definition get_user_subscription : M json :=
  print "Fetching subscription info...";;
  response ← http_get (base_url self +:+ "/user/subscription") (api_key self);
  match response with
  | HttpJson data => mret data
  | HttpError e =>
      print ("Error fetching subscription: " +:+ e);;
      mret (JDict [])
  | HttpRaise e => raise e
  end.

(** The dict [format_model_for_dropdown] returns. *)
Record dropdown_entry : Type := DropdownEntry {
  value : json;
  label : string;
  name : json;
  description : json
}.

Definition format_model_for_dropdown (model : dict) : result dropdown_entry :=
  let model_id := dict_get model "model_id" (JStr "") in
  let name := dict_get model "name" model_id in
  let description := dict_get model "description" (JStr "") in
  label ← (if truthy description
           then head ← py_slice_to 50 description;
                mret (py_str name +:+ " - " +:+ py_str head +:+ "...")
           else mret (py_str name));
  mret {| value := model_id; label := label; name := name; description := description |}.

(** [format_voice_for_dropdown]: the voice goes to standard output, then
    the dict is built. *)
Definition format_voice_for_dropdown (voice : json) : M dict :=
  print (py_str voice);;
  voice_id ← lift (py_get voice "voice_id" (JStr ""));
  name ← lift (py_get voice "name" voice_id);
  category ← lift (py_get voice "category" (JStr "unknown"));
  let label := py_str name +:+ " (" +:+ py_str category +:+ ")" in
  mret [ ("value", voice_id); ("label", JStr label); ("name", name);
         ("category", category) ].

(** [r'(<select id="mode">[\s\S]*?</select>)'] *)
Definition select_open : string := "<select id=" +:+ Text.dq +:+ "mode" +:+ Text.dq +:+ ">".
Definition select_close : string := "</select>".
Definition select_pattern : Re.pattern :=
  [Re.Lit select_open; Re.LazyStar (λ _, true); Re.Lit select_close].

(** One line of the dropdown, and the loop that builds them. *)
Definition option_line (model : dict) : result string :=
  formatted ← format_model_for_dropdown model;
  mret ("  <option value=" +:+ Text.dq +:+ py_str (value formatted) +:+ Text.dq +:+ ">"
        +:+ py_str (name formatted) +:+ "</option>").

Definition new_select (options_html : list string) : string :=
  select_open +:+ Text.nl +:+ Text.join Text.nl options_html +:+ Text.nl +:+ select_close.

Definition update_popup_html (models : list dict) : M bool :=
  let popup_file := file "popup.html" in
  found ← path_exists popup_file;
  if negb found then
    print ("Error: " +:+ popup_file +:+ " not found");;
    mret false
  else
    print ("Updating " +:+ popup_file +:+ "...");;
    content ← read_text popup_file;
    match Re.search select_pattern content with
    | None =>
        print "Error: Could not find model select dropdown in popup.html";;
        mret false
    | Some m =>
        let old_select := Re.group content m in
        options_html ← lift (map_result option_line models);
        let content := Text.replace old_select (new_select options_html) content in
        write_text popup_file content;;
        print ("Updated " +:+ popup_file +:+ " with " +:+ pretty (length models) +:+ " models");;
        mret true
    end.

(** [r'(const model_id =\s*[\s\S]*?\n)'] *)
Definition mapping_pattern : Re.pattern :=
  [Re.Lit "const model_id ="; Re.Star Text.is_space; Re.LazyStar (λ _, true); Re.Lit Text.nl].

(** The line of the model at index [i] of [total] in the mapping. *)
Definition mapping_line (total : nat) (i : nat) (model : dict) : result string :=
  let model_id := dict_get model "model_id" (JStr "") in
  lowered ← py_lower (dict_get model "name" (JStr ""));
  let model_name := Text.replace " " "_" lowered in
  let q := Text.dq in
  mret (if bool_decide (Z.of_nat i = Z.of_nat total - 1)
        then "    " +:+ q +:+ py_str model_id +:+ q +:+ "; // default"
        else "    (mode === " +:+ q +:+ model_name +:+ q +:+ " || mode === "
             +:+ q +:+ py_str model_id +:+ q +:+ ") ? " +:+ q +:+ py_str model_id +:+ q +:+ " :").

Definition mapping_lines (models : list dict) : result (list string) :=
  entries ← map_result (λ '(i, model), mapping_line (length models) i model)
                       (imap (λ i model, (i, model)) models);
  mret ("  const model_id =" :: entries).

Definition update_content_js_model_mapping (models : list dict) : M bool :=
  let content_file := file "content.js" in
  found ← path_exists content_file;
  if negb found then
    print ("Error: " +:+ content_file +:+ " not found");;
    mret false
  else
    print ("Updating " +:+ content_file +:+ "...");;
    content ← read_text content_file;
    match Re.search mapping_pattern content with
    | None =>
        print "Error: Could not find model mapping in content.js";;
        mret false
    | Some _ =>
        lines ← lift (mapping_lines models);
        let new_mapping := Text.join Text.nl lines in
        content ← lift (Re.sub mapping_pattern (new_mapping +:+ Text.nl) content);
        write_text content_file content;;
        print ("Updated model mapping in " +:+ content_file);;
        mret true
    end.

(** The entry of one model in [models.json]. *)
Definition model_record (model : dict) : dict :=
  [ ("model_id", dict_get model "model_id" JNull);
    ("name", dict_get model "name" JNull);
    ("description", dict_get model "description" JNull);
    ("can_be_finetuned", dict_get model "can_be_finetuned" (JBool false));
    ("token_cost_factor", dict_get model "token_cost_factor" (JFloat 1));
    ("languages", dict_get model "languages" (JList []));
    ("can_do_text_to_speech", dict_get model "can_do_text_to_speech" (JBool false));
    ("can_do_voice_conversion", dict_get model "can_do_voice_conversion" (JBool false)) ].

Definition create_models_json (models : list dict) : M bool :=
  let models_file := file "models.json" in
  let formatted_models := JDict ∘ model_record <$> models in
  write_text models_file (json_dumps (JList formatted_models));;
  print ("Created " +:+ models_file +:+ " with model information");;
  mret true.

(** The entry of one voice in [voices.json]. *)
Definition voice_record (voice : json) : result dict :=
  voice_id ← py_get voice "voice_id" JNull;
  name ← py_get voice "name" JNull;
  category ← py_get voice "category" JNull;
  description ← py_get voice "description" (JStr "");
  labels ← py_get voice "labels" (JDict []);
  preview_url ← py_get voice "preview_url" (JStr "");
  available_for_tiers ← py_get voice "available_for_tiers" (JList []);
  settings ← py_get voice "settings" (JDict []);
  mret [ ("voice_id", voice_id); ("name", name); ("category", category);
         ("description", description); ("labels", labels);
         ("preview_url", preview_url);
         ("available_for_tiers", available_for_tiers); ("settings", settings) ].

Definition create_voices_json (voices : json) : M bool :=
  let voices_file := file "voices.json" in
  items ← lift (py_iter voices);
  formatted_voices ← lift (map_result voice_record items);
  write_text voices_file (json_dumps (JList (JDict <$> formatted_voices)));;
  print ("Created " +:+ voices_file +:+ " with voice information");;
  mret true.

Definition update_manifest_version : M bool :=
  let manifest_file := file "manifest.json" in
  found ← path_exists manifest_file;
  if negb found then
    print "Note: manifest.json not found, skipping version update";;
    mret false
  else
    try_except
      (text ← read_text manifest_file;
       manifest ← lift (json_loads text);
       current_version ← lift (py_get manifest "version" (JStr "1.0.0"));
       parts ← lift (py_split_dot current_version);
       match parts with
       | [major; minor; patch_part] =>
           n ← lift (PyInt.parse patch_part);
           patch ← lift (PyInt.to_str (n + 1));
           let new_version := major +:+ "." +:+ minor +:+ "." +:+ patch in
           manifest ← lift (py_setitem manifest "version" (JStr new_version));
           write_text manifest_file (json_dumps manifest);;
           print ("Updated manifest version from " +:+ py_str current_version
                  +:+ " to " +:+ new_version);;
           mret true
       | _ => mret false
       end)
      (λ e, print ("Error updating manifest: " +:+ exn_str e);; mret false).

(** The text after ["  Languages: "] for one model. *)
Definition languages_text (model : dict) : result string :=
  items ← py_iter (dict_get model "languages" (JList []));
  texts ← map_result (λ item, language_id ← py_index item "language_id";
                              name ← py_index item "name";
                              mret (py_str language_id +:+ ": " +:+ py_str name)) items;
  mret (Text.join ", " texts).

Definition create_update_report (models : list dict) (voices subscription : json) : M bool :=
  let report_file := file "update_report.txt" in
  let f := report_file in
  open_w f;;
  f_write f ("=== ElevenLabs Extension Update Report ===" +:+ Text.nl +:+ Text.nl);;
  date ← now;
  f_write f ("Date: " +:+ date +:+ Text.nl);;
  f_write f ("Models found: " +:+ pretty (length models) +:+ Text.nl);;
  n ← lift (py_len voices);
  f_write f ("Voices found: " +:+ pretty n +:+ Text.nl +:+ Text.nl);;
  f_write f ("=== Available Models ===" +:+ Text.nl);;
  for_each models (λ model,
    f_write f ("- " +:+ py_str (dict_get model "name" JNull)
               +:+ " (" +:+ py_str (dict_get model "model_id" JNull) +:+ ")" +:+ Text.nl);;
    f_write f ("  Description: " +:+ py_str (dict_get model "description" (JStr "N/A"))
               +:+ Text.nl);;
    languages ← lift (languages_text model);
    f_write f ("  Languages: " +:+ languages);;
    f_write f ("  Token cost: " +:+ py_str (dict_get model "token_cost_factor" (JFloat 1))
               +:+ "x" +:+ Text.nl +:+ Text.nl));;
  f_write f (Text.nl +:+ "=== Subscription Info ===" +:+ Text.nl);;
  (if truthy subscription then
     tier ← lift (py_get subscription "tier" (JStr "N/A"));
     f_write f ("Tier: " +:+ py_str tier +:+ Text.nl);;
     limit ← lift (py_get subscription "character_limit" (JStr "N/A"));
     f_write f ("Character limit: " +:+ py_str limit +:+ Text.nl);;
     count ← lift (py_get subscription "character_count" (JStr "N/A"));
     f_write f ("Character count: " +:+ py_str count +:+ Text.nl);;
     instant ← lift (py_get subscription "can_use_instant_voice_cloning" (JBool false));
     f_write f ("Can use instant voice cloning: " +:+ py_str instant +:+ Text.nl);;
     professional ← lift (py_get subscription "can_use_professional_voice_cloning" (JBool false));
     f_write f ("Can use professional voice cloning: " +:+ py_str professional +:+ Text.nl)
   else mret ());;
  print ("Created update report: " +:+ report_file);;
  mret true.

Definition rule : string := Text.repeat "=" 60.

Definition abort_message : string := "No models found. Update aborted.".

Definition run_update : M bool :=
  print rule;;
  print "ElevenLabs Chrome Extension Updater";;
  print rule;;
  models ← fetch_models;
  voices ← fetch_voices;
  subscription ← get_user_subscription;
  if bool_decide (models = []) then
    print abort_message;;
    mret false
  else
    let success := true in
    popup_ok ← update_popup_html models;
    let success := if negb popup_ok then false else success in
    content_ok ← update_content_js_model_mapping models;
    let success := if negb content_ok then false else success in
    create_models_json models;;
    create_voices_json voices;;
    update_manifest_version;;
    create_update_report models voices subscription;;
    (if success : bool then
       print (Text.nl +:+ rule);;
       print "UPDATE COMPLETE!";;
       print rule;;
       print (Text.nl +:+ "Next steps:");;
       print "1. Load the updated extension in Chrome:";;
       print "   - Go to chrome://extensions/";;
       print "   - Enable 'Developer mode'";;
       print "   - Click 'Load unpacked'";;
       print "   - Select the extension directory";;
       print (Text.nl +:+ "2. Test the extension with the new models");;
       print (Text.nl +:+ "3. Check update_report.txt for details")
     else
       print (Text.nl +:+ "Update completed with some errors. Check the output above."));;
    mret success.

End Updater.

Arguments run_update {_} self.
Arguments update_manifest_version {_} self.

Section Main.

Context `{!Runtime}.

(** [main()]: the interactive entry. *)
Definition main : M unit :=
  print "ElevenLabs Chrome Extension Updater";;
  print (Text.repeat "-" 40);;
  typed ← getpass "Enter your ElevenLabs API key: ";
  let api_key := Text.strip typed in
  print (pretty (String.length api_key) +:+ " " +:+ Text.slice_last 4 api_key);;
  (if bool_decide (api_key = "") then
     print "Error: API key is required";;
     raise (SystemExit 1)
   else mret ());;
  typed ← input "Enter extension path [default: current directory]: ";
  let default_path := Text.strip typed in
  let extension_path := if bool_decide (default_path = "") then "." else default_path in
  let updater := new_updater api_key extension_path in
  run_update updater;;
  mret ().

(** The arguments [argparse] hands to the script. *)
Record arguments : Type := Arguments {
  arg_api_key : option string;
  arg_path : string;
  arg_auto : bool
}.

(** The body of [if __name__ == "__main__":]. *)
Definition script (args : arguments) : M unit :=
  match arg_api_key args with
  | Some key =>
      if bool_decide (key = "") then main
      else run_update (new_updater key (arg_path args));; mret ()
  | None => main
  end.

End Main.

(** ** A reference runtime

    The theorems below hold for every [Runtime]. The examples run on this
    one: CPython's encoder with [indent=2], a decoder for JSON documents
    whose text stays below code point 256, and the printing of a float by
    its exact decimal value, which is Python's text for the integral floats
    below [10^16] and for every float whose exact value is also the shortest
    numeral that reads back as it (1.0, 0.5, 2.25, ...). *)

Module Reference.

Fixpoint rstrip_zeros_rev (s : string) : string :=
  match s with
  | String "0" s' => rstrip_zeros_rev s'
  | _ => s
  end.
Definition rstrip_zeros (s : string) : string :=
  String.rev (rstrip_zeros_rev (String.rev s)).

Definition pad_left (width : nat) (s : string) : string :=
  Text.repeat "0" (width - String.length s) +:+ s.

(** The decimal numeral of [m * 2^e], with at least one digit after the
    point. *)
Definition decimal_of_binary (m : positive) (e : Z) : string :=
  if 0 <=? e then pretty (Z.pos m * 2 ^ e) +:+ ".0"
  else
    let k := - e in
    let whole := Z.pos m / 2 ^ k in
    let frac := (Z.pos m mod 2 ^ k) * 5 ^ k in
    if frac =? 0 then pretty whole +:+ ".0"
    else pretty whole +:+ "." +:+ rstrip_zeros (pad_left (Z.to_nat k) (pretty frac)).

Definition float_text (nan inf : string) (x : float) : string :=
  match Prim2SF x with
  | S754_zero s => if s then "-0.0" else "0.0"
  | S754_infinity s => if s then "-" +:+ inf else inf
  | S754_nan => nan
  | S754_finite s m e => (if s then "-" else "") +:+ decimal_of_binary m e
  end.

Definition show_float (x : float) : string := float_text "nan" "inf" x.

(** *** Encoding *)

Definition escape_char (c : ascii) : string :=
  if decide (c = "034"%char) then "\" +:+ Text.dq
  else if decide (c = "\"%char) then "\\"
  else if decide (c = "010"%char) then "\n"
  else if decide (c = "013"%char) then "\r"
  else if decide (c = "009"%char) then "\t"
  else if decide (c = "008"%char) then "\b"
  else if decide (c = "012"%char) then "\f"
  else if Text.between 32 126 c then String c ""
  else "\u" +:+ Text.hex 4 (Text.code c).

Definition quote (s : string) : string :=
  Text.dq +:+ concat_map escape_char s +:+ Text.dq.

Definition indentation (level : nat) : string := Text.repeat " " (2 * level).

Definition block (opening closing : string) (level : nat) (items : list string) : string :=
  match items with
  | [] => opening +:+ closing
  | _ => opening +:+ Text.nl +:+ indentation (S level)
         +:+ Text.join ("," +:+ Text.nl +:+ indentation (S level)) items
         +:+ Text.nl +:+ indentation level +:+ closing
  end.

Fixpoint dumps_at (level : nat) (v : json) : string :=
  match v with
  | JNull => "null"
  | JBool true => "true"
  | JBool false => "false"
  | JInt n => pretty n
  | JFloat x => float_text "NaN" "Infinity" x
  | JStr s => quote s
  | JList l => block "[" "]" level (map (dumps_at (S level)) l)
  | JDict d =>
      block "{" "}" level
            (map (λ '(k, x), quote k +:+ ": " +:+ dumps_at (S level) x) d)
  end.

Definition dumps (v : json) : string := dumps_at 0 v.

(** *** Decoding *)

(** The float nearest to [digits * 10^exp10], ties to even. *)
Definition round_half_even (num den : Z) : Z :=
  let q := num / den in
  let r := num mod den in
  if 2 * r <? den then q
  else if den <? 2 * r then q + 1
  else if Z.even q then q else q + 1.

Definition scaled (num den e : Z) : Z * Z :=
  if 0 <=? e then (num, den * 2 ^ e) else (num * 2 ^ (- e), den).

Definition float_of_decimal (negative : bool) (digits exp10 : Z) : float :=
  let sign (x : float) : float := if negative then (- x)%float else x in
  if digits =? 0 then sign 0%float
  else
    let '(num, den) := if 0 <=? exp10 then (digits * 10 ^ exp10, 1)
                       else (digits, 10 ^ (- exp10)) in
    let e0 := Z.log2 num - Z.log2 den - 52 in
    let q := let '(n, d) := scaled num den e0 in n / d in
    let e1 := if 2 ^ 53 <=? q then e0 + 1 else if q <? 2 ^ 52 then e0 - 1 else e0 in
    let e := Z.max e1 (-1074) in
    let m := let '(n, d) := scaled num den e in round_half_even n d in
    let '(m, e) := if m =? 2 ^ 53 then (2 ^ 52, e + 1) else (m, e) in
    if 971 <? e then sign infinity
    else match m with
         | Z.pos p => SF2Prim (S754_finite negative p e)
         | _ => sign 0%float
         end.

Definition is_ws (c : ascii) : bool :=
  bool_decide (c = " "%char) || bool_decide (c = "009"%char)
  || bool_decide (c = "010"%char) || bool_decide (c = "013"%char).

Fixpoint skip_ws (s : string) : string :=
  match s with
  | String c s' => if is_ws c then skip_ws s' else s
  | "" => ""
  end.

(** A failure of the decoder: the message and the text left where it
    stopped, from which the position is read. *)
Inductive failure : Type :=
  | Syntax (msg : string) (rest : string)
  | Other (e : exn).

Definition parsed (A : Type) : Type := failure + (A * string).

Definition hex_val (c : ascii) : option Z :=
  if Text.is_digit c then Some (Text.digit_val c)
  else if Text.between 97 102 c then Some (Z.of_N (Text.code c) - 87)
  else if Text.between 65 70 c then Some (Z.of_N (Text.code c) - 55)
  else None.

Definition hex4 (s : string) : option (Z * string) :=
  match s with
  | String a (String b (String c (String d rest))) =>
      x ← hex_val a; y ← hex_val b; z ← hex_val c; u ← hex_val d;
      Some (((x * 16 + y) * 16 + z) * 16 + u, rest)
  | _ => None
  end.

(** The text of a string literal, [s] starting after its opening quote
    and [start] at it. *)
Fixpoint string_body (start : string) (s : string) : parsed string :=
  match s with
  | "" => inl (Syntax "Unterminated string starting at" start)
  | String c s' =>
      if decide (c = "034"%char) then inr ("", s')
      else if decide (c = "\"%char) then
        match s' with
        | "" => inl (Syntax "Unterminated string starting at" start)
        | String e s'' =>
            let char (x : ascii) : parsed string :=
              match string_body start s'' with
              | inr (t, rest) => inr (String x t, rest)
              | inl f => inl f
              end in
            if decide (e = "034"%char) then char "034"%char
            else if decide (e = "\"%char) then char "\"%char
            else if decide (e = "/"%char) then char "/"%char
            else if decide (e = "b"%char) then char "008"%char
            else if decide (e = "f"%char) then char "012"%char
            else if decide (e = "n"%char) then char "010"%char
            else if decide (e = "r"%char) then char "013"%char
            else if decide (e = "t"%char) then char "009"%char
            else if decide (e = "u"%char) then
              match hex4 s'' with
              | Some (n, _) =>
                  if n <? 256
                  then match string_body start (Text.drop 4 s'') with
                       | inr (t, rest) => inr (String (ascii_of_N (Z.to_N n)) t, rest)
                       | inl f => inl f
                       end
                  else inl (Syntax "Code point outside the text model" s)
              | None => inl (Syntax "Invalid \uXXXX escape" s)
              end
            else inl (Syntax ("Invalid \escape: " +:+ repr_str (String e "")) s)
        end
      else if (Text.code c <? 32)%N then inl (Syntax "Invalid control character at" s)
      else match string_body start s' with
           | inr (t, rest) => inr (String c t, rest)
           | inl f => inl f
           end
  end.

Fixpoint span_digits (s : string) : string * string :=
  match s with
  | String c s' =>
      if Text.is_digit c then let '(d, rest) := span_digits s' in (String c d, rest)
      else ("", s)
  | "" => ("", "")
  end.

(** A number at the start of [s], as [NUMBER_RE] reads it. *)
Definition number (s : string) : option (parsed json) :=
  let '(negative, body) := match s with
                           | String "-" b => (true, b)
                           | _ => (false, s)
                           end in
  let '(whole, rest) :=
    match body with
    | String "0" r => ("0", r)
    | _ => span_digits body
    end in
  if bool_decide (whole = "") then None
  else
    let '(frac, rest) :=
      match rest with
      | String "." r =>
          let '(d, r') := span_digits r in
          if bool_decide (d = "") then ("", rest) else (d, r')
      | _ => ("", rest)
      end in
    let '(exp, rest) :=
      match rest with
      | String c r =>
          if bool_decide (c = "e"%char) || bool_decide (c = "E"%char) then
            let '(sign, r1) := match r with
                               | String "-" r1 => ("-", r1)
                               | String "+" r1 => ("+", r1)
                               | _ => ("", r)
                               end in
            let '(d, r2) := span_digits r1 in
            if bool_decide (d = "") then (None, rest)
            else (Some (if bool_decide (sign = "-") then - Re.decimal_value d
                        else Re.decimal_value d), r2)
          else (None, rest)
      | "" => (None, rest)
      end in
    Some (match frac, exp with
          | "", None =>
              match PyInt.parse ((if negative then "-" else "") +:+ whole) with
              | Ok n => inr (JInt n, rest)
              | Err e => inl (Other e)
              end
          | _, _ =>
              inr (JFloat (float_of_decimal negative (Re.decimal_value (whole +:+ frac))
                             (default 0 exp - Z.of_nat (String.length frac))), rest)
          end).

Definition expecting_value (s : string) : failure := Syntax "Expecting value" s.

Fixpoint value (fuel : nat) (s : string) : parsed json :=
  match fuel with
  | O => inl (Other (ValueError "maximum recursion depth exceeded"))
  | S fuel' =>
      match s with
      | "" => inl (expecting_value s)
      | String c s' =>
          if decide (c = "034"%char) then
            match string_body s s' with
            | inr (t, rest) => inr (JStr t, rest)
            | inl f => inl f
            end
          else if decide (c = "{"%char) then
            match skip_ws s' with
            | String "}" rest => inr (JDict [], rest)
            | after => members fuel' [] after
            end
          else if decide (c = "["%char) then
            match skip_ws s' with
            | String "]" rest => inr (JList [], rest)
            | after => elements fuel' [] after
            end
          else if Text.is_prefix "null" s then inr (JNull, Text.drop 4 s)
          else if Text.is_prefix "true" s then inr (JBool true, Text.drop 4 s)
          else if Text.is_prefix "false" s then inr (JBool false, Text.drop 5 s)
          else
            match number s with
            | Some r => r
            | None =>
                if Text.is_prefix "NaN" s then inr (JFloat nan, Text.drop 3 s)
                else if Text.is_prefix "Infinity" s then inr (JFloat infinity, Text.drop 8 s)
                else if Text.is_prefix "-Infinity" s
                     then inr (JFloat neg_infinity, Text.drop 9 s)
                     else inl (expecting_value s)
            end
      end
  end
(** The pairs of an object, [s] standing where a key is expected. *)
with members (fuel : nat) (acc : dict) (s : string) : parsed json :=
  match fuel with
  | O => inl (Other (ValueError "maximum recursion depth exceeded"))
  | S fuel' =>
      match s with
      | String "034" s' =>
          match string_body s s' with
          | inl f => inl f
          | inr (key, rest) =>
              match skip_ws rest with
              | String ":" rest =>
                  match value fuel' (skip_ws rest) with
                  | inl f => inl f
                  | inr (v, rest) =>
                      let acc := dict_set key v acc in
                      match skip_ws rest with
                      | String "}" rest => inr (JDict acc, rest)
                      | String "," rest => members fuel' acc (skip_ws rest)
                      | rest => inl (Syntax "Expecting ',' delimiter" rest)
                      end
                  end
              | rest => inl (Syntax "Expecting ':' delimiter" rest)
              end
          end
      | _ => inl (Syntax "Expecting property name enclosed in double quotes" s)
      end
  end
(** The items of an array, [s] standing where an item is expected. *)
with elements (fuel : nat) (acc : list json) (s : string) : parsed json :=
  match fuel with
  | O => inl (Other (ValueError "maximum recursion depth exceeded"))
  | S fuel' =>
      match value fuel' s with
      | inl f => inl f
      | inr (v, rest) =>
          match skip_ws rest with
          | String "]" rest => inr (JList (acc ++ [v]), rest)
          | String "," rest => elements fuel' (acc ++ [v]) (skip_ws rest)
          | rest => inl (Syntax "Expecting ',' delimiter" rest)
          end
      end
  end.

(** The position of a failure, as [JSONDecodeError] prints it. *)
Fixpoint line_column (line column : nat) (n : nat) (s : string) : nat * nat :=
  match n, s with
  | S n', String c s' =>
      if decide (c = "010"%char) then line_column (S line) 1 n' s'
      else line_column line (S column) n' s'
  | _, _ => (line, column)
  end.

Definition decode_error (text : string) (msg rest : string) : exn :=
  let pos := (String.length text - String.length rest)%nat in
  let '(line, column) := line_column 1 1 pos text in
  JSONDecodeError (msg +:+ ": line " +:+ pretty line +:+ " column " +:+ pretty column
                   +:+ " (char " +:+ pretty pos +:+ ")").

Definition loads (text : string) : result json :=
  match value (2 * String.length text + 2) (skip_ws text) with
  | inl (Syntax msg rest) => Err (decode_error text msg rest)
  | inl (Other e) => Err e
  | inr (v, rest) =>
      match skip_ws rest with
      | "" => Ok v
      | rest => Err (decode_error text "Extra data" rest)
      end
  end.

Definition runtime : Runtime :=
  {| json_loads := loads; json_dumps := dumps; float_str := show_float |}.

End Reference.


(** ** Vocabulary of the properties *)

Section Vocabulary.

Context `{!Runtime} (self : updater).

Definition popup_file : string := file self "popup.html".
Definition content_file : string := file self "content.js".
Definition models_file : string := file self "models.json".
Definition voices_file : string := file self "voices.json".
Definition manifest_file : string := file self "manifest.json".
Definition report_file : string := file self "update_report.txt".

(** What a step did to the file [p] between the worlds [w] and [w']. *)
Definition overwritten (p : string) (w w' : world) : Prop :=
  opened w' = opened w ++ [p].
Definition untouched (w w' : world) : Prop :=
  files w' = files w ∧ opened w' = opened w.

(** The text a read of the file [p] gives in [w]. *)
Definition text_read (w : world) (p : string) : option string :=
  Text.universal_newlines <$> files w !! p.

(** The contract of a patcher of the file [p] whose marker is [pat], for
    the calls that return, and what a call that raises leaves. *)
Definition patch_contract (patch : M bool) (p : string) (pat : Re.pattern) : Prop :=
  ∀ w : world,
    (∀ text, text_read w p = Some text → Re.search pat text = None →
             ∃ w', patch w = Ret false w' ∧ untouched w w')
    ∧ (∀ b w', patch w = Ret b w' →
               (overwritten p w w' ↔
                ∃ text, text_read w p = Some text ∧ is_Some (Re.search pat text))
               ∧ (b = true ↔ overwritten p w w')
               ∧ (b = false → untouched w w'))
    ∧ (∀ e w', patch w = Raise e w' → untouched w w').

(** The dropdown line of a model: its id, [""] when absent, and its name,
    the id when absent. *)
Definition option_text (model : dict) : string :=
  let model_id := dict_get model "model_id" (JStr "") in
  "  <option value=" +:+ Text.dq +:+ py_str model_id +:+ Text.dq +:+ ">"
  +:+ py_str (dict_get model "name" model_id) +:+ "</option>".

End Vocabulary.

(** A numeric part of a version: decimal digits, at least one. *)
Definition numeric (s : string) : Prop :=
  s ≠ "" ∧ Text.forallb Text.is_digit s = true.

(** A text without a dot. *)
Definition dot_free (s : string) : Prop :=
  Text.forallb (λ c, negb (bool_decide (c = "."%char))) s = true.

(** ** How a computation may change the world *)

(** [evolves ps w w']: from [w] to [w'] only files among [ps] were written,
    standard output only grew, and the remote API and the clock are the
    same. *)
Definition evolves (ps : list string) (w w' : world) : Prop :=
  (∀ q, q ∉ ps → files w' !! q = files w !! q)
  ∧ (∃ l, opened w' = opened w ++ l ∧ ∀ q, q ∈ l → q ∈ ps)
  ∧ (∃ out, stdout w' = stdout w ++ out)
  ∧ api w' = api w
  ∧ clock w' = clock w.

(** [confined ps m]: however [m] ends, it has done no more than that. *)
Definition confined {A} (ps : list string) (m : M A) : Prop :=
  ∀ w, evolves ps w (world_of (m w)).

(** ** What a run fetches and writes, as functions of the world *)

Section Fetched.

Context `{!Runtime} (self : updater).

(** The model list, the voices and the subscription the three fetches
    return in the world [w]. *)
Definition fetched_models (w : world) : result (list dict) :=
  match api w (base_url self +:+ "/models") (api_key self) with
  | HttpJson data => tts_only data
  | HttpError _ => Ok []
  | HttpRaise e => Err e
  end.

Definition fetched_voices (w : world) : result json :=
  match api w (base_url self +:+ "/voices") (api_key self) with
  | HttpJson data =>
      voices ← py_get data "voices" (JList []); _ ← py_len voices; mret voices
  | HttpError _ => Ok (JList [])
  | HttpRaise e => Err e
  end.

Definition fetched_subscription (w : world) : result json :=
  match api w (base_url self +:+ "/user/subscription") (api_key self) with
  | HttpJson data => Ok data
  | HttpError _ => Ok (JDict [])
  | HttpRaise e => Err e
  end.

(** The documents of the two snapshots. *)
Definition models_snapshot (models : list dict) : json :=
  JList (JDict ∘ model_record <$> models).

Definition voices_snapshot (voices : json) : result json :=
  items ← py_iter voices;
  formatted ← map_result voice_record items;
  mret (JList (JDict <$> formatted)).

(** The text of the report. *)
Definition model_section (model : dict) : result string :=
  languages ← languages_text model;
  mret (("- " +:+ py_str (dict_get model "name" JNull)
         +:+ " (" +:+ py_str (dict_get model "model_id" JNull) +:+ ")" +:+ Text.nl)
        +:+ ("  Description: " +:+ py_str (dict_get model "description" (JStr "N/A"))
             +:+ Text.nl)
        +:+ ("  Languages: " +:+ languages)
        +:+ ("  Token cost: " +:+ py_str (dict_get model "token_cost_factor" (JFloat 1))
             +:+ "x" +:+ Text.nl +:+ Text.nl)).

Definition subscription_section (subscription : json) : result string :=
  if truthy subscription then
    tier ← py_get subscription "tier" (JStr "N/A");
    limit ← py_get subscription "character_limit" (JStr "N/A");
    count ← py_get subscription "character_count" (JStr "N/A");
    instant ← py_get subscription "can_use_instant_voice_cloning" (JBool false);
    professional ← py_get subscription "can_use_professional_voice_cloning" (JBool false);
    mret (("Tier: " +:+ py_str tier +:+ Text.nl)
          +:+ ("Character limit: " +:+ py_str limit +:+ Text.nl)
          +:+ ("Character count: " +:+ py_str count +:+ Text.nl)
          +:+ ("Can use instant voice cloning: " +:+ py_str instant +:+ Text.nl)
          +:+ ("Can use professional voice cloning: " +:+ py_str professional +:+ Text.nl))
  else mret "".

Fixpoint concat_texts (l : list string) : string :=
  match l with
  | [] => ""
  | s :: l' => s +:+ concat_texts l'
  end.

Definition report_text (models : list dict) (voices subscription : json) (date : string)
  : result string :=
  n ← py_len voices;
  sections ← map_result model_section models;
  info ← subscription_section subscription;
  mret (("=== ElevenLabs Extension Update Report ===" +:+ Text.nl +:+ Text.nl)
        +:+ ("Date: " +:+ date +:+ Text.nl)
        +:+ ("Models found: " +:+ pretty (length models) +:+ Text.nl)
        +:+ ("Voices found: " +:+ pretty n +:+ Text.nl +:+ Text.nl)
        +:+ ("=== Available Models ===" +:+ Text.nl)
        +:+ concat_texts sections
        +:+ (Text.nl +:+ "=== Subscription Info ===" +:+ Text.nl)
        +:+ info).

End Fetched.

(** The world after [f.write(s)] on the file at [p]. *)
Definition appended (p s : string) (w : world) : world :=
  set_files (λ fs, <[p := default "" (fs !! p) +:+ s]> fs) w.

(** The world after the file at [p] was opened and [text] written to it. *)
Definition written (p text : string) (w : world) : world :=
  set_opened (λ o, o ++ [p]) (set_files (insert p text) w).

(** The world after the texts [out] were printed. *)
Definition printed (out : list string) (w : world) : world :=
  set_stdout (λ o, o ++ out) w.

(** The steps of [run_update] after the test on the model list. *)
Definition update_steps `{!Runtime} (self : updater) (models : list dict)
    (voices subscription : json) : M bool :=
  let success := true in
  popup_ok ← update_popup_html self models;
  let success := if negb popup_ok then false else success in
  content_ok ← update_content_js_model_mapping self models;
  let success := if negb content_ok then false else success in
  create_models_json self models;;
  create_voices_json self voices;;
  update_manifest_version self;;
  create_update_report self models voices subscription;;
  (if success : bool then
     print (Text.nl +:+ rule);;
     print "UPDATE COMPLETE!";;
     print rule;;
     print (Text.nl +:+ "Next steps:");;
     print "1. Load the updated extension in Chrome:";;
     print "   - Go to chrome://extensions/";;
     print "   - Enable 'Developer mode'";;
     print "   - Click 'Load unpacked'";;
     print "   - Select the extension directory";;
     print (Text.nl +:+ "2. Test the extension with the new models");;
     print (Text.nl +:+ "3. Check update_report.txt for details")
   else
     print (Text.nl +:+ "Update completed with some errors. Check the output above."));;
  mret success.

(** The world after the two snapshots were written. *)
Definition snapshots_written `{!Runtime} (self : updater) (models : list dict) (doc : json)
    (w : world) : world :=
  printed [("Created " +:+ voices_file self +:+ " with voice information") +:+ Text.nl]
    (written (voices_file self) (json_dumps doc)
       (printed [("Created " +:+ models_file self +:+ " with model information") +:+ Text.nl]
          (written (models_file self) (json_dumps (models_snapshot models)) w))).

(** ** Patching the dropdown again *)

(** The first place where [p] starts in [s]. *)
Fixpoint index_of (p s : string) : option nat :=
  if Text.is_prefix p s then Some 0%nat
  else match s with
       | "" => None
       | String _ s' => S <$> index_of p s'
       end.

(** A text that holds no carriage return: it is read as it was written. *)
Definition no_cr (s : string) : Prop :=
  Text.existsb (λ c, bool_decide (c = "013"%char)) s = false.

Section Popup.

Context `{!Runtime}.

(** The dropdown generated for [models] is one match of the dropdown
    pattern, from its first character to its last: no option of it holds
    [</select>]; and it holds no carriage return, so that it is read back
    as it was written. *)
Definition one_dropdown (models : list dict) : Prop :=
  ∀ options_html,
    map_result option_line models = Ok options_html →
    Re.match_here select_pattern (new_select options_html)
    = Some (String.length (new_select options_html))
    ∧ no_cr (new_select options_html).

(** What popup.html holds after a patch that returned, from what it held
    before. *)
Definition popup_after (models : list dict) (before : option string) : option string :=
  match before with
  | None => None
  | Some text =>
      let content := Text.universal_newlines text in
      match Re.search select_pattern content, map_result option_line models with
      | Some m, Ok options_html =>
          Some (Text.replace (Re.group content m) (new_select options_html) content)
      | _, _ => Some text
      end
  end.

End Popup.

(** ** An extension directory and an API to run the script on *)

Module Demo.

Definition q (s : string) : string := Text.dq +:+ s +:+ Text.dq.

Definition lines (l : list string) : string :=
  foldr (λ line rest, line +:+ Text.nl +:+ rest) "" l.

Definition popup_html : string :=
  lines [ "<body>";
          "<select id=" +:+ q "mode" +:+ ">";
          "  <option value=" +:+ q "englishfast" +:+ ">English</option>";
          "</select>";
          "<button id=" +:+ q "read" +:+ ">Read</button>";
          "</body>" ].

Definition content_js : string :=
  lines [ "async function fetchResponse(mode, text) {";
          "  const model_id =";
          "    mode === " +:+ q "englishfast" +:+ " ? " +:+ q "eleven_turbo_v2" +:+ " : "
            +:+ q "eleven_multilingual_v2" +:+ ";";
          "  return speak(model_id, text);";
          "}" ].

Definition manifest (version : string) : json :=
  JDict [("name", JStr "Human Reader"); ("version", JStr version)].

Definition language (id name : string) : json :=
  JDict [("language_id", JStr id); ("name", JStr name)].

Definition multilingual : dict :=
  [ ("model_id", JStr "eleven_multilingual_v2");
    ("name", JStr "Eleven Multilingual v2");
    ("can_do_text_to_speech", JBool true);
    ("can_do_voice_conversion", JBool false);
    ("description", JStr "Our most life-like model");
    ("languages", JList [language "en" "English"; language "de" "German"]) ].

Definition turbo : dict :=
  [ ("model_id", JStr "eleven_turbo_v2");
    ("name", JStr "Eleven Turbo v2");
    ("can_do_text_to_speech", JBool true);
    ("token_cost_factor", JFloat 0.5);
    ("languages", JList [language "en" "English"]) ].

Definition speech_to_speech : dict :=
  [ ("model_id", JStr "eleven_english_sts_v2");
    ("name", JStr "Eleven English v2");
    ("can_do_text_to_speech", JBool false) ].

Definition models_response : json :=
  JList [JDict multilingual; JDict speech_to_speech; JDict turbo].

Definition voices_response : json :=
  JDict [("voices", JList [JDict [("voice_id", JStr "21m00Tcm4TlvDq8ikWAM");
                                  ("name", JStr "Rachel");
                                  ("category", JStr "premade")]])].

Definition subscription_response : json :=
  JDict [("tier", JStr "free"); ("character_limit", JInt 10000);
         ("character_count", JInt 42)].

(** The API answering with the three documents [models], [voices] and
    [subscription] at their endpoints. *)
Definition remote (models voices subscription : http_result) (url key : string)
  : http_result :=
  if bool_decide (url = "https://api.elevenlabs.io/v1/models") then models
  else if bool_decide (url = "https://api.elevenlabs.io/v1/voices") then voices
  else if bool_decide (url = "https://api.elevenlabs.io/v1/user/subscription")
       then subscription
       else HttpError "404 Client Error: Not Found for url".

Definition self : updater := new_updater "sk_0123456789abcdef" ".".

(** A world with the files [fs] in directories that exist, the API
    [service] and the keys [typed] still to come. *)
Definition world_with (fs : list (string * string)) (service : string → string → http_result)
    (typed : list string) : world :=
  {| files := list_to_map fs; opened := []; stdout := [];
     clock := "2024-05-01 12:00:00"; api := service; keyboard := typed;
     creatable := λ _, true |}.

Definition service : string → string → http_result :=
  remote (HttpJson models_response) (HttpJson voices_response)
         (HttpJson subscription_response).

Definition extension (version : string) : list (string * string) :=
  [ ("popup.html", popup_html); ("content.js", content_js);
    ("manifest.json", Reference.dumps (manifest version)) ].

Definition world : world := world_with (extension "1.2.3") service [].

End Demo.

(** ** Defaults of absent fields *)

(** "Empty or false": the empty text, list or object, or [False]. *)
Definition empty_or_false (v : json) : bool :=
  match v with
  | JStr "" | JList [] | JDict [] | JBool false => true
  | _ => false
  end.

(** What [models.json] and [voices.json] hold for a field the API left out. *)
Definition model_defaults : list (string * json) :=
  [ ("model_id", JNull); ("name", JNull); ("description", JNull);
    ("can_be_finetuned", JBool false); ("token_cost_factor", JFloat 1);
    ("languages", JList []); ("can_do_text_to_speech", JBool false);
    ("can_do_voice_conversion", JBool false) ].

Definition voice_defaults : list (string * json) :=
  [ ("voice_id", JNull); ("name", JNull); ("category", JNull);
    ("description", JStr ""); ("labels", JDict []); ("preview_url", JStr "");
    ("available_for_tiers", JList []); ("settings", JDict []) ].

(** The six files a run can write. *)
Definition outputs `{!Runtime} (self : updater) : list string :=
  [ popup_file self; content_file self; models_file self; voices_file self;
    manifest_file self; report_file self ].

(** What a computation returned or raised, without the world it left. *)
Definition returned {A} (o : outcome A) : option A :=
  match o with Ret a _ => Some a | Raise _ _ => None end.
Definition raised {A} (o : outcome A) : option exn :=
  match o with Ret _ _ => None | Raise e _ => Some e end.

(** ** Worlds of the examples *)

Module Cases.

(** The directory with a popup.html that has no dropdown. *)
Definition no_dropdown : world :=
  Demo.world_with [ ("popup.html", Demo.lines ["<body>"; "</body>"]);
                    ("content.js", Demo.content_js);
                    ("manifest.json", Reference.dumps (Demo.manifest "1.2.3")) ]
                  Demo.service [].

(** A directory with only a manifest, at the given version. *)
Definition only_manifest (version : string) : world :=
  Demo.world_with [("manifest.json", Reference.dumps (Demo.manifest version))]
                  Demo.service [].

(** The API failing at the models endpoint. *)
Definition models_down : world :=
  Demo.world_with (Demo.extension "1.2.3")
    (Demo.remote (HttpError "503 Server Error: Service Unavailable for url")
                 (HttpJson Demo.voices_response) (HttpJson Demo.subscription_response))
    [].

(** The dropdown block, and a popup.html that holds it twice. *)
Definition dropdown : string :=
  Text.join Text.nl [ "<select id=" +:+ Demo.q "mode" +:+ ">";
                      "  <option value=" +:+ Demo.q "englishfast" +:+ ">English</option>";
                      "</select>" ].

Definition two_dropdowns : world :=
  Demo.world_with [("popup.html", dropdown +:+ "<hr>" +:+ dropdown)] Demo.service [].

(** A content.js that declares [model_id] in two functions. *)
Definition two_declarations : world :=
  Demo.world_with [("content.js", Demo.lines [ "  const model_id = pick(mode);";
                                               "  const model_id = other(mode);" ])]
                  Demo.service [].

(** A model whose id holds a backslash followed by [n]. *)
Definition backslash_model : dict :=
  [ ("model_id", JStr "eleven\new"); ("name", JStr "New");
    ("can_do_text_to_speech", JBool true) ].

(** A model one of whose languages has no name. *)
Definition unnamed_language_model : dict :=
  [ ("model_id", JStr "eleven_flash_v2"); ("name", JStr "Eleven Flash v2");
    ("can_do_text_to_speech", JBool true);
    ("languages", JList [JDict [("language_id", JStr "en")]]) ].

Definition unnamed_language : world :=
  Demo.world_with (Demo.extension "1.2.3")
    (Demo.remote (HttpJson (JList [JDict unnamed_language_model]))
                 (HttpJson Demo.voices_response) (HttpJson Demo.subscription_response))
    [].

(** A model whose name holds a line end and the markup of an option. *)
Definition two_line_model : dict :=
  [ ("model_id", JStr "x");
    ("name", JStr ("A</option>" +:+ Text.nl +:+ "  <option value=" +:+ Demo.q "y" +:+ ">B"));
    ("can_do_text_to_speech", JBool true) ].

(** A model whose description is a number, and the API listing it. *)
Definition numeric_description_model : dict :=
  [ ("model_id", JStr "eleven_flash_v2"); ("name", JStr "Eleven Flash v2");
    ("can_do_text_to_speech", JBool true); ("description", JInt 5) ].

Definition numeric_description : world :=
  Demo.world_with (Demo.extension "1.2.3")
    (Demo.remote (HttpJson (JList [JDict numeric_description_model]))
                 (HttpJson Demo.voices_response) (HttpJson Demo.subscription_response))
    [].

(** A model whose name is [null], and the API listing it. *)
Definition unnamed_model : dict :=
  [ ("model_id", JStr "eleven_flash_v2"); ("name", JNull);
    ("can_do_text_to_speech", JBool true) ].

Definition unnamed : world :=
  Demo.world_with (Demo.extension "1.2.3")
    (Demo.remote (HttpJson (JList [JDict unnamed_model]))
                 (HttpJson Demo.voices_response) (HttpJson Demo.subscription_response))
    [].

(** The API failing at the models endpoint and answering the voices
    request with [{"voices": null}]. *)
Definition models_down_null_voices : world :=
  Demo.world_with (Demo.extension "1.2.3")
    (Demo.remote (HttpError "503 Server Error: Service Unavailable for url")
                 (HttpJson (JDict [("voices", JNull)]))
                 (HttpJson Demo.subscription_response))
    [].

(** The updater started with [--path nope], and a world where no
    directory of that name exists. *)
Definition elsewhere : updater := new_updater "sk_0123456789abcdef" "nope".

Definition no_directory : world :=
  {| files := ∅; opened := []; stdout := []; clock := "2024-05-01 12:00:00";
     api := Demo.service; keyboard := []; creatable := λ _, false |}.

(** The directory with no dropdown in popup.html, and the API listing a
    voice that is a number. *)
Definition odd_voice : world :=
  Demo.world_with [ ("popup.html", Demo.lines ["<body>"; "</body>"]);
                    ("content.js", Demo.content_js);
                    ("manifest.json", Reference.dumps (Demo.manifest "1.2.3")) ]
    (Demo.remote (HttpJson Demo.models_response)
                 (HttpJson (JDict [("voices", JList [JInt 5])]))
                 (HttpJson Demo.subscription_response))
    [].

(** A model that the API describes by its text-to-speech flag alone. *)
Definition bare_model : dict := [("can_do_text_to_speech", JBool true)].

(** The user typing a key, padded with blanks, and then an empty path. *)
Definition interactive : world :=
  Demo.world_with (Demo.extension "1.2.3") Demo.service ["  sk_0123456789abcdef "; ""].

End Cases.

(** ** Vocabulary of the further properties *)

(** The text-to-speech flag of a model, as the filter of [fetch_models]
    reads it. *)
Definition tts_flag (model : dict) : bool :=
  truthy (dict_get model "can_do_text_to_speech" (JBool false)).

(** The body of the [try] of [update_manifest_version] on the text of the
    manifest, up to the write: the old version, the new one and the
    document to write, or [None] when the version is not three parts. *)
Definition bumped `{!Runtime} (text : string) : result (option (string * string * json)) :=
  manifest ← json_loads text;
  current_version ← py_get manifest "version" (JStr "1.0.0");
  parts ← py_split_dot current_version;
  match parts with
  | [major; minor; patch_part] =>
      n ← PyInt.parse patch_part;
      patch ← PyInt.to_str (n + 1);
      let new_version := major +:+ "." +:+ minor +:+ "." +:+ patch in
      manifest ← py_setitem manifest "version" (JStr new_version);
      mret (Some (py_str current_version, new_version, manifest))
  | _ => mret None
  end.


(** A text that holds no line end. *)
Definition one_line (p : string) : Prop :=
  Text.existsb (λ c, bool_decide (c = "010"%char)) p = false.

(** A description [format_model_for_dropdown] can cut to fifty characters:
    a text or a list, or a value that counts as false, which it leaves
    alone. *)
Definition sliceable (model : dict) : bool :=
  match dict_get model "description" (JStr "") with
  | JStr _ | JList _ => true
  | v => negb (truthy v)
  end.



(** The key of a mode in the mapping: [name.lower().replace(" ", "_")]. *)
Definition mode_key (name : string) : string := Text.replace " " "_" (Text.lower name).

(** The lines of a text: what lies between its line feeds. *)
Definition lines_of (text : string) : list string := Text.split "010" text.

(** A line of the mapping, from the key and the id it names: the default
    for the last model, a test of the mode against key and id for the
    others. *)
Definition mapping_entry (last : bool) (key id : string) : string :=
  if last then "    " +:+ Text.dq +:+ id +:+ Text.dq +:+ "; // default"
  else "    (mode === " +:+ Text.dq +:+ key +:+ Text.dq +:+ " || mode === "
       +:+ Text.dq +:+ id +:+ Text.dq +:+ ") ? " +:+ Text.dq +:+ id +:+ Text.dq +:+ " :".

(** The line of the mapping for a model named by a text: its key is the
    name in lower case with blanks as underscores, its id the model_id,
    each the empty text when absent. *)
Definition mapping_text `{!Runtime} (last : bool) (model : dict) : string :=
  mapping_entry last
    (match dict_get model "name" (JStr "") with
     | JStr name => mode_key name
     | _ => ""
     end)
    (py_str (dict_get model "model_id" (JStr ""))).


(** [keeps I m]: from a world where [I] holds, [m] ends in one where it
    holds, whether it returns or raises. *)
Definition keeps {A} (I : world → Prop) (m : M A) : Prop :=
  ∀ w, I w → I (world_of (m w)).

(** [I] does not look at standard output; at the files and the log of the
    files opened. *)
Definition blind_to_stdout (I : world → Prop) : Prop :=
  ∀ f w, I w → I (set_stdout f w).
Definition blind_to_files (I : world → Prop) : Prop :=
  ∀ f g w, I w → I (set_opened g (set_files f w)).

(** The keyboard is as it was in [w]. *)
Definition same_keyboard (w : world) : world → Prop := λ w', keyboard w' = keyboard w.

(** The keys of a record of models.json, in the order written. *)
Definition model_keys : list string :=
  [ "model_id"; "name"; "description"; "can_be_finetuned"; "token_cost_factor";
    "languages"; "can_do_text_to_speech"; "can_do_voice_conversion" ].

(** The report file of [self] was opened once since [w], begins with
    [head], and no other file changed. *)
Definition report_begins `{!Runtime} (self : updater) (w : world) (head : string)
    (w' : world) : Prop :=
  (∃ rest, files w' !! report_file self = Some (head +:+ rest))
  ∧ opened w' = opened w ++ [report_file self]
  ∧ ∀ p, p ≠ report_file self → files w' !! p = files w !! p.

(** The two lines [main] prints first, and its second prompt. *)
Definition banner : list string :=
  [ "ElevenLabs Chrome Extension Updater" +:+ Text.nl; Text.repeat "-" 40 +:+ Text.nl ].

Definition path_prompt : string := "Enter extension path [default: current directory]: ".

(** ** Further worlds of the examples *)

Module More.

(** The API answering the voices request with [{"voices": null}]. *)
Definition null_voices : world :=
  Demo.world_with (Demo.extension "1.2.3")
    (Demo.remote (HttpJson Demo.models_response) (HttpJson (JDict [("voices", JNull)]))
                 (HttpJson Demo.subscription_response))
    [].

(** The API answering the models request with an object that wraps the list. *)
Definition wrapped_models : world :=
  Demo.world_with (Demo.extension "1.2.3")
    (Demo.remote (HttpJson (JDict [("models", Demo.models_response)]))
                 (HttpJson Demo.voices_response) (HttpJson Demo.subscription_response))
    [].

(** The API failing at the subscription endpoint. *)
Definition subscription_down : world :=
  Demo.world_with (Demo.extension "1.2.3")
    (Demo.remote (HttpJson Demo.models_response) (HttpJson Demo.voices_response)
                 (HttpError "401 Client Error: Unauthorized for url"))
    [].

(** A directory whose manifest is cut off after its first brace. *)
Definition broken_manifest : world :=
  Demo.world_with [("manifest.json", "{")] Demo.service [].

(** A directory whose manifest has no version. *)
Definition unversioned : world :=
  Demo.world_with [("manifest.json",
                    Reference.dumps (JDict [("name", JStr "Human Reader");
                                            ("manifest_version", JInt 3)]))]
                  Demo.service [].

(** The user answering the first prompt with blanks. *)
Definition blank_key : world :=
  Demo.world_with (Demo.extension "1.2.3") Demo.service ["   "; "."].

(** A model whose name holds a carriage return, the dropdown generated
    for it, and a popup.html that holds an empty dropdown and, further
    down, that dropdown as a reader of the file sees it. *)
Definition mac_model : dict :=
  [ ("model_id", JStr "x"); ("name", JStr (String "A" (String "013" "B")));
    ("can_do_text_to_speech", JBool true) ].

Definition mac_dropdown : string :=
  Text.join Text.nl [ select_open;
                      "  <option value=" +:+ Demo.q "x" +:+ ">"
                        +:+ String "A" (String "013" "B") +:+ "</option>";
                      select_close ].

Definition mac_popup : world :=
  Demo.world_with [("popup.html", select_open +:+ select_close +:+ "<hr>"
                                  +:+ Text.universal_newlines mac_dropdown)]
                  Demo.service [].

(** The two models of [Demo.service] that do text to speech. *)
Definition models : list dict := [Demo.multilingual; Demo.turbo].

End More.
(** ** Examples of the text functions *)

Example split_three : Text.split "." "1.2.3" = ["1"; "2"; "3"].
Proof. reflexivity. Qed.
Example split_empty : Text.split "." "" = [""].
Proof. reflexivity. Qed.
Example replace_all : Text.replace "ab" "X" "abcabab" = "XcXX".
Proof. reflexivity. Qed.
Example strip_both : Text.strip "  key " = "key".
Proof. reflexivity. Qed.
Example slice_last_short : Text.slice_last 4 "abc" = "abc".
Proof. reflexivity. Qed.
Example slice_last_long : Text.slice_last 4 "sk-12345" = "2345".
Proof. reflexivity. Qed.
Example int_plain : PyInt.parse "3" = Ok 3.
Proof. reflexivity. Qed.
Example int_spaces_sign : PyInt.parse " -1_0 " = Ok (-10).
Proof. reflexivity. Qed.
Example int_bad : PyInt.parse "x" = Err (ValueError "invalid literal for int() with base 10: 'x'").
Proof. reflexivity. Qed.
Example int_bad_underscore : PyInt.parse "1__0" = Err (PyInt.invalid_literal "1__0").
Proof. reflexivity. Qed.
Example repr_quotes : repr_str "b'c" = String "034" ("b'c" +:+ String "034" "").
Proof. reflexivity. Qed.
Example path_here : Path.str (Path.joinpath (Path.of_string ".") "popup.html") = "popup.html".
Proof. reflexivity. Qed.
Example path_dir : Path.str (Path.joinpath (Path.of_string "ext//v2/") "popup.html") = "ext/v2/popup.html".
Proof. reflexivity. Qed.
Example path_root : Path.str (Path.joinpath (Path.of_string "/") "popup.html") = "/popup.html".
Proof. reflexivity. Qed.

(** ** Examples of the patterns, as CPython answers them *)

Example search_select :
  Re.search select_pattern ("abc" +:+ select_open +:+ "xx</select>yy</select>")
  = Some (3%nat, 29%nat).
Proof. reflexivity. Qed.
Example search_mapping_first_line :
  Re.search mapping_pattern ("xx const model_id =" +:+ Text.nl +:+ "  a" +:+ Text.nl
                             +:+ " b" +:+ Text.nl)
  = Some (3%nat, 21%nat).
Proof. reflexivity. Qed.
Example search_mapping_blank_lines :
  Re.search mapping_pattern ("const model_id = " +:+ Text.nl +:+ " " +:+ Text.nl)
  = Some (O, 20%nat).
Proof. reflexivity. Qed.
Example search_mapping_no_line_end : Re.search mapping_pattern "const model_id =  x" = None.
Proof. reflexivity. Qed.
Example sub_every_match :
  Re.sub mapping_pattern ("A\nB" +:+ Text.nl)
         ("const model_id =" +:+ Text.nl +:+ " x" +:+ Text.nl +:+ "const model_id = 3"
          +:+ Text.nl +:+ "rest")
  = Ok ("A" +:+ Text.nl +:+ "B" +:+ Text.nl +:+ "A" +:+ Text.nl +:+ "B" +:+ Text.nl +:+ "rest").
Proof. reflexivity. Qed.
Example sub_bad_escape : Re.sub mapping_pattern "a\qb" ("const model_id = 3" +:+ Text.nl) = Err re_error.
Proof. reflexivity. Qed.
Example sub_group_reference :
  Re.sub mapping_pattern "<\1>" ("const model_id = 3" +:+ Text.nl)
  = Ok ("<const model_id = 3" +:+ Text.nl +:+ ">").
Proof. reflexivity. Qed.
Example sub_unknown_group : Re.sub mapping_pattern "\g<x>" ("const model_id = 3" +:+ Text.nl) = Err IndexError.
Proof. reflexivity. Qed.
(** ** Reasoning about computations *)

Lemma bind_run {A B} (m : M A) (f : A → M B) (w : world) :
  (m ≫= f) w = match m w with
               | Ret a w' => f a w'
               | Raise e w' => Raise e w'
               end.
Proof. reflexivity. Qed.

Lemma append_empty_l (s : string) : "" +:+ s = s.
Proof. reflexivity. Qed.

Lemma write_text_run (p s : string) (w : world) :
  write_text p s w
  = if can_open w p
    then Ret () (set_opened (λ o, o ++ [p]) (set_files (insert p s) w))
    else Raise (no_such_file p) w.
Proof.
  unfold write_text, open_w, f_write. rewrite bind_run.
  destruct (can_open w p); [|reflexivity]. simpl.
  unfold set_files at 1. simpl. rewrite lookup_insert_eq. simpl.
  rewrite insert_insert_eq. reflexivity.
Qed.

Lemma can_open_some (p text : string) (w : world) :
  files w !! p = Some text → can_open w p = true.
Proof. intros E. unfold can_open. rewrite E. reflexivity. Qed.

Lemma write_text_some (p text s : string) (w : world) :
  files w !! p = Some text →
  write_text p s w = Ret () (set_opened (λ o, o ++ [p]) (set_files (insert p s) w)).
Proof. intros E. by rewrite write_text_run, (can_open_some _ text). Qed.

Lemma print_run (s : string) (w : world) :
  print s w = Ret () (set_stdout (λ out, out ++ [s +:+ Text.nl]) w).
Proof. reflexivity. Qed.

Lemma path_exists_some (p text : string) (w : world) :
  files w !! p = Some text → path_exists p w = Ret true w.
Proof. intros E. unfold path_exists. rewrite E. reflexivity. Qed.

Lemma path_exists_none (p : string) (w : world) :
  files w !! p = None → path_exists p w = Ret false w.
Proof. intros E. unfold path_exists. rewrite E. reflexivity. Qed.

Lemma read_text_some (p text : string) (w : world) :
  files w !! p = Some text → read_text p w = Ret (Text.universal_newlines text) w.
Proof. intros E. unfold read_text. rewrite E. reflexivity. Qed.

Lemma app_singleton_neq {A} (l : list A) (x : A) : l ≠ l ++ [x].
Proof.
  intros E. apply (f_equal length) in E. rewrite length_app in E. simpl in E. lia.
Qed.

Lemma api_set_stdout (f : list string → list string) (w : world) :
  api (set_stdout f w) = api w.
Proof. reflexivity. Qed.

Lemma lift_ok {A} (a : A) (w : world) : lift (Ok a) w = Ret a w.
Proof. reflexivity. Qed.

Lemma lift_err {A} (e : exn) (w : world) : lift (@Err A e) w = Raise e w.
Proof. reflexivity. Qed.

(** Unfolds the monad and the file primitives in the goal. *)
Ltac run :=
  repeat first
    [ rewrite bind_run
    | rewrite print_run
    | progress simpl ].


(** ** Text and numerals *)

Lemma str_app_cons (c : ascii) (s t : string) : String c s +:+ t = String c (s +:+ t).
Proof. reflexivity. Qed.

Lemma str_app_assoc (a b c : string) : (a +:+ b) +:+ c = a +:+ (b +:+ c).
Proof. induction a as [|x a IH]; [done|]. by rewrite !str_app_cons, IH. Qed.

Lemma str_app_nil_r (s : string) : s +:+ "" = s.
Proof. induction s as [|x s IH]; [done|]. by rewrite str_app_cons, IH. Qed.

Lemma str_length_app (a b : string) :
  String.length (a +:+ b) = (String.length a + String.length b)%nat.
Proof. induction a as [|x a IH]; [done|]. rewrite str_app_cons. simpl. by rewrite IH. Qed.

Lemma split_dot_free (a : string) : dot_free a → Text.split "." a = [a].
Proof.
  unfold dot_free. induction a as [|c a IH]; simpl; [done|].
  intros [Hc Ha]%andb_prop. apply negb_true_iff, bool_decide_eq_false in Hc.
  rewrite decide_False by done. by rewrite IH.
Qed.

Lemma split_app (a r : string) :
  dot_free a → Text.split "." (a +:+ "." +:+ r) = a :: Text.split "." r.
Proof.
  unfold dot_free. induction a as [|c a IH]; simpl.
  - intros _. reflexivity.
  - intros [Hc Ha]%andb_prop. apply negb_true_iff, bool_decide_eq_false in Hc.
    rewrite decide_False by done. by rewrite IH.
Qed.

Lemma digit_dot_free (s : string) : Text.forallb Text.is_digit s = true → dot_free s.
Proof.
  unfold dot_free. induction s as [|c s IH]; simpl; [done|].
  intros [Hc Hs]%andb_prop. rewrite IH by done. rewrite andb_true_r.
  apply negb_true_iff, bool_decide_eq_false. intros ->. done.
Qed.

Lemma split_three_parts (a b c : string) :
  dot_free a → dot_free b → dot_free c →
  Text.split "." (a +:+ "." +:+ b +:+ "." +:+ c) = [a; b; c].
Proof. intros. by rewrite !split_app, split_dot_free. Qed.

Lemma numeral_go_app acc s : 
  Text.forallb Text.is_digit s = true →
  Text.numeral_go 10 acc s = acc * 10 ^ Z.of_nat (String.length s) + Text.numeral_go 10 0 s
  ∧ 0 ≤ Text.numeral_go 10 0 s < 10 ^ Z.of_nat (String.length s).
Proof.
  revert acc. induction s as [|c s IH]; intros acc; simpl.
  - intros _. lia.
  - intros [Hc Hs]%andb_prop.
    destruct (IH (10 * acc + Text.digit_val c) Hs) as [-> _].
    destruct (IH (10 * 0 + Text.digit_val c) Hs) as [-> B].
    assert (0 ≤ Text.digit_val c ≤ 9) as Hd.
    { unfold Text.is_digit, Text.between in Hc. unfold Text.digit_val.
      apply andb_prop in Hc as [?%N.leb_le ?%N.leb_le]. lia. }
    rewrite Nat2Z.inj_succ, Z.pow_succ_r by lia.
    nia.
Qed.

Lemma numeral_digits (s : string) (acc : Z) (d : nat) (seen : bool) :
  Text.forallb Text.is_digit s = true →
  PyInt.numeral acc d seen false s
  = if seen || negb (bool_decide (s = "")) 
    then Some (Text.numeral_go 10 acc s, (d + String.length s)%nat, "") else None.
Proof.
  revert acc d seen. induction s as [|c s IH]; intros acc d seen; simpl.
  - intros _. rewrite orb_false_r, andb_true_r, Nat.add_0_r. done.
  - intros [Hc Hs]%andb_prop. rewrite Hc. rewrite IH by done. simpl.
    rewrite orb_true_r. do 3 f_equal. lia.
Qed.

Lemma is_digit_inv (c : ascii) :
  Text.is_digit c = true →
  In c ["0"; "1"; "2"; "3"; "4"; "5"; "6"; "7"; "8"; "9"]%char.
Proof.
  destruct c as [[] [] [] [] [] [] [] []]; vm_compute; intros E;
    try discriminate E; auto 15.
Qed.

Lemma digit_not_space (c : ascii) : Text.is_digit c = true → PyInt.is_int_space c = false.
Proof. intros H%is_digit_inv. simpl in H. by repeat destruct H as [<-|H]. Qed.

Lemma parse_numeric (s : string) :
  numeric s → (String.length s ≤ max_str_digits)%nat →
  PyInt.parse s = Ok (Text.numeral_value 10 s).
Proof.
  intros [Hne Hd] Hlen. unfold PyInt.parse.
  destruct s as [|c s]; [done|].
  simpl in Hd. apply andb_prop in Hd as [Hc Hs].
  simpl. rewrite (digit_not_space c) by done.
  rewrite decide_False by (intros ->; done).
  rewrite decide_False by (intros ->; done).
  rewrite (numeral_digits (String c s)) by (simpl; by rewrite Hc, Hs).
  simpl. 
  destruct (max_str_digits <? S (String.length s))%nat eqn:El.
  { apply Nat.ltb_lt in El. simpl in Hlen. lia. }
  reflexivity.
Qed.

Lemma pretty_N_go_length (k : nat) (x : N) (s : string) :
  (x < 10 ^ N.of_nat k)%N →
  (String.length (pretty_N_go x s) ≤ k + String.length s)%nat.
Proof.
  revert x s. induction k as [|k IH]; intros x s Hx.
  - assert (x = 0%N) as -> by (simpl in Hx; lia). rewrite pretty_N_go_0. lia.
  - destruct (decide (x = 0%N)) as [->|Hnz].
    { rewrite pretty_N_go_0. lia. }
    rewrite pretty_N_go_step by lia.
    etrans; [apply IH|simpl; lia].
    rewrite Nat2N.inj_succ, N.pow_succ_r' in Hx.
    apply N.Div0.div_lt_upper_bound. lia.
Qed.

Lemma pretty_Z_length (k : nat) (z : Z) :
  0 ≤ z < 10 ^ Z.of_nat k → (0 < k)%nat → (String.length (pretty z) ≤ k)%nat.
Proof.
  intros Hz Hk. unfold pretty, pretty_Z.
  destruct z as [|p|p]; [simpl; lia| |lia].
  unfold pretty, pretty_positive, pretty, pretty_N.
  rewrite decide_False by done.
  etrans; [apply (pretty_N_go_length k)|simpl; lia].
  apply N2Z.inj_lt. rewrite N2Z.inj_pow, nat_N_Z. simpl. lia.
Qed.

Lemma to_str_small (k : nat) (z : Z) :
  0 ≤ z < 10 ^ Z.of_nat k → (0 < k ≤ max_str_digits)%nat → PyInt.to_str z = Ok (pretty z).
Proof.
  intros Hz Hk. unfold PyInt.to_str.
  rewrite Z.abs_eq by lia.
  pose proof (pretty_Z_length k z Hz ltac:(lia)).
  destruct (Nat.ltb_spec max_str_digits (String.length (pretty z))); [lia|done].
Qed.

Lemma take_drop (n : nat) (s : string) : Text.take n s +:+ Text.drop n s = s.
Proof.
  revert n. induction s as [|c s IH]; intros [|n]; simpl; try done.
  rewrite str_app_cons. f_equal. apply IH.
Qed.

Lemma drop_length (n : nat) (s : string) :
  String.length (Text.drop n s) = (String.length s - n)%nat.
Proof.
  revert n. induction s as [|c s IH]; intros [|n]; simpl; done.
Qed.

Lemma ret_world_of {A} (o : outcome A) (a : A) :
  returned o = Some a → o = Ret a (world_of o).
Proof. destruct o; simpl; [by intros [= ->]|done]. Qed.

(** ** Frame rules *)

Lemma evolves_refl (ps : list string) (w : world) : evolves ps w w.
Proof.
  repeat split; try done.
  - exists []. split; [by rewrite app_nil_r|]. intros ? ?%elem_of_nil. done.
  - exists []. by rewrite app_nil_r.
Qed.

Lemma evolves_trans (ps : list string) (w1 w2 w3 : world) :
  evolves ps w1 w2 → evolves ps w2 w3 → evolves ps w1 w3.
Proof.
  intros (F1 & (l1 & O1 & L1) & (o1 & S1) & A1 & C1) (F2 & (l2 & O2 & L2) & (o2 & S2) & A2 & C2).
  repeat split.
  - intros q Hq. rewrite F2, F1 by done. done.
  - exists (l1 ++ l2). split; [by rewrite O2, O1, app_assoc|].
    intros q [?|?]%elem_of_app; auto.
  - exists (o1 ++ o2). by rewrite S2, S1, app_assoc.
  - congruence.
  - congruence.
Qed.

Lemma evolves_weaken (ps qs : list string) (w w' : world) :
  (∀ p, p ∈ ps → p ∈ qs) → evolves ps w w' → evolves qs w w'.
Proof.
  intros Hsub (F & (l & O & L) & S & A & C).
  split; [|split; [|done]].
  - intros q Hq. apply F. intros ?. apply Hq. auto.
  - exists l. split; auto.
Qed.

Lemma evolves_nothing (w w' : world) :
  evolves [] w w' → files w' = files w ∧ opened w' = opened w.
Proof.
  intros (F & (l & O & L) & _). split.
  - apply map_eq. intros q. apply F. apply not_elem_of_nil.
  - destruct l as [|q l]; [by rewrite app_nil_r in O|].
    exfalso. eapply not_elem_of_nil, (L q). left.
Qed.

Lemma confined_weaken {A} (ps qs : list string) (m : M A) :
  (∀ p, p ∈ ps → p ∈ qs) → confined ps m → confined qs m.
Proof. intros Hsub Hm w. eapply evolves_weaken; eauto. Qed.

Lemma confined_ret {A} (ps : list string) (a : A) : confined ps (mret a).
Proof. intros w. apply evolves_refl. Qed.

Lemma confined_bind {A B} (ps : list string) (m : M A) (f : A → M B) :
  confined ps m → (∀ a, confined ps (f a)) → confined ps (m ≫= f).
Proof.
  intros Hm Hf w. rewrite bind_run. specialize (Hm w).
  destruct (m w) as [a w'|e w']; simpl in *; [|done].
  eapply evolves_trans; [exact Hm|apply Hf].
Qed.

Lemma confined_lift {A} (ps : list string) (r : result A) : confined ps (lift r).
Proof. intros w. destruct r; apply evolves_refl. Qed.

Lemma confined_raise {A} (ps : list string) (e : exn) : confined ps (@raise A e).
Proof. intros w. apply evolves_refl. Qed.

Lemma evolves_stdout (ps : list string) (f : list string) (w : world) :
  evolves ps w (set_stdout (λ out, out ++ f) w).
Proof.
  repeat split; try done.
  - exists []. split; [by rewrite app_nil_r|]. intros ? ?%elem_of_nil. done.
  - by exists f.
Qed.

Lemma confined_print (ps : list string) (s : string) : confined ps (print s).
Proof. intros w. apply evolves_stdout. Qed.

Lemma confined_path_exists (ps : list string) (p : string) : confined ps (path_exists p).
Proof. intros w. apply evolves_refl. Qed.

Lemma confined_read_text (ps : list string) (p : string) : confined ps (read_text p).
Proof. intros w. unfold read_text. destruct (files w !! p); apply evolves_refl. Qed.

Lemma confined_now (ps : list string) : confined ps now.
Proof. intros w. apply evolves_refl. Qed.

Lemma confined_http_get (ps : list string) (url key : string) : confined ps (http_get url key).
Proof. intros w. apply evolves_refl. Qed.

Lemma confined_open_w (ps : list string) (p : string) : p ∈ ps → confined ps (open_w p).
Proof.
  intros Hp w. unfold open_w. destruct (can_open w p); [|apply evolves_refl].
  repeat split; simpl; try done.
  - intros q Hq. apply lookup_insert_ne. intros ->. done.
  - exists [p]. split; [done|]. by intros q ->%list_elem_of_singleton.
  - exists []. by rewrite app_nil_r.
Qed.

Lemma confined_f_write (ps : list string) (p s : string) : p ∈ ps → confined ps (f_write p s).
Proof.
  intros Hp w. repeat split; simpl; try done.
  - intros q Hq. apply lookup_insert_ne. intros ->. done.
  - exists []. split; [by rewrite app_nil_r|]. intros ? ?%elem_of_nil. done.
  - exists []. by rewrite app_nil_r.
Qed.

Lemma confined_write_text (ps : list string) (p s : string) :
  p ∈ ps → confined ps (write_text p s).
Proof.
  intros Hp. apply confined_bind; [by apply confined_open_w|].
  intros _. by apply confined_f_write.
Qed.

Lemma confined_try_except {A} (ps : list string) (m : M A) (h : exn → M A) :
  confined ps m → (∀ e, confined ps (h e)) → confined ps (try_except m h).
Proof.
  intros Hm Hh w. unfold try_except. specialize (Hm w).
  destruct (m w) as [a w'|e w']; simpl in *; [done|].
  destruct (is_Exception e); simpl; [|done].
  eapply evolves_trans; [exact Hm|apply Hh].
Qed.

Lemma confined_for_each {A} (ps : list string) (l : list A) (body : A → M unit) :
  (∀ x, confined ps (body x)) → confined ps (for_each l body).
Proof.
  intros Hb. induction l as [|x l IH]; simpl.
  - apply confined_ret.
  - apply confined_bind; auto.
Qed.

Lemma confined_if {A} (ps : list string) (b : bool) (m1 m2 : M A) :
  confined ps m1 → confined ps m2 → confined ps (if b then m1 else m2).
Proof. by destruct b. Qed.

Create HintDb frame discriminated.

#[export] Hint Resolve confined_ret confined_lift confined_raise confined_print
  confined_path_exists confined_read_text confined_now confined_http_get
  confined_try_except confined_for_each confined_if : frame.
#[export] Hint Extern 1 (confined _ (_ ≫= _)) => (apply confined_bind; [|intros ?]) : frame.
#[export] Hint Extern 1 (confined _ (write_text _ _)) =>
  (apply confined_write_text; set_solver) : frame.
#[export] Hint Extern 1 (confined _ (open_w _)) => (apply confined_open_w; set_solver) : frame.
#[export] Hint Extern 1 (confined _ (f_write _ _)) => (apply confined_f_write; set_solver) : frame.
#[export] Hint Extern 2 (confined _ (match ?x with _ => _ end)) => destruct x : frame.

(** Proves [confined ps m] for a computation [m] of the script by its shape. *)
Ltac frame := auto 50 with frame.

(** ** The replacement template is read to its end *)

Lemma until_gt_shorter (s name rest : string) :
  Re.until_gt s = Some (name, rest) → (String.length rest < String.length s)%nat.
Proof.
  revert name. induction s as [|c s IH]; intros name; simpl; [done|].
  destruct (decide (c = ">"%char)); [intros [= _ <-]; lia|].
  destruct (Re.until_gt s) as [[nm r]|]; simpl; [|done].
  intros [= _ <-]. specialize (IH _ eq_refl). lia.
Qed.

Lemma parse_escape_shorter (s rest : string) (p : Re.piece) :
  Re.parse_escape s = Ok (p, rest) → (String.length rest < String.length s)%nat.
Proof.
  unfold Re.parse_escape. destruct s as [|c r1]; [done|].
  repeat case_match; simplify_eq/=; try done; intros; simplify_eq/=; try lia.
  all: match goal with H : Re.until_gt _ = Some _ |- _ =>
                         apply until_gt_shorter in H; simpl in *; lia end.
Qed.

Lemma parse_template_go_fuel (fuel : nat) (s : string) :
  (String.length s ≤ fuel)%nat →
  Re.parse_template_go fuel s = Re.parse_template_go (String.length s) s.
Proof.
  revert s. induction (lt_wf fuel) as [fuel _ IH]. intros s Hlen.
  destruct s as [|c s]; [by destruct fuel|].
  destruct fuel as [|fuel]; [simpl in Hlen; lia|]. simpl in *.
  destruct (decide (c = "\"%char)).
  - destruct (Re.parse_escape s) as [[p rest]|err] eqn:E; simpl; [|done].
    apply parse_escape_shorter in E.
    rewrite (IH fuel) by lia. by rewrite (IH (String.length s)) by lia.
  - rewrite (IH fuel) by lia. done.
Qed.
(** ** The file patcher *)

Section Patcher.

Context `{!Runtime} (self : updater) (models : list dict).

(** The popup patcher, by the cases of its file. *)
Lemma update_popup_html_run (w : world) :
  update_popup_html self models w =
  match files w !! (popup_file self) with
  | None =>
      Ret false (set_stdout (λ out, out ++ [("Error: " +:+ (popup_file self) +:+ " not found") +:+ Text.nl]) w)
  | Some text =>
      let content := Text.universal_newlines text in
      let w1 := set_stdout (λ out, out ++ [("Updating " +:+ (popup_file self) +:+ "...") +:+ Text.nl]) w in
      match Re.search select_pattern content with
      | None =>
          Ret false (set_stdout (λ out, out ++ ["Error: Could not find model select dropdown in popup.html" +:+ Text.nl]) w1)
      | Some m =>
          match map_result option_line models with
          | Err e => Raise e w1
          | Ok options_html =>
              Ret true
                (set_stdout
                   (λ out, out ++ [("Updated " +:+ (popup_file self) +:+ " with "
                                    +:+ pretty (length models) +:+ " models") +:+ Text.nl])
                   (set_opened (λ o, o ++ [(popup_file self)])
                      (set_files
                         (insert (popup_file self)
                            (Text.replace (Re.group content m) (new_select options_html) content))
                         w1)))
          end
      end
  end.
Proof.
  unfold update_popup_html. fold (popup_file self).
  destruct (files w !! (popup_file self)) as [text|] eqn:E.
  - rewrite bind_run, (path_exists_some _ text) by done. simpl.
    rewrite bind_run, print_run, bind_run.
    rewrite (read_text_some _ text) by done.
    destruct (Re.search select_pattern (Text.universal_newlines text)) as [m|]; [|reflexivity].
    rewrite bind_run. unfold lift.
    destruct (map_result option_line models); [|reflexivity].
    rewrite bind_run, (write_text_some _ text) by done.
    run. reflexivity.
  - rewrite bind_run, path_exists_none by done. reflexivity.
Qed.

Lemma update_content_js_run (w : world) :
  update_content_js_model_mapping self models w =
  match files w !! (content_file self) with
  | None =>
      Ret false (set_stdout (λ out, out ++ [("Error: " +:+ (content_file self) +:+ " not found") +:+ Text.nl]) w)
  | Some text =>
      let content := Text.universal_newlines text in
      let w1 := set_stdout (λ out, out ++ [("Updating " +:+ (content_file self) +:+ "...") +:+ Text.nl]) w in
      match Re.search mapping_pattern content with
      | None =>
          Ret false (set_stdout (λ out, out ++ ["Error: Could not find model mapping in content.js" +:+ Text.nl]) w1)
      | Some _ =>
          match mapping_lines models with
          | Err e => Raise e w1
          | Ok lines =>
              match Re.sub mapping_pattern (Text.join Text.nl lines +:+ Text.nl) content with
              | Err e => Raise e w1
              | Ok content' =>
                  Ret true
                    (set_stdout
                       (λ out, out ++ [("Updated model mapping in " +:+ (content_file self)) +:+ Text.nl])
                       (set_opened (λ o, o ++ [(content_file self)])
                          (set_files (insert (content_file self) content') w1)))
              end
          end
      end
  end.
Proof.
  unfold update_content_js_model_mapping. fold (content_file self).
  destruct (files w !! (content_file self)) as [text|] eqn:E.
  - rewrite bind_run, (path_exists_some _ text) by done. simpl.
    rewrite bind_run, print_run, bind_run.
    rewrite (read_text_some _ text) by done.
    destruct (Re.search mapping_pattern (Text.universal_newlines text)) as [m|]; [|reflexivity].
    rewrite bind_run. unfold lift.
    destruct (mapping_lines models); [|reflexivity].
    rewrite bind_run.
    destruct (Re.sub _ _ _); [|reflexivity].
    rewrite bind_run, (write_text_some _ text) by done.
    run. reflexivity.
  - rewrite bind_run, path_exists_none by done. reflexivity.
Qed.

(** The popup patcher keeps the contract of a patcher for the dropdown. *)
Lemma popup_patch_contract :
  patch_contract (update_popup_html self models) (popup_file self) select_pattern.
Proof.
  intros w. rewrite update_popup_html_run. unfold overwritten, untouched, text_read.
  destruct (files w !! (popup_file self)) as [text|]; simpl.
  + destruct (Re.search select_pattern (Text.universal_newlines text)) as [m|] eqn:Em.
    * destruct (map_result option_line models) as [opts|e]; simpl.
      -- split; [intros ? [= <-]; congruence|].
         split; [|intros ?? [=]].
         intros b w' [= <- <-]; simpl.
         repeat split; eauto; congruence.
      -- split; [intros ? [= <-]; congruence|].
         split; [intros ?? [=]|]. intros ?? [= <- <-]. done.
    * split; [intros ? _ _; eexists; done|].
      split; [|intros ?? [=]].
      intros b w' [= <- <-]; simpl. repeat split; try done.
      -- intros E. by apply app_singleton_neq in E.
      -- intros (t & [= <-] & [? ?]). congruence.
      -- intros E. by apply app_singleton_neq in E.
  + split; [intros ? [=]|].
    split; [|intros ?? [=]].
    intros b w' [= <- <-]; simpl. repeat split; try done.
    * intros E. by apply app_singleton_neq in E.
    * intros (t & [=] & _).
    * intros E. by apply app_singleton_neq in E.
Qed.

(** The mapping patcher keeps it for the declaration of [model_id]. *)
Lemma content_patch_contract :
  patch_contract (update_content_js_model_mapping self models) (content_file self) mapping_pattern.
Proof.
  intros w. rewrite update_content_js_run. unfold overwritten, untouched, text_read.
  destruct (files w !! (content_file self)) as [text|]; simpl.
  + destruct (Re.search mapping_pattern (Text.universal_newlines text)) as [m|] eqn:Em.
    * destruct (mapping_lines models) as [ls|e]; simpl;
        [destruct (Re.sub _ _ _) as [c'|e]; simpl|].
      -- split; [intros ? [= <-]; congruence|].
         split; [|intros ?? [=]].
         intros b w' [= <- <-]; simpl.
         repeat split; eauto; congruence.
      -- split; [intros ? [= <-]; congruence|].
         split; [intros ?? [=]|]. intros ?? [= <- <-]. done.
      -- split; [intros ? [= <-]; congruence|].
         split; [intros ?? [=]|]. intros ?? [= <- <-]. done.
    * split; [intros ? _ _; eexists; done|].
      split; [|intros ?? [=]].
      intros b w' [= <- <-]; simpl. repeat split; try done.
      -- intros E. by apply app_singleton_neq in E.
      -- intros (t & [= <-] & [? ?]). congruence.
      -- intros E. by apply app_singleton_neq in E.
  + split; [intros ? [=]|].
    split; [|intros ?? [=]].
    intros b w' [= <- <-]; simpl. repeat split; try done.
    * intros E. by apply app_singleton_neq in E.
    * intros (t & [=] & _).
    * intros E. by apply app_singleton_neq in E.
Qed.

End Patcher.

(** ** The generated blocks *)

Lemma map_result_Forall2 {A B} (f : A → result B) (l : list A) (l' : list B) :
  map_result f l = Ok l' → Forall2 (λ x y, f x = Ok y) l l'.
Proof.
  revert l'. induction l as [|x l IH]; intros l'; simpl.
  - intros [= <-]. constructor.
  - unfold mbind, result_bind, mret, result_ret.
    destruct (f x) as [y|] eqn:Ey; [|done].
    destruct (map_result f l) as [ys|]; [|done].
    intros [= <-]. constructor; auto.
Qed.

Lemma Forall2_map_result {A B} (f : A → result B) (l : list A) (l' : list B) :
  Forall2 (λ x y, f x = Ok y) l l' → map_result f l = Ok l'.
Proof.
  induction 1 as [|x y l l' E _ IH]; simpl; [done|].
  unfold mbind, result_bind, mret, result_ret. by rewrite E, IH.
Qed.

Section Blocks.

Context `{!Runtime}.

Lemma option_line_text (model : dict) (line : string) :
  option_line model = Ok line → line = option_text model.
Proof.
  unfold option_line, format_model_for_dropdown, option_text.
  unfold mbind, result_bind, mret, result_ret.
  destruct (truthy _); [destruct (py_slice_to _ _); [|done]|];
    simpl; by intros [= <-].
Qed.

Lemma option_lines_text (models : list dict) (options_html : list string) :
  map_result option_line models = Ok options_html → options_html = option_text <$> models.
Proof.
  intros E%map_result_Forall2.
  induction E as [|model line models lines El _ IH]; [done|].
  rewrite fmap_cons. f_equal; [by apply option_line_text|exact IH].
Qed.

Lemma mapping_line_text (total i : nat) (model : dict) (line : string) :
  mapping_line total i model = Ok line →
  line = mapping_text (bool_decide (S i = total)) model.
Proof.
  unfold mapping_line, mapping_text, mapping_entry, mode_key.
  destruct (dict_get model "name" (JStr "")) as [| | | |name| |]; try done.
  simpl py_lower. unfold mbind, result_bind, mret, result_ret.
  intros [= <-].
  destruct (bool_decide (Z.of_nat i = Z.of_nat total - 1)) eqn:E1;
    destruct (bool_decide (S i = total)) eqn:E2; try reflexivity.
  - apply bool_decide_eq_true in E1. apply bool_decide_eq_false in E2. lia.
  - apply bool_decide_eq_false in E1. apply bool_decide_eq_true in E2. lia.
Qed.

Lemma split_one_line (a : string) : one_line a → lines_of a = [a].
Proof.
  unfold one_line, lines_of. induction a as [|c a IH]; simpl; [done|].
  intros [Hc Ha]%orb_false_elim. apply bool_decide_eq_false in Hc.
  rewrite decide_False by done. by rewrite IH.
Qed.

Lemma split_line_app (a r : string) :
  one_line a → lines_of (a +:+ Text.nl +:+ r) = a :: lines_of r.
Proof.
  unfold one_line, lines_of. induction a as [|c a IH]; simpl.
  - intros _. reflexivity.
  - intros [Hc Ha]%orb_false_elim. apply bool_decide_eq_false in Hc.
    rewrite decide_False by done. by rewrite IH.
Qed.

Lemma lines_of_join (lines : list string) :
  lines ≠ [] → Forall one_line lines → lines_of (Text.join Text.nl lines) = lines.
Proof.
  induction lines as [|a lines IH]; [done|]. intros _ [Ha Hl]%Forall_cons.
  destruct lines as [|b lines]; [by apply split_one_line|].
  change (Text.join Text.nl (a :: b :: lines))
    with (a +:+ Text.nl +:+ Text.join Text.nl (b :: lines)).
  rewrite split_line_app by done. f_equal. by apply IH.
Qed.

Lemma lines_of_join_then (lines : list string) (last : string) :
  lines ≠ [] → Forall one_line lines → one_line last →
  lines_of (Text.join Text.nl lines +:+ Text.nl +:+ last) = lines ++ [last].
Proof.
  induction lines as [|a lines IH]; [done|]. intros _ [Ha Hl]%Forall_cons Hlast.
  destruct lines as [|b lines].
  - simpl Text.join. rewrite split_line_app by done. by rewrite split_one_line.
  - change (Text.join Text.nl (a :: b :: lines))
      with (a +:+ Text.nl +:+ Text.join Text.nl (b :: lines)).
    rewrite !str_app_assoc, split_line_app by done.
    rewrite <- app_comm_cons. f_equal. by apply IH.
Qed.

(** C4, as the code has it. When the dropdown is generated, its option
    lines are those of the models, one for each in the order of the list,
    [  <option value="id">name</option>]; for a list that is not empty
    and lines that hold no line end, the lines of the generated text are
    the opening tag, these option lines and the closing tag. When the
    mapping is generated, its lines are the heading and one line for each
    model in the order of the list, the test of the mode against key and
    id for every model but the last, the default for the last; when they
    hold no line end they are the lines of the generated text. *)
Theorem one_entry_per_model (models : list dict) :
  (∀ options_html : list string,
      map_result option_line models = Ok options_html →
      options_html = option_text <$> models
      ∧ (models ≠ [] → Forall one_line options_html →
         lines_of (new_select options_html) = select_open :: options_html ++ [select_close]))
  ∧ (∀ lines : list string,
        mapping_lines models = Ok lines →
        lines = "  const model_id ="
                :: imap (λ i model, mapping_text (bool_decide (S i = length models)) model)
                     models
        ∧ (Forall one_line lines → lines_of (Text.join Text.nl lines) = lines)).
Proof.
  split.
  - intros opts E. pose proof (option_lines_text _ _ E) as Eo.
    split; [exact Eo|]. intros Hne Hl. unfold new_select.
    rewrite split_line_app by reflexivity. f_equal.
    apply lines_of_join_then; [|done|reflexivity].
    rewrite Eo. by destruct models.
  - intros lines. unfold mapping_lines.
    unfold mbind at 1, result_bind, mret, result_ret.
    destruct (map_result _ _) as [entries|] eqn:E; [|done].
    intros [= <-]. split.
    + f_equal. apply map_result_Forall2 in E.
      assert (entries
              = (λ '(i, model), mapping_text (bool_decide (S i = length models)) model)
                  <$> imap (λ i model, (i, model)) models) as ->.
      { induction E as [|[i model] line l l' El _ IH]; [done|].
        rewrite fmap_cons. f_equal; [by apply mapping_line_text|exact IH]. }
      by rewrite fmap_imap.
    + intros Hl. by apply lines_of_join.
Qed.

End Blocks.

(** ** The version bumper *)

Section Manifest.

Context `{!Runtime} (self : updater).


Lemma parse_error_is_Exception (s : string) (e : exn) :
  PyInt.parse s = Err e → is_Exception e = true.
Proof.
  unfold PyInt.parse.
  destruct (match PyInt.skip_space s with "" => _ | String _ _ => _ end) as [neg body].
  destruct (PyInt.numeral _ _ _ _ _) as [[[v digits] rest]|]; [|by intros [= <-]].
  destruct (_ <? _)%nat; [by intros [= <-]|].
  destruct (PyInt.skip_space rest); [done|by intros [= <-]].
Qed.

(** C2, as the code has it. With a manifest that, read as text (every
    line end a line feed), decodes to an object whose version is a text: when the version is three parts separated by
    dots, the third a decimal numeral of fewer than 4300 digits, the bumper
    writes the manifest back with the third part increased by one, the
    first two copied as they are, numeric or not, and returns [True]; when
    the version does not split into exactly three parts, it returns
    [False] and changes nothing, standard output included; when it splits
    into three and [int] refuses the third, it returns [False], writes no
    file and prints the error. *)
Theorem version_bump (w : world) (text : string) (d : dict) (v : string) :
  files w !! (manifest_file self) = Some text →
  json_loads (Text.universal_newlines text) = Ok (JDict d) →
  dict_get d "version" (JStr "1.0.0") = JStr v →
  (∀ major minor patch : string,
      v = major +:+ "." +:+ minor +:+ "." +:+ patch →
      dot_free major → dot_free minor → numeric patch →
      (String.length patch < max_str_digits)%nat →
      let new_version :=
        major +:+ "." +:+ minor +:+ "." +:+ pretty (Text.numeral_value 10 patch + 1) in
      update_manifest_version self w
      = Ret true
          (set_stdout
             (λ out, out ++ [("Updated manifest version from " +:+ v +:+ " to "
                              +:+ new_version) +:+ Text.nl])
             (set_opened (λ o, o ++ [(manifest_file self)])
                (set_files
                   (insert (manifest_file self)
                      (json_dumps (JDict (dict_set "version" (JStr new_version) d))))
                   w))))
  ∧ (length (Text.split "." v) ≠ 3%nat → update_manifest_version self w = Ret false w)
  ∧ (∀ (major minor patch : string) (e : exn),
        Text.split "." v = [major; minor; patch] →
        PyInt.parse patch = Err e →
        update_manifest_version self w
        = Ret false
            (set_stdout (λ out, out ++ [("Error updating manifest: " +:+ exn_str e) +:+ Text.nl]) w)).
Proof.
  intros Hfile Hload Hver.
  unfold update_manifest_version. fold (manifest_file self).
  rewrite bind_run, (path_exists_some _ text) by done. change (negb true) with false. cbv beta iota.
  unfold try_except. cbv beta.
  rewrite bind_run, (read_text_some _ text) by done. cbv beta iota.
  rewrite bind_run, Hload, lift_ok. cbv beta iota.
  rewrite bind_run. simpl py_get. rewrite Hver, lift_ok. cbv beta iota.
  rewrite bind_run. simpl py_split_dot. rewrite lift_ok. cbv beta iota.
  split; [|split].
  - intros major minor patch -> Hmaj Hmin [Hne Hdig] Hlen.
    rewrite split_three_parts by auto using digit_dot_free.
    rewrite bind_run.
    rewrite parse_numeric by (first [by split | unfold max_str_digits in *; lia]).
    rewrite lift_ok. cbv beta iota.
    destruct (numeral_go_app 0 patch Hdig) as [_ Hb].
    fold (Text.numeral_value 10 patch) in Hb.
    rewrite bind_run, (to_str_small (S (String.length patch))), lift_ok.
    2:{ rewrite Nat2Z.inj_succ, Z.pow_succ_r by lia. lia. }
    2:{ unfold max_str_digits in *. lia. }
    cbv beta iota.
    rewrite bind_run. simpl py_setitem. rewrite lift_ok. cbv beta iota.
    rewrite bind_run, (write_text_some _ text) by done. cbv beta iota.
    rewrite bind_run, print_run. reflexivity.
  - intros Hlen.
    destruct (Text.split "." v) as [|a [|b [|c [|? ?]]]];
      first [reflexivity | by destruct Hlen].
  - intros major minor patch e -> Hparse.
    rewrite bind_run, Hparse, lift_err.
    rewrite (parse_error_is_Exception _ _ Hparse). reflexivity.
Qed.

End Manifest.

(** ** The frame of every step *)

Section Steps.

Context `{!Runtime} (self : updater).

Lemma fetch_models_confined (ps : list string) : confined ps (fetch_models self).
Proof. unfold fetch_models. frame. Qed.

Lemma fetch_voices_confined (ps : list string) : confined ps (fetch_voices self).
Proof. unfold fetch_voices. frame. Qed.

Lemma get_user_subscription_confined (ps : list string) :
  confined ps (get_user_subscription self).
Proof. unfold get_user_subscription. frame. Qed.

Lemma update_popup_html_confined (models : list dict) :
  confined [popup_file self] (update_popup_html self models).
Proof. unfold update_popup_html, popup_file. frame. Qed.

Lemma update_content_js_confined (models : list dict) :
  confined [content_file self] (update_content_js_model_mapping self models).
Proof. unfold update_content_js_model_mapping, content_file. frame. Qed.

Lemma create_models_json_confined (models : list dict) :
  confined [models_file self] (create_models_json self models).
Proof. unfold create_models_json, models_file. frame. Qed.

Lemma create_voices_json_confined (voices : json) :
  confined [voices_file self] (create_voices_json self voices).
Proof. unfold create_voices_json, voices_file. frame. Qed.

Lemma update_manifest_version_confined :
  confined [manifest_file self] (update_manifest_version self).
Proof. unfold update_manifest_version, manifest_file. frame. Qed.

Lemma create_update_report_confined (models : list dict) (voices subscription : json) :
  confined [report_file self] (create_update_report self models voices subscription).
Proof. unfold create_update_report, report_file. frame. Qed.

End Steps.

(** ** What each step returns *)

Lemma bind_ret_inv {A B} (m : M A) (f : A → M B) (w w' : world) (b : B) :
  (m ≫= f) w = Ret b w' → ∃ a w1, m w = Ret a w1 ∧ f a w1 = Ret b w'.
Proof. rewrite bind_run. destruct (m w) as [a w1|]; [eauto|done]. Qed.

Lemma lift_ret_inv {A} (r : result A) (w w' : world) (a : A) :
  lift r w = Ret a w' → r = Ok a ∧ w' = w.
Proof. destruct r; simpl; [by intros [= <- <-]|done]. Qed.

Lemma print_ret_inv (s : string) (w w' : world) (u : unit) :
  print s w = Ret u w' → w' = printed [s +:+ Text.nl] w.
Proof. by intros [= <-]. Qed.

Lemma printed_printed (a b : list string) (w : world) :
  printed b (printed a w) = printed (a ++ b) w.
Proof. unfold printed, set_stdout. simpl. by rewrite app_assoc. Qed.

Lemma join_snoc_inj (sep : string) (l : list string) (a b : string) :
  Text.join sep (l ++ [a]) = Text.join sep (l ++ [b]) → a = b.
Proof.
  induction l as [|x l IH]; simpl; [done|].
  destruct (l ++ [a]) as [|y la] eqn:Ea; [by destruct l|].
  destruct (l ++ [b]) as [|z lb] eqn:Eb; [by destruct l|].
  intros E. apply String.app_inj, String.app_inj in E. auto.
Qed.

Lemma map_result_cons_ok {A B} (f : A → result B) (x : A) (l : list A) (y : B) (ys : list B) :
  f x = Ok y → map_result f l = Ok ys → map_result f (x :: l) = Ok (y :: ys).
Proof. intros E1 E2. simpl. by rewrite E1, E2. Qed.

Section Runs.

Context `{!Runtime} (self : updater).

Lemma file_inj (a b : string) : file self a = file self b → a = b.
Proof.
  unfold file, Path.str, Path.joinpath. simpl.
  generalize (Path.root (extension_path self)) (Path.parts (extension_path self)).
  intros r l E. apply (join_snoc_inj "/" l).
  apply (String.app_inj r).
  destruct r as [|c r]; [|exact E].
  destruct (l ++ [a]) as [|y la] eqn:Ea; [by destruct l|].
  destruct (l ++ [b]) as [|z lb] eqn:Eb; [by destruct l|].
  exact E.
Qed.

Lemma fetch_models_run (w : world) :
  ∃ w1, evolves [] w w1
        ∧ fetch_models self w = match fetched_models self w with
                                | Ok models => Ret models w1
                                | Err e => Raise e w1
                                end.
Proof.
  unfold fetch_models, fetched_models.
  rewrite bind_run, print_run. cbv beta iota.
  rewrite bind_run. unfold http_get at 1. cbv beta iota. rewrite api_set_stdout.
  destruct (api w _ _) as [msg|data|e].
  - eexists. split; [|reflexivity].
    unfold printed. repeat (eapply evolves_trans; [|apply evolves_stdout]). apply evolves_refl.
  - rewrite bind_run. destruct (tts_only data) as [models|e].
    + eexists. split; [|reflexivity].
      repeat (eapply evolves_trans; [|apply evolves_stdout]). apply evolves_refl.
    + eexists. split; [|reflexivity]. apply evolves_stdout.
  - eexists. split; [|reflexivity]. apply evolves_stdout.
Qed.

Lemma fetch_voices_run (w : world) :
  ∃ w1, evolves [] w w1
        ∧ fetch_voices self w = match fetched_voices self w with
                                | Ok voices => Ret voices w1
                                | Err e => Raise e w1
                                end.
Proof.
  unfold fetch_voices, fetched_voices.
  rewrite bind_run, print_run. cbv beta iota.
  rewrite bind_run. unfold http_get at 1. cbv beta iota. rewrite api_set_stdout.
  destruct (api w _ _) as [msg|data|e].
  - eexists. split; [|reflexivity].
    repeat (eapply evolves_trans; [|apply evolves_stdout]). apply evolves_refl.
  - rewrite bind_run. destruct (py_get data "voices" (JList [])) as [voices|e].
    + rewrite lift_ok. cbv beta iota. rewrite bind_run.
      simpl. destruct (py_len voices) as [n|e].
      * eexists. split; [|reflexivity].
        repeat (eapply evolves_trans; [|apply evolves_stdout]). apply evolves_refl.
      * eexists. split; [|reflexivity]. apply evolves_stdout.
    + eexists. split; [|reflexivity]. apply evolves_stdout.
  - eexists. split; [|reflexivity]. apply evolves_stdout.
Qed.

Lemma get_user_subscription_run (w : world) :
  ∃ w1, evolves [] w w1
        ∧ get_user_subscription self w = match fetched_subscription self w with
                                         | Ok subscription => Ret subscription w1
                                         | Err e => Raise e w1
                                         end.
Proof.
  unfold get_user_subscription, fetched_subscription.
  rewrite bind_run, print_run. cbv beta iota.
  rewrite bind_run. unfold http_get at 1. cbv beta iota. rewrite api_set_stdout.
  destruct (api w _ _) as [msg|data|e].
  - eexists. split; [|reflexivity].
    repeat (eapply evolves_trans; [|apply evolves_stdout]). apply evolves_refl.
  - eexists. split; [|reflexivity]. apply evolves_stdout.
  - eexists. split; [|reflexivity]. apply evolves_stdout.
Qed.

Lemma create_models_json_run (models : list dict) (w : world) :
  create_models_json self models w
  = if can_open w (models_file self) then
      Ret true
        (printed [("Created " +:+ models_file self +:+ " with model information") +:+ Text.nl]
           (written (models_file self) (json_dumps (models_snapshot models)) w))
    else Raise (no_such_file (models_file self)) w.
Proof.
  unfold create_models_json. fold (models_file self).
  rewrite bind_run, write_text_run.
  destruct (can_open w (models_file self)); [|reflexivity]. cbv beta iota.
  rewrite bind_run, print_run. reflexivity.
Qed.

Lemma create_models_json_ret (models : list dict) (w w' : world) (b : bool) :
  create_models_json self models w = Ret b w' →
  can_open w (models_file self) = true
  ∧ w' = printed [("Created " +:+ models_file self +:+ " with model information") +:+ Text.nl]
           (written (models_file self) (json_dumps (models_snapshot models)) w).
Proof.
  rewrite create_models_json_run.
  destruct (can_open w (models_file self)); [|done]. by intros [= _ <-].
Qed.

Lemma create_voices_json_ret (voices : json) (w w' : world) (b : bool) :
  create_voices_json self voices w = Ret b w' →
  ∃ doc, voices_snapshot voices = Ok doc
         ∧ can_open w (voices_file self) = true
         ∧ w' = printed [("Created " +:+ voices_file self +:+ " with voice information") +:+ Text.nl]
                  (written (voices_file self) (json_dumps doc) w).
Proof.
  unfold create_voices_json, voices_snapshot. fold (voices_file self).
  intros (items & ? & [E1 ->]%lift_ret_inv & E)%bind_ret_inv.
  apply bind_ret_inv in E as (formatted & ? & [E2 ->]%lift_ret_inv & E).
  rewrite bind_run, write_text_run in E.
  destruct (can_open w (voices_file self)); [|done]. cbv beta iota in E.
  rewrite bind_run, print_run in E. injection E as <- <-.
  rewrite E1. simpl. rewrite E2. eexists. repeat split; reflexivity.
Qed.

Lemma appended_written (p t s : string) (w : world) :
  appended p s (written p t w) = written p (t +:+ s) w.
Proof.
  unfold appended, written, set_files, set_opened. simpl.
  by rewrite lookup_insert_eq, insert_insert_eq.
Qed.

Lemma f_write_written (p t s : string) (w w' : world) (u : unit) :
  f_write p s (written p t w) = Ret u w' → w' = written p (t +:+ s) w.
Proof. intros [= E]. subst w'. apply appended_written. Qed.

Lemma report_loop (models : list dict) (acc : string) (w w' : world) (u : unit) :
  for_each models (λ model,
      f_write (report_file self)
        ("- " +:+ py_str (dict_get model "name" JNull)
         +:+ " (" +:+ py_str (dict_get model "model_id" JNull) +:+ ")" +:+ Text.nl);;
      f_write (report_file self)
        ("  Description: " +:+ py_str (dict_get model "description" (JStr "N/A"))
         +:+ Text.nl);;
      languages ← lift (languages_text model);
      f_write (report_file self) ("  Languages: " +:+ languages);;
      f_write (report_file self)
        ("  Token cost: " +:+ py_str (dict_get model "token_cost_factor" (JFloat 1))
         +:+ "x" +:+ Text.nl +:+ Text.nl))
    (written (report_file self) acc w) = Ret u w' →
  ∃ sections, map_result model_section models = Ok sections
              ∧ w' = written (report_file self) (acc +:+ concat_texts sections) w.
Proof.
  revert acc w'. induction models as [|model models IH]; intros acc w'; simpl for_each.
  - intros [= <-]. exists []. by rewrite str_app_nil_r.
  - intros (? & w1 & E1 & E)%bind_ret_inv.
    apply bind_ret_inv in E1 as (? & ? & ->%f_write_written & E1).
    apply bind_ret_inv in E1 as (? & ? & ->%f_write_written & E1).
    apply bind_ret_inv in E1 as (languages & ? & [El ->]%lift_ret_inv & E1).
    apply bind_ret_inv in E1 as (? & ? & ->%f_write_written & E1).
    apply f_write_written in E1 as ->.
    apply IH in E as (sections & Es & ->).
    eexists. split.
    { apply map_result_cons_ok; [|exact Es].
      unfold model_section. rewrite El. reflexivity. }
    f_equal. simpl concat_texts. by rewrite !str_app_assoc.
Qed.

Lemma subscription_writes (subscription : json) (acc : string) (w w' : world) (u : unit) :
  (if truthy subscription then
     tier ← lift (py_get subscription "tier" (JStr "N/A"));
     f_write (report_file self) ("Tier: " +:+ py_str tier +:+ Text.nl);;
     limit ← lift (py_get subscription "character_limit" (JStr "N/A"));
     f_write (report_file self) ("Character limit: " +:+ py_str limit +:+ Text.nl);;
     count ← lift (py_get subscription "character_count" (JStr "N/A"));
     f_write (report_file self) ("Character count: " +:+ py_str count +:+ Text.nl);;
     instant ← lift (py_get subscription "can_use_instant_voice_cloning" (JBool false));
     f_write (report_file self) ("Can use instant voice cloning: " +:+ py_str instant +:+ Text.nl);;
     professional ← lift (py_get subscription "can_use_professional_voice_cloning" (JBool false));
     f_write (report_file self)
       ("Can use professional voice cloning: " +:+ py_str professional +:+ Text.nl)
   else mret ()) (written (report_file self) acc w) = Ret u w' →
  ∃ info, subscription_section subscription = Ok info
          ∧ w' = written (report_file self) (acc +:+ info) w.
Proof.
  unfold subscription_section. destruct (truthy subscription).
  - intros (tier & ? & [E1 ->]%lift_ret_inv & E)%bind_ret_inv.
    apply bind_ret_inv in E as (? & ? & ->%f_write_written & E).
    apply bind_ret_inv in E as (limit & ? & [E2 ->]%lift_ret_inv & E).
    apply bind_ret_inv in E as (? & ? & ->%f_write_written & E).
    apply bind_ret_inv in E as (count & ? & [E3 ->]%lift_ret_inv & E).
    apply bind_ret_inv in E as (? & ? & ->%f_write_written & E).
    apply bind_ret_inv in E as (instant & ? & [E4 ->]%lift_ret_inv & E).
    apply bind_ret_inv in E as (? & ? & ->%f_write_written & E).
    apply bind_ret_inv in E as (professional & ? & [E5 ->]%lift_ret_inv & E).
    apply f_write_written in E as ->.
    rewrite E1. simpl. rewrite E2. simpl. rewrite E3. simpl. rewrite E4. simpl.
    rewrite E5. simpl.
    eexists. split; [reflexivity|]. f_equal. simpl. by rewrite !str_app_assoc.
  - intros [= <-]. exists "". by rewrite str_app_nil_r.
Qed.

Lemma create_update_report_ret (models : list dict) (voices subscription : json)
    (w w' : world) (b : bool) :
  create_update_report self models voices subscription w = Ret b w' →
  ∃ text, report_text models voices subscription (clock w) = Ok text
          ∧ can_open w (report_file self) = true
          ∧ w' = printed [("Created update report: " +:+ report_file self) +:+ Text.nl]
                   (written (report_file self) text w).
Proof.
  unfold create_update_report. fold (report_file self).
  intros (? & w0 & E0 & E)%bind_ret_inv.
  unfold open_w in E0. destruct (can_open w (report_file self)); [|done].
  assert (w0 = written (report_file self) "" w) as -> by (by injection E0 as <-).
  clear E0.
  apply bind_ret_inv in E as (? & ? & ->%f_write_written & E).
  apply bind_ret_inv in E as (date & ? & [= <- <-] & E).
  apply bind_ret_inv in E as (? & ? & ->%f_write_written & E).
  apply bind_ret_inv in E as (? & ? & ->%f_write_written & E).
  apply bind_ret_inv in E as (n & ? & [En ->]%lift_ret_inv & E).
  apply bind_ret_inv in E as (? & ? & ->%f_write_written & E).
  apply bind_ret_inv in E as (? & ? & ->%f_write_written & E).
  apply bind_ret_inv in E as (? & ? & (sections & Es & ->)%report_loop & E).
  apply bind_ret_inv in E as (? & ? & ->%f_write_written & E).
  apply bind_ret_inv in E as (? & ? & (info & Ei & ->)%subscription_writes & E).
  apply bind_ret_inv in E as (? & ? & ->%print_ret_inv & [= <- <-]).
  unfold report_text. rewrite En. simpl. rewrite Es. simpl. rewrite Ei. simpl.
  eexists. split; [reflexivity|]. split; [reflexivity|].
  do 2 f_equal. simpl. by rewrite !str_app_assoc.
Qed.

End Runs.

(** ** The complete update *)

Section Run.

Context `{!Runtime} (self : updater).

Lemma fetched_same_api (w v : world) :
  api v = api w →
  fetched_models self v = fetched_models self w
  ∧ fetched_voices self v = fetched_voices self w
  ∧ fetched_subscription self v = fetched_subscription self w.
Proof.
  intros E. unfold fetched_models, fetched_voices, fetched_subscription.
  by rewrite E.
Qed.

(** The banners and the three fetches, up to the test on the model list. *)
Lemma fetches_run {B} (k : list dict → json → json → M B) (w : world) :
  ∃ w3, evolves [] w w3
        ∧ (print rule;;
           print "ElevenLabs Chrome Extension Updater";;
           print rule;;
           models ← fetch_models self;
           voices ← fetch_voices self;
           subscription ← get_user_subscription self;
           k models voices subscription) w
          = match fetched_models self w with
            | Err e => Raise e w3
            | Ok models =>
                match fetched_voices self w with
                | Err e => Raise e w3
                | Ok voices =>
                    match fetched_subscription self w with
                    | Err e => Raise e w3
                    | Ok subscription => k models voices subscription w3
                    end
                end
            end.
Proof.
  rewrite bind_run, print_run. cbv beta iota.
  rewrite bind_run, print_run. cbv beta iota.
  rewrite bind_run, print_run. cbv beta iota.
  set (w0 := set_stdout _ (set_stdout _ (set_stdout _ w))).
  assert (evolves [] w w0) as H0.
  { subst w0. repeat (eapply evolves_trans; [|apply evolves_stdout]). apply evolves_refl. }
  destruct (fetched_same_api w w0) as (A1 & _ & _); [apply H0|].
  rewrite bind_run.
  destruct (fetch_models_run self w0) as (w1 & H1 & ->). rewrite A1.
  destruct (fetched_models self w) as [models|e].
  2:{ exists w1. split; [eauto using evolves_trans|done]. }
  assert (evolves [] w w1) as H01 by eauto using evolves_trans.
  destruct (fetched_same_api w w1) as (_ & A2 & _); [apply H01|].
  rewrite bind_run.
  destruct (fetch_voices_run self w1) as (w2 & H2 & ->). rewrite A2.
  destruct (fetched_voices self w) as [voices|e].
  2:{ exists w2. split; [eauto using evolves_trans|done]. }
  assert (evolves [] w w2) as H02 by eauto using evolves_trans.
  destruct (fetched_same_api w w2) as (_ & _ & A3); [apply H02|].
  rewrite bind_run.
  destruct (get_user_subscription_run self w2) as (w3 & H3 & ->). rewrite A3.
  exists w3. split; [eauto using evolves_trans|].
  by destruct (fetched_subscription self w).
Qed.

Lemma run_update_run (w : world) :
  ∃ w3, evolves [] w w3
        ∧ run_update self w
          = match fetched_models self w with
            | Err e => Raise e w3
            | Ok models =>
                match fetched_voices self w with
                | Err e => Raise e w3
                | Ok voices =>
                    match fetched_subscription self w with
                    | Err e => Raise e w3
                    | Ok subscription =>
                        if bool_decide (models = [])
                        then Ret false (printed [abort_message +:+ Text.nl] w3)
                        else update_steps self models voices subscription w3
                    end
                end
            end.
Proof.
  destruct (fetches_run
              (λ models voices subscription,
                 if bool_decide (models = [])
                 then print abort_message;; mret false
                 else update_steps self models voices subscription) w) as (w3 & H3 & E).
  exists w3. split; [done|].
  etrans; [exact E|].
  destruct (fetched_models self w) as [models|]; [|done].
  destruct (fetched_voices self w) as [voices|]; [|done].
  destruct (fetched_subscription self w) as [subscription|]; [|done].
  by destruct (bool_decide (models = [])).
Qed.

Lemma final_messages (success : bool) (w w' : world) (b : bool) :
  ((if success then
      print (Text.nl +:+ rule);;
      print "UPDATE COMPLETE!";;
      print rule;;
      print (Text.nl +:+ "Next steps:");;
      print "1. Load the updated extension in Chrome:";;
      print "   - Go to chrome://extensions/";;
      print "   - Enable 'Developer mode'";;
      print "   - Click 'Load unpacked'";;
      print "   - Select the extension directory";;
      print (Text.nl +:+ "2. Test the extension with the new models");;
      print (Text.nl +:+ "3. Check update_report.txt for details")
    else
      print (Text.nl +:+ "Update completed with some errors. Check the output above."));;
   mret success) w = Ret b w' →
  b = success ∧ ∃ out, w' = printed out w.
Proof.
  intros (? & w1 & E & [= <- <-])%bind_ret_inv. split; [done|].
  destruct success.
  - repeat (apply bind_ret_inv in E as (? & ? & ->%print_ret_inv & E)).
    apply print_ret_inv in E as ->.
    rewrite !printed_printed. eauto.
  - apply print_ret_inv in E as ->. eauto.
Qed.

Lemma update_steps_ret (models : list dict) (voices subscription : json)
    (w3 w' : world) (b : bool) :
  update_steps self models voices subscription w3 = Ret b w' →
  ∃ popup_ok w4 content_ok w5 doc manifest_ok w8 text out,
    update_popup_html self models w3 = Ret popup_ok w4
    ∧ update_content_js_model_mapping self models w4 = Ret content_ok w5
    ∧ voices_snapshot voices = Ok doc
    ∧ update_manifest_version self (snapshots_written self models doc w5)
      = Ret manifest_ok w8
    ∧ report_text models voices subscription (clock w8) = Ok text
    ∧ w' = printed out (written (report_file self) text w8)
    ∧ b = popup_ok && content_ok
    ∧ can_open w5 (models_file self) = true.
Proof.
  unfold update_steps.
  intros (popup_ok & w4 & Ep & E)%bind_ret_inv.
  apply bind_ret_inv in E as (content_ok & w5 & Ec & E).
  apply bind_ret_inv in E as (? & w6 & Em & E).
  apply create_models_json_ret in Em as [Eo ->].
  apply bind_ret_inv in E as (? & w7 & (doc & Ed & _ & ->)%create_voices_json_ret & E).
  apply bind_ret_inv in E as (manifest_ok & w8 & Ev & E).
  apply bind_ret_inv in E as (? & w9 & (text & Et & _ & ->)%create_update_report_ret & E).
  apply final_messages in E as (-> & out & ->).
  exists popup_ok, w4, content_ok, w5, doc, manifest_ok, w8, text.
  exists ([("Created update report: " +:+ report_file self) +:+ Text.nl] ++ out).
  repeat split; try done.
  - by rewrite printed_printed.
  - by destruct popup_ok, content_ok.
Qed.

(** The files a returning run of the steps leaves, and the log of what it
    opened. *)
Lemma update_steps_outputs (models : list dict) (voices subscription : json)
    (w3 w' : world) (b : bool) :
  update_steps self models voices subscription w3 = Ret b w' →
  ∃ popup_ok w4 content_ok w5 doc manifest_ok w8 text l,
    update_popup_html self models w3 = Ret popup_ok w4
    ∧ update_content_js_model_mapping self models w4 = Ret content_ok w5
    ∧ b = popup_ok && content_ok
    ∧ voices_snapshot voices = Ok doc
    ∧ report_text models voices subscription (clock w3) = Ok text
    ∧ update_manifest_version self (snapshots_written self models doc w5)
      = Ret manifest_ok w8
    ∧ files w' !! models_file self = Some (json_dumps (models_snapshot models))
    ∧ files w' !! voices_file self = Some (json_dumps doc)
    ∧ files w' !! report_file self = Some text
    ∧ files w' !! manifest_file self = files w8 !! manifest_file self
    ∧ opened w' = opened w5 ++ [models_file self; voices_file self] ++ l ++ [report_file self]
    ∧ api w' = api w3.
Proof.
  intros (popup_ok & w4 & content_ok & w5 & doc & manifest_ok & w8 & text & out
          & Ep & Ec & Ed & Em & Et & -> & -> & _)%update_steps_ret.
  pose proof (update_popup_html_confined self models w3) as H4. rewrite Ep in H4.
  pose proof (update_content_js_confined self models w4) as H5. rewrite Ec in H5.
  pose proof (update_manifest_version_confined self (snapshots_written self models doc w5)) as H8.
  rewrite Em in H8. simpl in H4, H5, H8.
  destruct H4 as (_ & _ & _ & A4 & C4), H5 as (_ & _ & _ & A5 & C5).
  destruct H8 as (F8 & (l & O8 & _) & _ & A8 & C8).
  simpl in O8, A8, C8.
  exists popup_ok, w4, content_ok, w5, doc, manifest_ok, w8, text, l.
  repeat split; try done.
  - by rewrite <- Et, C8, C5, C4.
  - simpl. rewrite lookup_insert_ne by (intros E%file_inj; discriminate).
    rewrite F8 by (intros E%list_elem_of_singleton%file_inj; discriminate).
    simpl. rewrite lookup_insert_ne by (intros E%file_inj; discriminate).
    by rewrite lookup_insert_eq.
  - simpl. rewrite lookup_insert_ne by (intros E%file_inj; discriminate).
    rewrite F8 by (intros E%list_elem_of_singleton%file_inj; discriminate).
    simpl. by rewrite lookup_insert_eq.
  - simpl. by rewrite lookup_insert_eq.
  - simpl. by rewrite lookup_insert_ne by (intros E%file_inj; discriminate).
  - simpl. rewrite O8. by rewrite <- !app_assoc.
  - simpl. congruence.
Qed.

End Run.
(** ** Patching the dropdown a second time *)

Section Strings.

Local Open Scope nat_scope.

Lemma is_prefix_app (p s t : string) :
  Text.is_prefix p s = true → Text.is_prefix p (s +:+ t) = true.
Proof.
  revert s. induction p as [|a p IH]; intros [|b s]; simpl; try done.
  case_decide; [apply IH|done].
Qed.

Lemma is_prefix_length (p s : string) :
  Text.is_prefix p s = true → String.length p ≤ String.length s.
Proof.
  revert s. induction p as [|a p IH]; intros [|b s]; simpl; try done; [lia|].
  case_decide; [|done]. intros ?%IH. lia.
Qed.

Lemma is_prefix_long (p s t : string) :
  String.length p ≤ String.length s →
  Text.is_prefix p (s +:+ t) = Text.is_prefix p s.
Proof.
  revert s. induction p as [|a p IH]; intros [|b s]; simpl; try done; [lia|].
  intros ?. case_decide; [apply IH; lia|done].
Qed.

Lemma is_prefix_self_app (p t : string) : Text.is_prefix p (p +:+ t) = true.
Proof. induction p as [|a p IH]; simpl; [done|]. by rewrite decide_True. Qed.

Lemma is_prefix_split (p s : string) :
  Text.is_prefix p s = true → s = p +:+ Text.drop (String.length p) s.
Proof.
  revert s. induction p as [|a p IH]; intros [|b s]; simpl; try done.
  case_decide; [|done]. subst. intros E%IH. rewrite str_app_cons. by f_equal.
Qed.

Lemma is_prefix_trans (p q s : string) :
  Text.is_prefix p q = true → Text.is_prefix q s = true → Text.is_prefix p s = true.
Proof.
  revert q s. induction p as [|a p IH]; intros [|b q] [|c s]; simpl; try done.
  repeat case_decide; subst; try done. apply IH.
Qed.

Lemma str_drop_0 (s : string) : Text.drop 0 s = s.
Proof. by destruct s. Qed.

Lemma str_drop_drop (n m : nat) (s : string) : Text.drop n (Text.drop m s) = Text.drop (m + n) s.
Proof.
  revert s. induction m as [|m IH]; intros s; simpl; [done|].
  destruct s as [|c s]; simpl; [by destruct n|]. apply IH.
Qed.

Lemma str_drop_app_le (n : nat) (s t : string) :
  n ≤ String.length s → Text.drop n (s +:+ t) = Text.drop n s +:+ t.
Proof.
  revert s. induction n as [|n IH]; intros s Hn; simpl; [done|].
  destruct s as [|c s]; simpl in *; [lia|]. apply IH. lia.
Qed.

Lemma str_drop_app_length (s t : string) : Text.drop (String.length s) (s +:+ t) = t.
Proof. induction s as [|c s IH]; simpl; done. Qed.

Lemma str_take_app_length (s t : string) : Text.take (String.length s) (s +:+ t) = s.
Proof.
  induction s as [|c s IH]; simpl; [by destruct t|].
  rewrite ?str_app_cons. simpl. by f_equal.
Qed.

Lemma str_take_length (n : nat) (s : string) :
  n ≤ String.length s → String.length (Text.take n s) = n.
Proof.
  revert s. induction n as [|n IH]; intros [|c s]; simpl; try done; try lia.
  intros ?. f_equal. apply IH. lia.
Qed.

Lemma index_of_length (p s : string) (k : nat) :
  index_of p s = Some k → k + String.length p ≤ String.length s.
Proof.
  revert k. induction s as [|c s IH]; intros k; simpl.
  - destruct (Text.is_prefix p "") eqn:E; [|done].
    intros [= <-]. apply is_prefix_length in E. simpl in *. lia.
  - destruct (Text.is_prefix p (String c s)) eqn:E.
    + intros [= <-]. apply is_prefix_length in E. simpl in *. lia.
    + destruct (index_of p s) as [k'|]; simpl; [|done].
      intros [= <-]. specialize (IH _ eq_refl). lia.
Qed.

Lemma index_of_app (p s t : string) (k : nat) :
  index_of p s = Some k → index_of p (s +:+ t) = Some k.
Proof.
  revert k. induction s as [|c s IH]; intros k.
  - simpl. destruct (Text.is_prefix p "") eqn:E; [|done].
    intros [= <-]. destruct p; [|done]. by destruct t.
  - intros Hf. pose proof (index_of_length _ _ _ Hf) as Hlen.
    simpl in Hf. rewrite str_app_cons. simpl.
    destruct (Text.is_prefix p (String c s)) eqn:E.
    + injection Hf as <-.
      change (String c (s +:+ t)) with (String c s +:+ t).
      by rewrite is_prefix_app.
    + destruct (index_of p s) as [k'|] eqn:Ef; simpl in Hf; [|done].
      injection Hf as <-.
      change (String c (s +:+ t)) with (String c s +:+ t).
      rewrite is_prefix_long by (simpl in *; lia).
      rewrite E. by rewrite (IH k').
Qed.

Lemma index_of_drop (p s : string) (m k : nat) :
  index_of p (Text.drop m s) = Some k → is_Some (index_of p s).
Proof.
  revert s. induction m as [|m IH]; intros s; simpl; [eauto|].
  destruct s as [|c s]; [eauto|].
  intros H%IH. simpl. destruct (Text.is_prefix p (String c s)); [eauto|].
  destruct H as [k' ->]. eauto.
Qed.

(** A lazy [[\s\S]*?] before a literal stops at the first place where the
    literal starts. *)
Lemma match_lazy_literal (b s : string) :
  Re.match_here [Re.LazyStar (λ _, true); Re.Lit b] s
  = (λ k, k + String.length b) <$> index_of b s.
Proof.
  induction s as [|c s IH].
  - simpl. destruct (Text.is_prefix b ""); simpl; [|done]. f_equal. lia.
  - simpl in *. destruct (Text.is_prefix b (String c s)); simpl.
    + f_equal. lia.
    + rewrite IH. destruct (index_of b s); simpl; [f_equal|done].
Qed.

Lemma match_select (s : string) :
  Re.match_here select_pattern s
  = if Text.is_prefix select_open s
    then (λ k, String.length select_open + (k + String.length select_close))
           <$> index_of select_close (Text.drop (String.length select_open) s)
    else None.
Proof.
  unfold select_pattern.
  change (Re.match_here (Re.Lit select_open :: ?rest) s)
    with (if Text.is_prefix select_open s
          then (λ n, String.length select_open + n)
                 <$> Re.match_here rest (Text.drop (String.length select_open) s)
          else None).
  destruct (Text.is_prefix select_open s); [|done].
  rewrite match_lazy_literal.
  by destruct (index_of select_close _).
Qed.

Lemma match_select_app (s t : string) (n : nat) :
  Re.match_here select_pattern s = Some n →
  Re.match_here select_pattern (s +:+ t) = Some n.
Proof.
  rewrite !match_select.
  destruct (Text.is_prefix select_open s) eqn:E; [|done].
  rewrite is_prefix_app by done.
  rewrite str_drop_app_le by (by apply is_prefix_length).
  destruct (index_of select_close _) as [k|] eqn:Ef; simpl; [|done].
  intros [= <-]. by rewrite (index_of_app _ _ _ k).
Qed.

Lemma match_select_open (s : string) (n : nat) :
  Re.match_here select_pattern s = Some n →
  Text.is_prefix select_open s = true ∧ String.length select_open ≤ n ≤ String.length s.
Proof.
  rewrite match_select. destruct (Text.is_prefix select_open s) eqn:E; [|done].
  destruct (index_of select_close _) as [k|] eqn:Ef; simpl; [|done].
  intros [= <-]. split; [done|].
  apply index_of_length in Ef. rewrite drop_length in Ef.
  apply is_prefix_length in E.
  change (String.length select_open) with 18 in *.
  change (String.length select_close) with 9 in *. lia.
Qed.

(** [search] finds the first place where the pattern matches. *)
Lemma search_spec (p : Re.pattern) (s : string) (i n : nat) :
  Re.search p s = Some (i, n) ↔
  i ≤ String.length s
  ∧ Re.match_here p (Text.drop i s) = Some n
  ∧ ∀ j, j < i → Re.match_here p (Text.drop j s) = None.
Proof.
  revert i n. induction s as [|c s IH]; intros i n.
  - simpl. destruct (Re.match_here p "") as [m|] eqn:E.
    + split.
      * intros [= <- <-]. split; [done|]. split; [done|]. lia.
      * intros (Hi & Hm & _). assert (i = 0) as -> by (simpl in Hi; lia).
        simpl in Hm. congruence.
    + split; [done|]. intros (Hi & Hm & _).
      assert (i = 0) as -> by (simpl in Hi; lia). simpl in Hm. congruence.
  - simpl Re.search. destruct (Re.match_here p (String c s)) as [m|] eqn:E.
    + split.
      * intros [= <- <-]. split; [simpl; lia|]. split; [done|]. lia.
      * intros (Hi & Hm & Hmin). destruct i as [|i].
        -- simpl in Hm. congruence.
        -- specialize (Hmin 0 ltac:(lia)). simpl in Hmin. congruence.
    + split.
      * destruct (Re.search p s) as [[i' n']|] eqn:Es; simpl; [|done].
        intros [= <- <-]. destruct (IH i' n') as [IH1 _].
        destruct (IH1 eq_refl) as (Hi & Hm & Hmin).
        split; [simpl; lia|]. split; [done|].
        intros [|j] Hj; [done|]. simpl. apply Hmin. lia.
      * intros (Hi & Hm & Hmin). destruct i as [|i]; [simpl in Hm; congruence|].
        destruct (IH i n) as [_ IH2]. rewrite IH2; [done|].
        split; [simpl in Hi; lia|]. split; [done|].
        intros j Hj. apply (Hmin (S j)). lia.
Qed.

Lemma replace_skip (old new : string) (k : nat) (s : string) :
  Text.replace_go old new k s = Text.replace_go old new 0 (Text.drop k s).
Proof.
  revert k. induction s as [|c s IH]; intros [|k]; simpl; done.
Qed.

Lemma replace_at_match (old new s : string) :
  old ≠ "" → Text.is_prefix old s = true →
  Text.replace old new s
  = new +:+ Text.replace old new (Text.drop (String.length old) s).
Proof.
  intros Hne Hp. unfold Text.replace. destruct s as [|c s].
  { by destruct old. }
  simpl Text.replace_go at 1. rewrite decide_False by done. rewrite Hp.
  rewrite replace_skip. destruct old as [|a old]; [done|]. simpl.
  by rewrite Nat.sub_0_r.
Qed.

Lemma replace_no_match (old new : string) (c : ascii) (s : string) :
  old ≠ "" → Text.is_prefix old (String c s) = false →
  Text.replace old new (String c s) = String c (Text.replace old new s).
Proof.
  intros Hne Hp. unfold Text.replace. simpl Text.replace_go at 1.
  rewrite decide_False by done. by rewrite Hp.
Qed.

Lemma replace_before_match (old new : string) (i : nat) (s : string) :
  old ≠ "" → i ≤ String.length s →
  (∀ j, j < i → Text.is_prefix old (Text.drop j s) = false) →
  Text.replace old new s = Text.take i s +:+ Text.replace old new (Text.drop i s).
Proof.
  intros Hne. revert s. induction i as [|i IH]; intros s Hi Hmin; [done|].
  destruct s as [|c s]; [simpl in Hi; lia|].
  rewrite replace_no_match by (first [done | apply (Hmin 0); lia]).
  simpl. rewrite str_app_cons. f_equal. apply IH; [simpl in Hi; lia|].
  intros j Hj. apply (Hmin (S j)). lia.
Qed.

Lemma replace_same (old s : string) : old ≠ "" → Text.replace old old s = s.
Proof.
  intros Hne. remember (String.length s) as n eqn:En.
  revert s En. induction (lt_wf n) as [n _ IH]. intros s ->.
  destruct s as [|c s]; [unfold Text.replace; simpl; by rewrite decide_False|].
  destruct (Text.is_prefix old (String c s)) eqn:Hp.
  - rewrite replace_at_match by done.
    rewrite (IH (String.length (Text.drop (String.length old) (String c s)))); [| |done].
    + symmetry. by apply is_prefix_split.
    + rewrite drop_length. destruct old; [done|]. simpl. lia.
  - rewrite replace_no_match by done. f_equal.
    apply (IH (String.length s)); [simpl; lia|done].
Qed.

Lemma is_prefix_take (n : nat) (s : string) : Text.is_prefix (Text.take n s) s = true.
Proof.
  revert s. induction n as [|n IH]; intros [|c s]; simpl; try done.
  by rewrite decide_True.
Qed.

Lemma is_prefix_of_take (p : string) (n : nat) (s : string) :
  String.length p ≤ n → Text.is_prefix p s = true → Text.is_prefix p (Text.take n s) = true.
Proof.
  revert n s. induction p as [|a p IH]; intros [|n] [|c s]; simpl; try done; try lia.
  intros Hn. case_decide; [|done]. apply IH. lia.
Qed.

(** Patching the dropdown a second time changes nothing, when the block
    generated is itself one match of the pattern. *)
Lemma patch_twice (content new : string) (i n : nat) :
  Re.search select_pattern content = Some (i, n) →
  Re.match_here select_pattern new = Some (String.length new) →
  let patched := Text.replace (Re.group content (i, n)) new content in
  Re.search select_pattern patched = Some (i, String.length new)
  ∧ Text.replace (Re.group patched (i, String.length new)) new patched = patched.
Proof.
  intros (Hi & Hm & Hmin)%search_spec Hnew.
  destruct (match_select_open _ _ Hm) as (Hopen & Hn1 & Hn2).
  destruct (match_select_open _ _ Hnew) as (Hopen' & Hl1 & _).
  change (String.length select_open) with 18 in *.
  set (old := Re.group content (i, n)).
  assert (String.length old = n) as Hold by (apply str_take_length; done).
  assert (old ≠ "") as Hne by (intros E; rewrite E in Hold; simpl in Hold; lia).
  assert (new ≠ "") as Hne' by (intros E; rewrite E in Hl1; simpl in Hl1; lia).
  assert (Text.is_prefix select_open old = true) as Hoo
    by (apply is_prefix_of_take; done).
  (* no dropdown opens before the match *)
  assert (∀ j, j < i → Text.is_prefix select_open (Text.drop j content) = false) as Hno.
  { intros j Hj. specialize (Hmin j Hj). rewrite match_select in Hmin.
    destruct (Text.is_prefix select_open (Text.drop j content)); [|done].
    rewrite match_select, Hopen in Hm.
    destruct (index_of select_close (Text.drop _ (Text.drop i content))) as [k|] eqn:Ek;
      [|done].
    rewrite str_drop_drop in Ek.
    replace (i + String.length select_open) with ((j + String.length select_open) + (i - j))
      in Ek by lia.
    rewrite <- str_drop_drop in Ek. apply index_of_drop in Ek as [k' Ek'].
    rewrite str_drop_drop, Ek' in Hmin. done. }
  set (pre := Text.take i content).
  assert (String.length pre = i) as Hpre by (apply str_take_length; done).
  assert (content = pre +:+ Text.drop i content) as Hc by (symmetry; apply take_drop).
  set (post := Text.replace old new (Text.drop n (Text.drop i content))).
  assert (Text.replace old new content = pre +:+ new +:+ post) as Hp.
  { rewrite (replace_before_match old new i) by
      (first [done | intros j Hj; destruct (Text.is_prefix old (Text.drop j content)) eqn:E;
                     [pose proof (is_prefix_trans _ _ _ Hoo E) as E';
                      rewrite (Hno j Hj) in E'; done|done]]).
    f_equal. rewrite replace_at_match; [by rewrite Hold|done|apply is_prefix_take]. }
  intros patched. subst patched. rewrite Hp.
  assert (Re.search select_pattern (pre +:+ new +:+ post) = Some (i, String.length new)) as Hs.
  { apply search_spec. split; [rewrite str_length_app; lia|]. split.
    - rewrite <- Hpre, str_drop_app_length. by apply match_select_app.
    - intros j Hj. rewrite match_select.
      rewrite str_drop_app_le by lia.
      rewrite (is_prefix_split _ _ Hopen'), <- !str_app_assoc.
      rewrite (str_app_assoc (Text.drop j pre +:+ select_open)), is_prefix_long
        by (rewrite str_length_app; lia).
      specialize (Hno j Hj). rewrite Hc, str_drop_app_le in Hno by lia.
      rewrite (is_prefix_split _ _ Hopen), <- str_app_assoc in Hno.
      rewrite is_prefix_long in Hno by (rewrite str_length_app; lia).
      by rewrite Hno. }
  split; [exact Hs|].
  unfold Re.group. simpl fst. simpl snd.
  rewrite <- Hpre at 1. rewrite str_drop_app_length, str_take_app_length.
  by apply replace_same.
Qed.

(** Carriage returns: a text that was read holds none, a text that holds
    none is read as it is, and [replace] brings none in. *)

Lemma no_cr_cons (c : ascii) (s : string) : no_cr (String c s) ↔ c ≠ "013"%char ∧ no_cr s.
Proof.
  unfold no_cr. simpl. rewrite orb_false_iff, bool_decide_eq_false. tauto.
Qed.

Lemma no_cr_app (a b : string) : no_cr (a +:+ b) ↔ no_cr a ∧ no_cr b.
Proof.
  induction a as [|c a IH].
  - rewrite append_empty_l. unfold no_cr at 2. simpl. tauto.
  - rewrite str_app_cons, !no_cr_cons, IH. tauto.
Qed.

Lemma universal_newlines_no_cr (s : string) : no_cr (Text.universal_newlines s).
Proof.
  assert (∀ n s, String.length s ≤ n → no_cr (Text.universal_newlines s)) as H.
  { clear s. induction n as [|n IH]; intros [|c s] Hn; simpl in Hn; try done; try lia.
    simpl. case_decide as Ec.
    - destruct s as [|d s].
      + by apply no_cr_cons.
      + assert (no_cr (Text.universal_newlines s)) by (apply IH; simpl in Hn; lia).
        assert (no_cr (Text.universal_newlines (String d s))) by (apply IH; lia).
        destruct d as [[] [] [] [] [] [] [] []]; by apply no_cr_cons.
    - apply no_cr_cons. split; [done|]. apply IH. lia. }
  by apply (H (String.length s)).
Qed.

Lemma universal_newlines_id (s : string) : no_cr s → Text.universal_newlines s = s.
Proof.
  induction s as [|c s IH]; [done|]. intros [Hc Hs]%no_cr_cons.
  simpl. rewrite decide_False by done. by rewrite IH.
Qed.

Lemma universal_newlines_twice (s : string) :
  Text.universal_newlines (Text.universal_newlines s) = Text.universal_newlines s.
Proof. apply universal_newlines_id, universal_newlines_no_cr. Qed.

Lemma replace_no_cr (old new s : string) :
  no_cr new → no_cr s → no_cr (Text.replace old new s).
Proof.
  intros Hnew. unfold Text.replace. generalize 0 as skip.
  induction s as [|c s IH]; intros skip Hs; simpl.
  - by case_decide.
  - apply no_cr_cons in Hs as [Hc Hs]. destruct skip as [|k]; [|by apply IH].
    case_decide.
    + apply no_cr_app. split; [done|]. apply no_cr_cons. auto.
    + destruct (Text.is_prefix old (String c s)).
      * apply no_cr_app. auto.
      * apply no_cr_cons. auto.
Qed.

End Strings.

Section PopupRerun.

Context `{!Runtime} (self : updater).

Lemma update_popup_html_files (models : list dict) (w w' : world) (b : bool) :
  update_popup_html self models w = Ret b w' →
  files w' !! popup_file self = popup_after models (files w !! popup_file self).
Proof.
  rewrite update_popup_html_run. unfold popup_after.
  destruct (files w !! popup_file self) as [text|] eqn:E; cbv beta iota zeta.
  - destruct (Re.search select_pattern (Text.universal_newlines text)) as [m|];
      [destruct (map_result option_line models) as [opts|e]|];
      intros [= <- <-]; simpl; rewrite ?lookup_insert_eq; done.
  - intros [= <- <-]. done.
Qed.



End PopupRerun.

(** ** Running the update twice *)

Section Rerun.

Context `{!Runtime} (self : updater).

(** The snapshots and the report a returning run leaves are functions of
    what was fetched and of the clock; with an empty model list it leaves
    every file as it was. *)
Lemma run_update_outputs (w w' : world) (b : bool) :
  run_update self w = Ret b w' →
  ∃ models voices subscription,
    fetched_models self w = Ok models
    ∧ fetched_voices self w = Ok voices
    ∧ fetched_subscription self w = Ok subscription
    ∧ if bool_decide (models = []) then files w' = files w
      else ∃ doc text,
          voices_snapshot voices = Ok doc
          ∧ report_text models voices subscription (clock w) = Ok text
          ∧ files w' !! models_file self = Some (json_dumps (models_snapshot models))
          ∧ files w' !! voices_file self = Some (json_dumps doc)
          ∧ files w' !! report_file self = Some text.
Proof.
  destruct (run_update_run self w) as (w3 & H3 & ->).
  destruct (fetched_models self w) as [models|]; [|done].
  destruct (fetched_voices self w) as [voices|]; [|done].
  destruct (fetched_subscription self w) as [subscription|]; [|done].
  intros E. exists models, voices, subscription. split; [done|]. split; [done|].
  split; [done|].
  destruct (bool_decide (models = [])).
  - injection E as _ <-. apply evolves_nothing in H3 as [F _]. exact F.
  - apply update_steps_outputs in E
      as (? & ? & ? & ? & doc & ? & ? & text & ? & _ & _ & _ & Ed & Et & _ & F1 & F2 & F3 & _).
    exists doc, text. destruct H3 as (_ & _ & _ & _ & C3). rewrite C3 in Et. done.
Qed.

End Rerun.

(** ** An empty model list, and a patch that fails *)

Section Abort.

Context `{!Runtime} (self : updater).

(** A models fetch that failed counts as an empty list. With an empty
    model list the run leaves every file as it was and opens none, however
    it ends; it ends as the voices fetch and the subscription fetch do,
    which come before the test on the list: with the exception one of
    them raises, or returning [False] after the message that the update is
    aborted. With a model list that is not empty the run goes on to the
    update steps whatever the voices and the subscription are. *)
Lemma run_update_without_models (w : world) :
  (∀ msg, api w (base_url self +:+ "/models") (api_key self) = HttpError msg →
          fetched_models self w = Ok [])
  ∧ (fetched_models self w = Ok [] →
     untouched w (world_of (run_update self w))
     ∧ (∀ b w', run_update self w = Ret b w' →
                b = false
                ∧ ∃ out, stdout w' = stdout w ++ out ++ [abort_message +:+ Text.nl])
     ∧ (∀ voices subscription,
          fetched_voices self w = Ok voices →
          fetched_subscription self w = Ok subscription →
          ∃ w', run_update self w = Ret false w')
     ∧ (∀ e, fetched_voices self w = Err e → ∃ w', run_update self w = Raise e w')
     ∧ (∀ voices e, fetched_voices self w = Ok voices →
                    fetched_subscription self w = Err e →
                    ∃ w', run_update self w = Raise e w'))
  ∧ (∀ models voices subscription,
        fetched_models self w = Ok models → models ≠ [] →
        fetched_voices self w = Ok voices →
        fetched_subscription self w = Ok subscription →
        ∃ w3, evolves [] w w3
              ∧ run_update self w = update_steps self models voices subscription w3).
Proof.
  split; [|split].
  - intros msg E. unfold fetched_models. by rewrite E.
  - intros Em. destruct (run_update_run self w) as (w3 & H3 & ->). rewrite Em.
    pose proof (evolves_nothing _ _ H3) as [F3 O3].
    destruct H3 as (_ & _ & (out & S3) & _).
    destruct (fetched_voices self w) as [voices|e];
      [destruct (fetched_subscription self w) as [subscription|e]|]; simpl.
    + split; [done|]. split; [|split; [eauto|split; [done|done]]].
      intros b w' [= <- <-]. split; [done|].
      exists out. simpl. by rewrite S3, app_assoc.
    + split; [done|]. split; [done|]. split; [done|]. split; [done|].
      intros ? ? _ [= <-]. eauto.
    + split; [done|]. split; [done|]. split; [done|]. split; [|done].
      intros ? [= <-]. eauto.
  - intros models voices subscription Em Hne Ev Es.
    destruct (run_update_run self w) as (w3 & H3 & E). rewrite Em, Ev, Es in E.
    rewrite bool_decide_false in E by done. eauto.
Qed.

(** In a run that goes on to the update steps and returns, the result is
    the conjunction of what the two patchers returned, each of them
    [True] exactly when its file exists and holds its marker; and whatever
    they returned, models.json, voices.json and update_report.txt hold
    their documents, the version bumper ran on the manifest and its
    manifest is the one left, and the three files were opened after the
    patches. *)
Lemma run_update_flags (w w' : world) (models : list dict) (b : bool) :
  fetched_models self w = Ok models →
  models ≠ [] →
  run_update self w = Ret b w' →
  ∃ popup_ok content_ok voices subscription doc text w5 manifest_ok w8 l,
    b = popup_ok && content_ok
    ∧ (popup_ok = true ↔
       ∃ t, text_read w (popup_file self) = Some t ∧ is_Some (Re.search select_pattern t))
    ∧ (content_ok = true ↔
       ∃ t, text_read w (content_file self) = Some t ∧ is_Some (Re.search mapping_pattern t))
    ∧ fetched_voices self w = Ok voices
    ∧ fetched_subscription self w = Ok subscription
    ∧ voices_snapshot voices = Ok doc
    ∧ report_text models voices subscription (clock w) = Ok text
    ∧ files w' !! models_file self = Some (json_dumps (models_snapshot models))
    ∧ files w' !! voices_file self = Some (json_dumps doc)
    ∧ files w' !! report_file self = Some text
    ∧ update_manifest_version self (snapshots_written self models doc w5)
      = Ret manifest_ok w8
    ∧ files (snapshots_written self models doc w5) !! manifest_file self
      = files w !! manifest_file self
    ∧ files w' !! manifest_file self = files w8 !! manifest_file self
    ∧ opened w' = opened w5 ++ [models_file self; voices_file self] ++ l ++ [report_file self].
Proof.
  intros Em Hne. destruct (run_update_run self w) as (w3 & H3 & ->). rewrite Em.
  destruct (fetched_voices self w) as [voices|e]; [|done].
  destruct (fetched_subscription self w) as [subscription|e]; [|done].
  rewrite bool_decide_false by done.
  intros (popup_ok & w4 & content_ok & w5 & doc & manifest_ok & w8 & text & l
          & Ep & Ec & -> & Ed & Et & Ev & F1 & F2 & F3 & F4 & O & _)%update_steps_outputs.
  pose proof (evolves_nothing _ _ H3) as [F03 _].
  destruct H3 as (_ & _ & _ & _ & C3).
  pose proof (update_popup_html_confined self models w3) as H4. rewrite Ep in H4.
  pose proof (update_content_js_confined self models w4) as H5. rewrite Ec in H5.
  simpl in H4, H5.
  destruct H4 as (F4' & _), H5 as (F5' & _).
  pose proof (popup_patch_contract self models) as Pp.
  pose proof (content_patch_contract self models) as Pc.
  destruct (Pp w3) as (_ & Pp3 & _). destruct (Pp3 _ _ Ep) as (I1 & I2 & _).
  destruct (Pc w4) as (_ & Pc4 & _). destruct (Pc4 _ _ Ec) as (J1 & J2 & _).
  exists popup_ok, content_ok, voices, subscription, doc, text, w5, manifest_ok, w8, l.
  unfold text_read in *.
  repeat split; try done.
  - intros E. apply I2, I1 in E. by rewrite F03 in E.
  - intros E. apply I2, I1. by rewrite F03.
  - intros E. apply J2, J1 in E.
    rewrite F4', F03 in E; [done|].
    intros E'%list_elem_of_singleton%file_inj. discriminate.
  - intros E. apply J2, J1. rewrite F4', F03; [done|].
    intros E'%list_elem_of_singleton%file_inj. discriminate.
  - by rewrite <- C3.
  - simpl. rewrite lookup_insert_ne by (intros E%file_inj; discriminate).
    rewrite lookup_insert_ne by (intros E%file_inj; discriminate).
    rewrite F5' by (intros E%list_elem_of_singleton%file_inj; discriminate).
    rewrite F4' by (intros E%list_elem_of_singleton%file_inj; discriminate).
    by rewrite F03.
Qed.

End Abort.

(** ** Absent fields *)

Section Defaults.

Context `{!Runtime}.

Lemma dict_get_absent (d : dict) (k : string) (default : json) :
  dict_lookup k d = None → dict_get d k default = default.
Proof. unfold dict_get. by intros ->. Qed.

(** C8, as the code has it. In models.json an absent model_id, name or
    description is [null], an absent token_cost_factor is 1.0, an absent
    flag is [false] and absent languages are the empty list; in
    voices.json an absent voice_id, name or category is [null], an absent
    description or preview_url the empty text, absent labels or settings
    the empty object and absent available_for_tiers the empty list. In a
    line of the dropdown an absent model_id is the empty text, whatever
    the name is, and an absent name is the model_id, the empty text when
    that is absent too. In a line of the mapping an absent model_id is the
    empty text, whatever the name is, and an absent name gives the empty
    key, whatever the model_id is. *)
Theorem absent_fields_default :
  (∀ (model : dict) (k : string) (v : json),
      (k, v) ∈ model_defaults → dict_lookup k model = None →
      dict_lookup k (model_record model) = Some v)
  ∧ (∀ (voice : dict) (k : string) (v : json),
        (k, v) ∈ voice_defaults → dict_lookup k voice = None →
        ∃ record, voice_record (JDict voice) = Ok record
                  ∧ dict_lookup k record = Some v)
  ∧ (∀ (model : dict) (line : string),
        option_line model = Ok line →
        (dict_lookup "model_id" model = None →
         line = "  <option value=" +:+ Text.dq +:+ Text.dq +:+ ">"
                +:+ py_str (dict_get model "name" (JStr "")) +:+ "</option>")
        ∧ (dict_lookup "name" model = None →
           let id := py_str (dict_get model "model_id" (JStr "")) in
           line = "  <option value=" +:+ Text.dq +:+ id +:+ Text.dq +:+ ">" +:+ id
                  +:+ "</option>"))
  ∧ (∀ (model : dict) (total i : nat),
        let last := bool_decide (S i = total) in
        (dict_lookup "model_id" model = None →
         ∀ name, dict_get model "name" (JStr "") = JStr name →
                 mapping_line total i model = Ok (mapping_entry last (mode_key name) ""))
        ∧ (dict_lookup "name" model = None →
           mapping_line total i model
           = Ok (mapping_entry last "" (py_str (dict_get model "model_id" (JStr "")))))).
Proof.
  split; [|split; [|split]].
  - intros model k v Hin Hk. unfold model_defaults in Hin. unfold model_record.
    repeat (apply elem_of_cons in Hin as [[= -> ->]|Hin];
            [rewrite (dict_get_absent _ _ _ Hk); reflexivity|]).
    by apply elem_of_nil in Hin.
  - intros voice k v Hin Hk. unfold voice_defaults in Hin.
    eexists. split; [reflexivity|].
    repeat (apply elem_of_cons in Hin as [[= -> ->]|Hin];
            [rewrite (dict_get_absent _ _ _ Hk); reflexivity|]).
    by apply elem_of_nil in Hin.
  - intros model line ->%option_line_text. unfold option_text. split.
    + intros Hid. by rewrite (dict_get_absent _ _ _ Hid).
    + intros Hname. by rewrite (dict_get_absent _ "name" _ Hname).
  - intros model total i last.
    assert (bool_decide (Z.of_nat i = Z.of_nat total - 1) = last) as Hlast.
    { subst last. apply bool_decide_ext. lia. }
    split.
    + intros Hid name Hname. unfold mapping_line.
      rewrite (dict_get_absent _ _ _ Hid), Hname, Hlast. reflexivity.
    + intros Hname. unfold mapping_line.
      rewrite (dict_get_absent _ _ _ Hname), Hlast. reflexivity.
Qed.

End Defaults.

(** ** The interactive entry *)

Lemma confined_input (ps : list string) (prompt : string) : confined ps (input prompt).
Proof.
  intros w. unfold input. destruct (keyboard w); simpl;
    (repeat split; simpl; try done;
     [exists []; split; [by rewrite app_nil_r|intros ? ?%elem_of_nil; done]|eauto]).
Qed.

Section Entry.

Context `{!Runtime}.

Lemma update_steps_confined (self : updater) (models : list dict) (voices subscription : json) :
  confined (outputs self) (update_steps self models voices subscription).
Proof.
  unfold update_steps.
  apply confined_bind; [|intros popup_ok].
  { eapply confined_weaken; [|apply update_popup_html_confined]. intros p ->%list_elem_of_singleton; apply list_elem_of_In; simpl; tauto. }
  apply confined_bind; [|intros content_ok].
  { eapply confined_weaken; [|apply update_content_js_confined]. intros p ->%list_elem_of_singleton; apply list_elem_of_In; simpl; tauto. }
  apply confined_bind; [|intros ?].
  { eapply confined_weaken; [|apply create_models_json_confined]. intros p ->%list_elem_of_singleton; apply list_elem_of_In; simpl; tauto. }
  apply confined_bind; [|intros ?].
  { eapply confined_weaken; [|apply create_voices_json_confined]. intros p ->%list_elem_of_singleton; apply list_elem_of_In; simpl; tauto. }
  apply confined_bind; [|intros ?].
  { eapply confined_weaken; [|apply update_manifest_version_confined]. intros p ->%list_elem_of_singleton; apply list_elem_of_In; simpl; tauto. }
  apply confined_bind; [|intros ?].
  { eapply confined_weaken; [|apply create_update_report_confined]. intros p ->%list_elem_of_singleton; apply list_elem_of_In; simpl; tauto. }
  frame.
Qed.

Lemma run_update_confined (self : updater) : confined (outputs self) (run_update self).
Proof.
  intros w. destruct (run_update_run self w) as (w3 & H3 & ->).
  assert (evolves (outputs self) w w3) as H3'.
  { eapply evolves_weaken; [|exact H3]. intros ? ?%elem_of_nil. done. }
  destruct (fetched_models self w) as [models|]; [|done].
  destruct (fetched_voices self w) as [voices|]; [|done].
  destruct (fetched_subscription self w) as [subscription|]; [|done].
  destruct (bool_decide (models = [])); simpl.
  - eapply evolves_trans; [exact H3'|apply evolves_stdout].
  - eapply evolves_trans; [exact H3'|apply update_steps_confined].
Qed.

(** C10. For every key typed at the masked prompt that is not blank,
    [main] writes to standard output, right after its two banner lines,
    the length of the key and its last four characters (all of it when it
    has fewer); that tail is not empty, so part of the secret is on
    standard output whatever follows. *)
Theorem key_tail_is_printed (w : world) (typed : string) (rest : list string) :
  keyboard w = typed :: rest →
  Text.strip typed ≠ "" →
  let key := Text.strip typed in
  let tail := Text.slice_last 4 key in
  (∃ out, stdout (world_of (main w))
          = stdout w
            ++ [ "ElevenLabs Chrome Extension Updater" +:+ Text.nl;
                 Text.repeat "-" 40 +:+ Text.nl;
                 (pretty (String.length key) +:+ " " +:+ tail) +:+ Text.nl ]
            ++ out)
  ∧ tail ≠ ""
  ∧ (∃ head, key = head +:+ tail)
  ∧ String.length tail = Nat.min 4 (String.length key).
Proof.
  intros Hk Hne key tail.
  assert (String.length tail = Nat.min 4 (String.length key)) as Hlen.
  { unfold tail, Text.slice_last. rewrite drop_length. lia. }
  split; [|split; [|split; [|done]]].
  - unfold main.
    rewrite bind_run, print_run. cbv beta iota.
    rewrite bind_run, print_run. cbv beta iota.
    rewrite bind_run. unfold getpass at 1. simpl keyboard. rewrite Hk. cbv beta iota.
    rewrite bind_run, print_run. cbv beta iota.
    fold key. rewrite bool_decide_false by done.
    match goal with |- context [(?m ≫= ?f) ?w0] =>
      assert (confined [] m) as Hm by frame;
      assert (∀ a w1, ∃ out, stdout (world_of (f a w1)) = stdout w1 ++ out) as Hf
    end.
    { intros _ w1.
      match goal with |- context [input ?p ≫= ?g] =>
        rewrite (bind_run (input p) g);
        pose proof (confined_input [] p w1) as Hi;
        destruct (input p w1) as [line w2|e w2]; simpl in Hi
      end.
      - destruct Hi as (_ & _ & (o1 & S1) & _).
        match goal with |- context [run_update ?u ≫= ?g] =>
          rewrite (bind_run (run_update u) g);
          pose proof (run_update_confined u w2) as Hr;
          destruct (run_update u w2) as [b w3|e w3]; simpl in Hr
        end;
          destruct Hr as (_ & _ & (o2 & S2) & _);
          exists (o1 ++ o2); simpl; by rewrite S2, S1, app_assoc.
      - destruct Hi as (_ & _ & (o1 & S1) & _). by exists o1. }
    match goal with |- context [(?m ≫= ?f) ?w0] =>
      pose proof (Hm w0) as H0; rewrite bind_run;
      destruct (m w0) as [a w1|e w1]; simpl in H0;
      [destruct (Hf a w1) as [o1 S1]|]
    end.
    + destruct H0 as (_ & _ & (o0 & S0) & _).
      exists (o0 ++ o1). rewrite S1, S0. simpl. rewrite <- !app_assoc. reflexivity.
    + destruct H0 as (_ & _ & (o0 & S0) & _).
      exists o0. simpl. rewrite S0. simpl. rewrite <- !app_assoc. reflexivity.
  - intros E. rewrite E in Hlen. unfold key in Hlen.
    destruct (Text.strip typed); [done|simpl in Hlen; lia].
  - exists (Text.take (String.length key - 4) key). unfold tail, Text.slice_last.
    by rewrite take_drop.
Qed.

End Entry.
(** ** The version bumper, case by case *)





Lemma result_bind_ok {A B} (a : A) (f : A → result B) : (Ok a ≫= f) = f a.
Proof. reflexivity. Qed.

Lemma result_bind_err {A B} (e : exn) (f : A → result B) : (Err e ≫= f) = Err e.
Proof. reflexivity. Qed.

(** Closes the case of a step that raised inside the [try]. *)
Ltac raised :=
  rewrite lift_err, result_bind_err;
  match goal with
  | |- context [is_Exception ?e] =>
      destruct (is_Exception e); [rewrite bind_run, print_run|]; reflexivity
  end.

Section Bumper.

Context `{!Runtime} (self : updater).

Lemma update_manifest_version_run (w : world) :
  update_manifest_version self w
  = match files w !! manifest_file self with
    | None => Ret false (printed ["Note: manifest.json not found, skipping version update"
                                  +:+ Text.nl] w)
    | Some text =>
        match bumped (Text.universal_newlines text) with
        | Ok (Some (old, new, manifest)) =>
            Ret true (printed [("Updated manifest version from " +:+ old +:+ " to " +:+ new)
                               +:+ Text.nl]
                        (written (manifest_file self) (json_dumps manifest) w))
        | Ok None => Ret false w
        | Err e =>
            if is_Exception e
            then Ret false (printed [("Error updating manifest: " +:+ exn_str e) +:+ Text.nl] w)
            else Raise e w
        end
    end.
Proof.
  unfold update_manifest_version. fold (manifest_file self).
  destruct (files w !! manifest_file self) as [text|] eqn:Ef.
  2:{ rewrite bind_run, path_exists_none by done. reflexivity. }
  rewrite bind_run, (path_exists_some _ text) by done.
  change (negb true) with false. cbv beta iota.
  unfold try_except, bumped. cbv beta.
  rewrite bind_run, (read_text_some _ text) by done. cbv beta iota.
  rewrite bind_run.
  destruct (json_loads (Text.universal_newlines text)) as [manifest|e];
    [rewrite lift_ok, result_bind_ok|raised].
  cbv beta iota. rewrite bind_run.
  destruct (py_get manifest "version" (JStr "1.0.0")) as [v|e];
    [rewrite lift_ok, result_bind_ok|raised].
  cbv beta iota. rewrite bind_run.
  destruct (py_split_dot v) as [parts|e]; [rewrite lift_ok, result_bind_ok|raised].
  cbv beta iota.
  destruct parts as [|major [|minor [|patch_part [|? ?]]]]; try reflexivity.
  rewrite bind_run.
  destruct (PyInt.parse patch_part) as [n|e]; [rewrite lift_ok, result_bind_ok|raised].
  cbv beta iota. rewrite bind_run.
  destruct (PyInt.to_str (n + 1)) as [patch|e]; [rewrite lift_ok, result_bind_ok|raised].
  cbv beta iota. rewrite bind_run.
  destruct (py_setitem manifest "version" _) as [manifest'|e];
    [rewrite lift_ok, result_bind_ok|raised].
  cbv beta iota.
  rewrite bind_run, (write_text_some _ text) by done. cbv beta iota.
  rewrite bind_run, print_run. reflexivity.
Qed.

Lemma bumped_error (text : string) (e : exn) :
  bumped text = Err e → json_loads text = Err e ∨ is_Exception e = true.
Proof.
  unfold bumped.
  destruct (json_loads text) as [manifest|e']; [rewrite result_bind_ok|intros [= <-]; by left].
  intros E. right. revert E.
  destruct manifest as [| | | | | |d]; try by intros [= <-].
  simpl py_get. rewrite result_bind_ok.
  destruct (dict_get d "version" (JStr "1.0.0")) as [| | | |v| |]; try by intros [= <-].
  simpl py_split_dot. rewrite result_bind_ok.
  destruct (Text.split "." v) as [|major [|minor [|patch_part [|? ?]]]]; try done.
  destruct (PyInt.parse patch_part) as [n|e'] eqn:Ep.
  2:{ intros [= <-]. by eapply parse_error_is_Exception. }
  rewrite result_bind_ok. unfold PyInt.to_str.
  destruct (_ <? _)%nat; [by intros [= <-]|done].
Qed.

Lemma bumped_ok (text old new : string) (manifest : json) :
  bumped text = Ok (Some (old, new, manifest)) →
  ∃ d major minor patch_part n patch,
    json_loads text = Ok (JDict d)
    ∧ dict_get d "version" (JStr "1.0.0") = JStr old
    ∧ Text.split "." old = [major; minor; patch_part]
    ∧ PyInt.parse patch_part = Ok n
    ∧ PyInt.to_str (n + 1) = Ok patch
    ∧ new = major +:+ "." +:+ minor +:+ "." +:+ patch
    ∧ manifest = JDict (dict_set "version" (JStr new) d).
Proof.
  unfold bumped.
  destruct (json_loads text) as [m|]; [rewrite result_bind_ok|done].
  destruct m as [| | | | | |d]; try done.
  simpl py_get. rewrite result_bind_ok.
  destruct (dict_get d "version" (JStr "1.0.0")) as [| | | |v| |] eqn:Ev; try done.
  simpl py_split_dot. rewrite result_bind_ok.
  destruct (Text.split "." v) as [|major [|minor [|patch_part [|? ?]]]] eqn:Es; try done.
  destruct (PyInt.parse patch_part) as [n|] eqn:Ep; [rewrite result_bind_ok|done].
  destruct (PyInt.to_str (n + 1)) as [patch|] eqn:Et; [rewrite result_bind_ok|done].
  simpl. intros [= <- <- <-].
  exists d, major, minor, patch_part, n, patch. by rewrite Es.
Qed.


Lemma dict_lookup_set (k k' : string) (v : json) (d : dict) :
  dict_lookup k' (dict_set k v d) = if decide (k' = k) then Some v else dict_lookup k' d.
Proof.
  induction d as [|[k0 v0] d IH]; simpl.
  - destruct (decide (k' = k)); done.
  - destruct (decide (k = k0)) as [->|Hk]; simpl.
    + destruct (decide (k' = k0)); done.
    + destruct (decide (k' = k0)) as [->|]; [by rewrite decide_False|]. exact IH.
Qed.

Lemma dict_set_keys (k : string) (v : json) (d : dict) :
  (dict_set k v d).*1
  = if bool_decide (is_Some (dict_lookup k d)) then d.*1 else d.*1 ++ [k].
Proof.
  induction d as [|[k0 v0] d IH]; [done|].
  cbn [dict_set dict_lookup].
  destruct (decide (k = k0)) as [->|Hk].
  - by rewrite bool_decide_true by eauto.
  - rewrite !fmap_cons, IH. by destruct (bool_decide _).
Qed.


(** X5. When the decoder raises nothing but what [except Exception]
    catches, [update_manifest_version] never raises: it returns, no file
    but the manifest is changed, a [False] leaves the manifest and the log
    of opened files as they were, and a [True] means the manifest was
    opened for writing once. *)
Theorem update_manifest_version_never_raises (w : world) :
  (∀ text e, files w !! manifest_file self = Some text →
             json_loads (Text.universal_newlines text) = Err e → is_Exception e = true) →
  ∃ b w',
    update_manifest_version self w = Ret b w'
    ∧ (∀ p, p ≠ manifest_file self → files w' !! p = files w !! p)
    ∧ (b = false → untouched w w')
    ∧ (b = true → overwritten (manifest_file self) w w').
Proof.
  intros Hload. rewrite update_manifest_version_run.
  destruct (files w !! manifest_file self) as [text|] eqn:Ef.
  - destruct (bumped (Text.universal_newlines text)) as [[[[old new] manifest]|]|e] eqn:Eb.
    + eexists _, _. split; [reflexivity|]. split; [|split]; [|done|done].
      intros p Hp. simpl. by rewrite lookup_insert_ne.
    + eexists _, _. split; [reflexivity|]. done.
    + assert (is_Exception e = true) as ->.
      { apply bumped_error in Eb as [El|?]; [|done]. by eapply Hload. }
      eexists _, _. split; [reflexivity|]. done.
  - eexists _, _. split; [reflexivity|]. done.
Qed.

(** X6. A bump that returns [True] writes back the object it read with
    its version replaced: every other key keeps its value, the keys keep
    their order, and a manifest that had no version gets ["1.0.1"] as its
    last key. *)
Theorem bump_keeps_other_keys (w w' : world) :
  update_manifest_version self w = Ret true w' →
  ∃ text d d' v',
    files w !! manifest_file self = Some text
    ∧ json_loads (Text.universal_newlines text) = Ok (JDict d)
    ∧ files w' !! manifest_file self = Some (json_dumps (JDict d'))
    ∧ dict_lookup "version" d' = Some (JStr v')
    ∧ (∀ k, k ≠ "version" → dict_lookup k d' = dict_lookup k d)
    ∧ d'.*1 = (if bool_decide (is_Some (dict_lookup "version" d))
               then d.*1 else d.*1 ++ ["version"])
    ∧ (dict_lookup "version" d = None → v' = "1.0.1").
Proof.
  rewrite update_manifest_version_run.
  destruct (files w !! manifest_file self) as [text|] eqn:Ef; [|done].
  destruct (bumped (Text.universal_newlines text)) as [[[[old new] manifest]|]|e] eqn:Eb;
    [|done|by destruct (is_Exception e)].
  intros [= <-].
  apply bumped_ok in Eb
    as (d & major & minor & patch_part & n & patch & El & Ev & Es & Ep & Et & -> & ->).
  exists text, d. eexists _, _. split; [done|]. split; [done|].
  split; [simpl; by rewrite lookup_insert_eq|].
  split; [by rewrite dict_lookup_set, decide_True|].
  split; [intros k Hk; by rewrite dict_lookup_set, decide_False|].
  split; [apply dict_set_keys|].
  intros Hv. unfold dict_get in Ev. rewrite Hv in Ev. injection Ev as <-.
  vm_compute in Es. injection Es as <- <- <-.
  vm_compute in Ep. injection Ep as <-.
  vm_compute in Et. injection Et as <-. reflexivity.
Qed.


End Bumper.

Lemma update_manifest_version_never_raises_witness :
  let o := update_manifest_version (H := Reference.runtime) Demo.self More.broken_manifest in
  returned o = Some false ∧ untouched More.broken_manifest (world_of o).
Proof.
  intros o.
  assert (returned o = Some false) as R by (vm_compute; reflexivity).
  split; [exact R|].
  destruct (update_manifest_version_never_raises (H := Reference.runtime) Demo.self
              More.broken_manifest) as (b & w' & E & _ & U & _).
  - intros text e Hf Hl. vm_compute in Hf. injection Hf as <-.
    vm_compute in Hl. injection Hl as <-. reflexivity.
  - subst o. rewrite E in R |- *. injection R as ->. by apply U.
Defined.

Lemma bump_keeps_other_keys_witness :
  let o := update_manifest_version (H := Reference.runtime) Demo.self More.unversioned in
  files (world_of o) !! "manifest.json"
  = Some (Reference.dumps (JDict [("name", JStr "Human Reader"); ("manifest_version", JInt 3);
                                  ("version", JStr "1.0.1")]))
  ∧ ∃ text d d' v',
      files More.unversioned !! manifest_file Demo.self = Some text
      ∧ Reference.loads (Text.universal_newlines text) = Ok (JDict d)
      ∧ files (world_of o) !! manifest_file Demo.self = Some (Reference.dumps (JDict d'))
      ∧ dict_lookup "version" d' = Some (JStr v')
      ∧ (∀ k, k ≠ "version" → dict_lookup k d' = dict_lookup k d)
      ∧ d'.*1 = (if bool_decide (is_Some (dict_lookup "version" d))
                 then d.*1 else d.*1 ++ ["version"])
      ∧ (dict_lookup "version" d = None → v' = "1.0.1").
Proof.
  intros o. split; [vm_compute; reflexivity|].
  apply (bump_keeps_other_keys (H := Reference.runtime) Demo.self More.unversioned).
  apply ret_world_of. vm_compute. reflexivity.
Defined.


(** ** Running the update twice *)

Section RerunTheorem.

Context `{!Runtime} (self : updater).




End RerunTheorem.

(** ** The theorems on concrete runs *)


Lemma one_entry_per_model_witness :
  let models := [Demo.multilingual; Demo.turbo] in
  ∃ options_html lines,
    map_result (option_line (H := Reference.runtime)) models = Ok options_html
    ∧ lines_of (new_select options_html)
      = [ select_open;
          "  <option value=" +:+ Demo.q "eleven_multilingual_v2"
            +:+ ">Eleven Multilingual v2</option>";
          "  <option value=" +:+ Demo.q "eleven_turbo_v2" +:+ ">Eleven Turbo v2</option>";
          select_close ]
    ∧ mapping_lines (H := Reference.runtime) models = Ok lines
    ∧ lines_of (Text.join Text.nl lines)
      = [ "  const model_id =";
          "    (mode === " +:+ Demo.q "eleven_multilingual_v2" +:+ " || mode === "
            +:+ Demo.q "eleven_multilingual_v2" +:+ ") ? "
            +:+ Demo.q "eleven_multilingual_v2" +:+ " :";
          "    " +:+ Demo.q "eleven_turbo_v2" +:+ "; // default" ].
Proof.
  intros models.
  destruct (map_result (option_line (H := Reference.runtime)) models) as [options_html|]
    eqn:Eo; [|vm_compute in Eo; discriminate].
  destruct (mapping_lines (H := Reference.runtime) models) as [lines|]
    eqn:El; [|vm_compute in El; discriminate].
  destruct (one_entry_per_model (H := Reference.runtime) models) as [A B].
  destruct (A options_html Eo) as [E1 L1]. destruct (B lines El) as [E2 L2].
  exists options_html, lines. split; [reflexivity|].
  split.
  { rewrite L1; [|discriminate|rewrite E1; repeat constructor].
    rewrite E1. vm_compute. reflexivity. }
  split; [reflexivity|].
  rewrite L2; [|rewrite E2; repeat constructor].
  rewrite E2. vm_compute. reflexivity.
Defined.

Lemma one_entry_per_model_counterexample :
  let models := [Cases.two_line_model] in
  length models = 1%nat
  ∧ ∃ options_html,
      map_result (option_line (H := Reference.runtime)) models = Ok options_html
      ∧ lines_of (new_select options_html)
        = [ select_open;
            "  <option value=" +:+ Demo.q "x" +:+ ">A</option>";
            "  <option value=" +:+ Demo.q "y" +:+ ">B</option>";
            select_close ].
Proof.
  intros models. split; [reflexivity|].
  eexists. split; [vm_compute; reflexivity|]. vm_compute. reflexivity.
Qed.

Lemma version_bump_witness :
  let w := Cases.only_manifest "1.2.3" in
  files w !! manifest_file Demo.self = Some (Reference.dumps (Demo.manifest "1.2.3"))
  ∧ returned (update_manifest_version (H := Reference.runtime) Demo.self w) = Some true
  ∧ files (world_of (update_manifest_version (H := Reference.runtime) Demo.self w))
      !! manifest_file Demo.self
    = Some (Reference.dumps (Demo.manifest "1.2.4")).
Proof.
  intros w.
  assert (files w !! manifest_file Demo.self
          = Some (Reference.dumps (Demo.manifest "1.2.3"))) as Hf by (vm_compute; reflexivity).
  split; [exact Hf|].
  destruct (version_bump (H := Reference.runtime) Demo.self w
              (Reference.dumps (Demo.manifest "1.2.3"))
              [("name", JStr "Human Reader"); ("version", JStr "1.2.3")] "1.2.3" Hf)
    as (A & _); [vm_compute; reflexivity..|].
  rewrite (A "1" "2" "3"); [|reflexivity|reflexivity|reflexivity|by split|].
  - split; [reflexivity|]. vm_compute. reflexivity.
  - apply Nat.ltb_lt. vm_compute. reflexivity.
Defined.

Lemma version_bump_counterexample :
  let w := Cases.only_manifest "a.b.3" in
  let o := update_manifest_version (H := Reference.runtime) Demo.self w in
  Text.forallb Text.is_digit "a" = false
  ∧ returned o = Some true
  ∧ files w !! "manifest.json" = Some (Reference.dumps (Demo.manifest "a.b.3"))
  ∧ files (world_of o) !! "manifest.json" = Some (Reference.dumps (Demo.manifest "a.b.4")).
Proof. vm_compute. repeat split; reflexivity. Qed.



(** C5, where the code departs from it. A popup.html that holds the
    dropdown twice: the search matches the first copy (75 characters from
    the start), and the patcher rewrites the second one too. A content.js
    with two declarations of [model_id]: both are rewritten, and each gains
    two blanks of indentation. A model id with a backslash: the block
    written is not the block generated. *)
Theorem patch_rewrites_outside_the_match :
  let new_block := new_select [option_text (H := Reference.runtime) Demo.turbo] in
  let o := update_popup_html (H := Reference.runtime) Demo.self [Demo.turbo]
             Cases.two_dropdowns in
  let js := update_content_js_model_mapping (H := Reference.runtime) Demo.self
              [Demo.turbo] Cases.two_declarations in
  let mapping := "  const model_id =" +:+ Text.nl +:+ "    " +:+ Demo.q "eleven_turbo_v2"
                 +:+ "; // default" +:+ Text.nl in
  let odd := update_content_js_model_mapping (H := Reference.runtime) Demo.self
               [Cases.backslash_model] Cases.two_declarations in
  Re.search select_pattern (Cases.dropdown +:+ "<hr>" +:+ Cases.dropdown)
  = Some (O, String.length Cases.dropdown)
  ∧ returned o = Some true
  ∧ files (world_of o) !! "popup.html" = Some (new_block +:+ "<hr>" +:+ new_block)
  ∧ returned js = Some true
  ∧ Re.search mapping_pattern (Demo.lines [ "  const model_id = pick(mode);";
                                              "  const model_id = other(mode);" ])
    = Some (2%nat, 29%nat)
  ∧ files (world_of js) !! "content.js" = Some ("  " +:+ mapping +:+ "  " +:+ mapping)
  ∧ mapping_lines (H := Reference.runtime) [Cases.backslash_model]
    = Ok ["  const model_id ="; "    " +:+ Demo.q "eleven\new" +:+ "; // default"]
  ∧ returned odd = Some true
  ∧ files (world_of odd) !! "content.js"
    = Some (let written := "  const model_id =" +:+ Text.nl +:+ "    "
                           +:+ Demo.q ("eleven" +:+ Text.nl +:+ "ew")
                           +:+ "; // default" +:+ Text.nl in
            "  " +:+ written +:+ "  " +:+ written).
Proof. vm_compute. repeat split; reflexivity. Qed.

(** C1, where the code departs from it. The API lists a model whose
    description is a number: popup.html holds the dropdown, the search
    finds it, and the patcher raises [TypeError] while it builds a label
    it never uses, before it opens the file for writing. The API lists a
    model whose name is [null]: content.js holds the declaration, the
    search finds it, and the patcher raises [AttributeError] before it
    opens the file for writing. Neither file is overwritten though its
    marker was found, and neither call returns. *)
Theorem patch_raises_with_marker_found :
  let o := update_popup_html (H := Reference.runtime) Demo.self
             [Cases.numeric_description_model] Demo.world in
  let js := update_content_js_model_mapping (H := Reference.runtime) Demo.self
              [Cases.unnamed_model] Demo.world in
  fetched_models Demo.self Cases.numeric_description
  = Ok [Cases.numeric_description_model]
  ∧ files Demo.world !! "popup.html" = Some Demo.popup_html
  ∧ Re.search select_pattern (Text.universal_newlines Demo.popup_html)
    = Some (7%nat, 75%nat)
  ∧ raised o = Some (TypeError "'int' object is not subscriptable")
  ∧ files (world_of o) !! "popup.html" = Some Demo.popup_html
  ∧ opened (world_of o) = []
  ∧ fetched_models Demo.self Cases.unnamed
    = Ok [Cases.unnamed_model]
  ∧ files Demo.world !! "content.js" = Some Demo.content_js
  ∧ Re.search mapping_pattern (Text.universal_newlines Demo.content_js)
    = Some (45%nat, 92%nat)
  ∧ raised js = Some (AttributeError "'NoneType' object has no attribute 'lower'")
  ∧ files (world_of js) !! "content.js" = Some Demo.content_js
  ∧ opened (world_of js) = [].
Proof. vm_compute. repeat split; reflexivity. Qed.

(** C6, where the code departs from it. The models request fails and the
    voices request is answered with [{"voices": null}]: the model list is
    empty, and the run does not abort with a result: [fetch_voices], which
    runs before the test on the list, raises [TypeError] on the length it
    prints. No file is opened and the message of the abort is never
    printed. *)
Theorem empty_model_list_run_raises :
  let o := run_update (H := Reference.runtime) Demo.self Cases.models_down_null_voices in
  fetched_models Demo.self Cases.models_down_null_voices = Ok []
  ∧ returned o = None
  ∧ raised o = Some (TypeError "object of type 'NoneType' has no len()")
  ∧ opened (world_of o) = []
  ∧ stdout (world_of o)
    = [ rule +:+ Text.nl;
        "ElevenLabs Chrome Extension Updater" +:+ Text.nl;
        rule +:+ Text.nl;
        "Fetching available models..." +:+ Text.nl;
        "Error fetching models: 503 Server Error: Service Unavailable for url" +:+ Text.nl;
        "Fetching available voices..." +:+ Text.nl ].
Proof. vm_compute. repeat split; reflexivity. Qed.

(** C7, where the code departs from it. The script is started with a path
    that is no directory: both patches fail, their files missing, and the
    next step raises [FileNotFoundError] when it opens models.json for
    writing: no snapshot, no report, and the run returns nothing. And in
    the directory whose popup.html has no dropdown, when the API lists a
    voice that is a number: the patch fails, models.json is written, and
    [create_voices_json] raises [AttributeError]: no voices.json, no
    version bump, no report. *)
Theorem steps_after_failed_patch_raise :
  let o := run_update (H := Reference.runtime) Cases.elsewhere Cases.no_directory in
  let o' := run_update (H := Reference.runtime) Demo.self Cases.odd_voice in
  fetched_models Cases.elsewhere Cases.no_directory
  = Ok [Demo.multilingual; Demo.turbo]
  ∧ returned o = None
  ∧ raised o = Some (FileNotFoundError
                       "[Errno 2] No such file or directory: 'nope/models.json'")
  ∧ (∃ out, stdout (world_of o)
            = out ++ [ "Error: nope/popup.html not found" +:+ Text.nl;
                       "Error: nope/content.js not found" +:+ Text.nl ])
  ∧ opened (world_of o) = []
  ∧ files (world_of o) !! "nope/models.json" = None
  ∧ files (world_of o) !! "nope/voices.json" = None
  ∧ files (world_of o) !! "nope/update_report.txt" = None
  ∧ Re.search select_pattern (Demo.lines ["<body>"; "</body>"]) = None
  ∧ returned o' = None
  ∧ raised o' = Some (AttributeError "'int' object has no attribute 'get'")
  ∧ opened (world_of o') = ["content.js"; "models.json"]
  ∧ files (world_of o') !! "voices.json" = None
  ∧ files (world_of o') !! "update_report.txt" = None
  ∧ files (world_of o') !! "manifest.json" = Some (Reference.dumps (Demo.manifest "1.2.3")).
Proof.
  intros o o'.
  split; [vm_compute; reflexivity|]. split; [vm_compute; reflexivity|].
  split; [vm_compute; reflexivity|]. split.
  { eexists (_ :: _ :: _ :: _ :: _ :: _ :: _ :: [_]). vm_compute. reflexivity. }
  vm_compute. repeat split; reflexivity.
Qed.

Lemma absent_fields_default_witness :
  dict_lookup "token_cost_factor" Cases.bare_model = None
  ∧ dict_lookup "token_cost_factor" (model_record Cases.bare_model) = Some (JFloat 1)
  ∧ dict_lookup "model_id" Cases.bare_model = None
  ∧ dict_lookup "model_id" (model_record Cases.bare_model) = Some JNull
  ∧ option_line (H := Reference.runtime) [("model_id", JStr "eleven_flash_v2")]
    = Ok ("  <option value=" +:+ Demo.q "eleven_flash_v2" +:+ ">eleven_flash_v2</option>")
  ∧ mapping_line (H := Reference.runtime) 2 0 Cases.bare_model
    = Ok ("    (mode === " +:+ Demo.q "" +:+ " || mode === " +:+ Demo.q "" +:+ ") ? "
          +:+ Demo.q "" +:+ " :").
Proof.
  destruct (absent_fields_default (H := Reference.runtime)) as (A & _ & B & C).
  assert (option_line (H := Reference.runtime) [("model_id", JStr "eleven_flash_v2")]
          = Ok ("  <option value=" +:+ Demo.q "eleven_flash_v2"
                +:+ ">eleven_flash_v2</option>")) as E1.
  { destruct (option_line (H := Reference.runtime) [("model_id", JStr "eleven_flash_v2")])
      as [line|] eqn:E; [|vm_compute in E; discriminate].
    destruct (B _ _ E) as [_ B2]. rewrite (B2 eq_refl). reflexivity. }
  assert (mapping_line (H := Reference.runtime) 2 0 Cases.bare_model
          = Ok ("    (mode === " +:+ Demo.q "" +:+ " || mode === " +:+ Demo.q "" +:+ ") ? "
                +:+ Demo.q "" +:+ " :")) as E2.
  { destruct (C Cases.bare_model 2%nat 0%nat) as [_ C2]. rewrite (C2 eq_refl). reflexivity. }
  clear B C.
  split; [reflexivity|]. split.
  { apply A; [|reflexivity]. unfold model_defaults. set_solver. }
  split; [reflexivity|]. split.
  { apply A; [|reflexivity]. unfold model_defaults. set_solver. }
  split; [exact E1|exact E2].
Defined.

Lemma absent_fields_counterexample :
  dict_lookup "token_cost_factor" Cases.bare_model = None
  ∧ dict_lookup "token_cost_factor" (model_record Cases.bare_model) = Some (JFloat 1)
  ∧ empty_or_false (JFloat 1) = false
  ∧ dict_lookup "model_id" Cases.bare_model = None
  ∧ dict_lookup "model_id" (model_record Cases.bare_model) = Some JNull
  ∧ empty_or_false JNull = false
  ∧ fetched_models Demo.self
      (Demo.world_with [] (Demo.remote (HttpJson (JList [JDict Cases.bare_model]))
                                       (HttpJson (JList [])) (HttpJson (JDict []))) [])
    = Ok [Cases.bare_model].
Proof. repeat split; reflexivity. Qed.

(** C9, where the code departs from it. The API lists a model one of whose
    languages has an id and no name: the report writer raises [KeyError]
    out of [run_update], after the other five files were written and with
    the report cut off in the middle of the model. *)
Theorem report_raises_on_unnamed_language :
  let o := run_update (H := Reference.runtime) Demo.self Cases.unnamed_language in
  raised o = Some (KeyError "'name'")
  ∧ opened (world_of o)
    = ["popup.html"; "content.js"; "models.json"; "voices.json"; "manifest.json";
       "update_report.txt"]
  ∧ files (world_of o) !! "update_report.txt"
    = Some (Demo.lines [ "=== ElevenLabs Extension Update Report ===";
                         "";
                         "Date: 2024-05-01 12:00:00";
                         "Models found: 1";
                         "Voices found: 1";
                         "";
                         "=== Available Models ===";
                         "- Eleven Flash v2 (eleven_flash_v2)";
                         "  Description: N/A" ]).
Proof. vm_compute. repeat split; reflexivity. Qed.

Lemma key_tail_is_printed_witness :
  let typed := "  sk_0123456789abcdef " in
  let key := Text.strip typed in
  let tail := Text.slice_last 4 key in
  keyboard Cases.interactive = [typed; ""]
  ∧ key = "sk_0123456789abcdef"
  ∧ tail = "cdef"
  ∧ ∃ out, stdout (world_of (main (H := Reference.runtime) Cases.interactive))
           = stdout Cases.interactive
             ++ [ "ElevenLabs Chrome Extension Updater" +:+ Text.nl;
                  Text.repeat "-" 40 +:+ Text.nl;
                  (pretty (String.length key) +:+ " " +:+ tail) +:+ Text.nl ]
             ++ out.
Proof.
  intros typed key tail.
  split; [reflexivity|]. split; [vm_compute; reflexivity|].
  split; [vm_compute; reflexivity|].
  destruct (key_tail_is_printed (H := Reference.runtime) Cases.interactive typed [""])
    as (A & _).
  - reflexivity.
  - vm_compute. discriminate.
  - exact A.
Defined.
(** * Further properties

    ** What the three fetches return *)

Section Fetches.

Context `{!Runtime} (self : updater).

Lemma tts_only_objects (models : list dict) :
  tts_only (JList (JDict <$> models)) = Ok (List.filter tts_flag models).
Proof.
  unfold tts_only. simpl py_iter. unfold mbind, result_bind. cbv beta iota.
  assert (∀ ms, map_result
            (λ model, match py_get model "can_do_text_to_speech" (JBool false) with
                      | Ok flag => mret (model, truthy flag)
                      | Err e => Err e
                      end) (JDict <$> ms)
          = Ok ((λ m, (JDict m, tts_flag m)) <$> ms)) as E.
  { induction ms as [|m ms IH]; [done|].
    rewrite !fmap_cons. apply map_result_cons_ok; [reflexivity|exact IH]. }
  rewrite E. unfold mret, result_ret. f_equal.
  induction models as [|m ms IH]; [done|].
  rewrite fmap_cons. csimpl. destruct (tts_flag m); simpl; by rewrite IH.
Qed.

(** X1. When the models request answers with a list of objects,
    [fetch_models] returns the objects whose [can_do_text_to_speech] counts
    as true, in the order of the response, and prints how many they are;
    nothing else of the response is kept and nothing is added. *)
Theorem fetch_models_keeps_tts (w : world) (models : list dict) :
  api w (base_url self +:+ "/models") (api_key self) = HttpJson (JList (JDict <$> models)) →
  fetch_models self w
  = Ret (List.filter tts_flag models)
        (printed [ "Fetching available models..." +:+ Text.nl;
                   ("Found " +:+ pretty (length (List.filter tts_flag models))
                    +:+ " TTS models") +:+ Text.nl ] w)
  ∧ (∀ model, model ∈ List.filter tts_flag models ↔ model ∈ models ∧ tts_flag model = true)
  ∧ List.filter tts_flag models `sublist_of` models.
Proof.
  intros E. split; [|split].
  - unfold fetch_models.
    rewrite bind_run, print_run. cbv beta iota.
    rewrite bind_run. unfold http_get at 1. cbv beta iota. rewrite api_set_stdout, E.
    rewrite bind_run, tts_only_objects, lift_ok. cbv beta iota.
    rewrite bind_run, print_run. cbv beta iota.
    unfold printed, set_stdout. simpl. by rewrite <- app_assoc.
  - intros model. rewrite !list_elem_of_In, filter_In. done.
  - clear E. induction models as [|m ms IH]; simpl; [done|].
    destruct (tts_flag m); [apply sublist_skip|apply sublist_cons]; exact IH.
Qed.

(** The exception of an item that is not an object stops the filter. *)
Lemma tts_only_not_object (items : list json) (models : list dict) :
  tts_only (JList items) = Ok models → ∃ ds, items = JDict <$> ds.
Proof.
  unfold tts_only. simpl py_iter. unfold mbind, result_bind. cbv beta iota.
  destruct (map_result _ items) as [kept|e] eqn:E; [|done]. intros _.
  apply map_result_Forall2 in E. clear models.
  induction E as [|x y l l' Ex _ [ds ->]]; [by exists []|].
  destruct x as [| | | | | |d]; try done. by exists (d :: ds).
Qed.

(** X2. [fetch_models] returns exactly when the response is a list of
    objects, the empty text or the empty object; for every other document
    (an object that wraps the list, a number, [null], a list holding
    something that is not an object) it raises, outside its handler, and
    [run_update] ends with that exception having touched no file. *)
Theorem fetch_models_needs_objects (w : world) (data : json) :
  api w (base_url self +:+ "/models") (api_key self) = HttpJson data →
  ((∃ models w', fetch_models self w = Ret models w')
   ↔ (∃ ds, data = JList (JDict <$> ds)) ∨ data = JStr "" ∨ data = JDict [])
  ∧ (∀ e w', fetch_models self w = Raise e w' →
             ∃ w'', run_update self w = Raise e w'' ∧ untouched w w'').
Proof.
  intros E.
  destruct (fetch_models_run self w) as (w1 & H1 & R).
  assert (fetched_models self w = tts_only data) as F
    by (unfold fetched_models; by rewrite E).
  rewrite F in R. split.
  - rewrite R. split.
    + intros (models & w' & Em).
      destruct (tts_only data) as [ms|] eqn:Et; [|done].
      destruct data as [| | | |s|items|d]; try done.
      * right; left. destruct s as [|c s]; [done|]. done.
      * left. destruct (tts_only_not_object _ _ Et) as [ds ->]. eauto.
      * right; right. destruct d as [|[k v] d]; [done|]. done.
    + intros [[ds ->]|[->| ->]].
      * rewrite tts_only_objects. eauto.
      * eauto.
      * eauto.
  - intros e w' Er. rewrite R in Er.
    destruct (tts_only data) as [|e'] eqn:Et; [done|]. injection Er as -> ->.
    destruct (run_update_run self w) as (w3 & H3 & ->).
    rewrite F. exists w3. split; [done|]. by apply evolves_nothing.
Qed.

(** X3. When the voices response is an object whose ["voices"] has no
    length ([null], a number, a boolean), [fetch_voices] raises the
    [TypeError] of [len], which its handler does not catch: [run_update]
    ends with it, whatever the models were, and touches no file. *)
Theorem run_update_needs_voices_with_length (w : world) (d : dict) (v : json) (e : exn)
    (models : list dict) :
  fetched_models self w = Ok models →
  api w (base_url self +:+ "/voices") (api_key self) = HttpJson (JDict d) →
  dict_lookup "voices" d = Some v →
  py_len v = Err e →
  e = TypeError ("object of type " +:+ Text.sq +:+ type_name v +:+ Text.sq +:+ " has no len()")
  ∧ ∃ w', run_update self w = Raise e w' ∧ untouched w w'.
Proof.
  intros Em Ea Ev El.
  split; [destruct v; simpl in El; by first [injection El as <- | discriminate]|].
  destruct (run_update_run self w) as (w3 & H3 & ->). rewrite Em.
  unfold fetched_voices. rewrite Ea. simpl py_get. unfold dict_get. rewrite Ev.
  unfold mbind, result_bind. rewrite El.
  exists w3. split; [done|]. by apply evolves_nothing.
Qed.


(** X4. [get_user_subscription] touches no file, and it ends as the
    request does: it returns the document decoded, or the empty object
    when the request failed with a [RequestException]; an exception of
    another class raised while the response is decoded is not caught and
    leaves the function. After a failed request the report of a run that
    returns ends with the heading of the subscription section, nothing
    under it. *)
Theorem subscription_failure_is_silent (w : world) :
  (∃ w', untouched w w'
         ∧ get_user_subscription self w
           = match api w (base_url self +:+ "/user/subscription") (api_key self) with
             | HttpJson data => Ret data w'
             | HttpError _ => Ret (JDict []) w'
             | HttpRaise e => Raise e w'
             end)
  ∧ (∀ msg,
        api w (base_url self +:+ "/user/subscription") (api_key self) = HttpError msg →
        fetched_subscription self w = Ok (JDict [])
        ∧ ∀ b w' models,
            run_update self w = Ret b w' →
            fetched_models self w = Ok models → models ≠ [] →
            ∃ body, files w' !! report_file self
                    = Some (body +:+ Text.nl +:+ "=== Subscription Info ===" +:+ Text.nl)).
Proof.
  split.
  - destruct (get_user_subscription_run self w) as (w1 & H1 & ->).
    exists w1. split; [by apply evolves_nothing|].
    unfold fetched_subscription. by destruct (api w _ _).
  - intros msg E.
    assert (fetched_subscription self w = Ok (JDict [])) as Es
      by (unfold fetched_subscription; by rewrite E).
    split; [done|].
    intros b w' models Er Em Hne.
    apply run_update_outputs in Er as (models' & voices & subscription & Em' & Ev & Es' & R).
    rewrite Em in Em'. injection Em' as <-.
    rewrite Es in Es'. injection Es' as <-.
    rewrite bool_decide_false in R by done.
    destruct R as (doc & text & _ & Et & _ & _ & ->).
    unfold report_text in Et.
    destruct (py_len voices) as [n|]; [|done].
    unfold mbind, result_bind in Et.
    destruct (map_result model_section models) as [sections|]; [|done].
    simpl subscription_section in Et. injection Et as <-.
    eexists. rewrite str_app_nil_r, <- !str_app_assoc. reflexivity.
Qed.

End Fetches.

Lemma fetch_models_keeps_tts_witness :
  returned (fetch_models Demo.self Demo.world) = Some [Demo.multilingual; Demo.turbo].
Proof.
  destruct (fetch_models_keeps_tts Demo.self Demo.world
              [Demo.multilingual; Demo.speech_to_speech; Demo.turbo]) as (A & _).
  - vm_compute. reflexivity.
  - rewrite A. reflexivity.
Defined.

Lemma fetch_models_needs_objects_witness :
  raised (fetch_models Demo.self More.wrapped_models)
  = Some (AttributeError "'str' object has no attribute 'get'")
  ∧ raised (run_update (H := Reference.runtime) Demo.self More.wrapped_models)
    = Some (AttributeError "'str' object has no attribute 'get'")
  ∧ files (world_of (run_update (H := Reference.runtime) Demo.self More.wrapped_models))
    = files More.wrapped_models.
Proof.
  assert (raised (fetch_models Demo.self More.wrapped_models)
          = Some (AttributeError "'str' object has no attribute 'get'")) as R
    by (vm_compute; reflexivity).
  split; [exact R|].
  destruct (fetch_models_needs_objects (H := Reference.runtime) Demo.self More.wrapped_models
              (JDict [("models", Demo.models_response)])) as [_ A].
  - vm_compute. reflexivity.
  - destruct (fetch_models Demo.self More.wrapped_models) as [|e w'] eqn:E; [done|].
    injection R as ->.
    destruct (A _ _ eq_refl) as (w'' & -> & F & _). done.
Defined.

Lemma run_update_needs_voices_with_length_witness :
  raised (run_update (H := Reference.runtime) Demo.self More.null_voices)
  = Some (TypeError "object of type 'NoneType' has no len()")
  ∧ untouched More.null_voices
      (world_of (run_update (H := Reference.runtime) Demo.self More.null_voices)).
Proof.
  destruct (run_update_needs_voices_with_length (H := Reference.runtime) Demo.self
              More.null_voices [("voices", JNull)] JNull
              (TypeError "object of type 'NoneType' has no len()")
              [Demo.multilingual; Demo.turbo]) as (_ & w' & -> & U);
    [vm_compute; reflexivity..|].
  done.
Defined.

Lemma subscription_failure_is_silent_witness :
  let o := run_update (H := Reference.runtime) Demo.self More.subscription_down in
  returned o = Some true
  ∧ ∃ body, files (world_of o) !! report_file Demo.self
            = Some (body +:+ Text.nl +:+ "=== Subscription Info ===" +:+ Text.nl).
Proof.
  intros o.
  assert (returned o = Some true) as R by (vm_compute; reflexivity).
  split; [exact R|].
  destruct (subscription_failure_is_silent (H := Reference.runtime) Demo.self
              More.subscription_down) as [_ A].
  destruct (A "401 Client Error: Unauthorized for url") as [_ B]; [vm_compute; reflexivity|].
  apply (B true (world_of o) [Demo.multilingual; Demo.turbo]).
  - apply ret_world_of. exact R.
  - vm_compute. reflexivity.
  - discriminate.
Defined.
(** ** The dropdown, found and patched again *)

Section Occurrences.

Local Open Scope nat_scope.

Lemma index_of_spec (p s : string) (i : nat) :
  index_of p s = Some i ↔
  i ≤ String.length s
  ∧ Text.is_prefix p (Text.drop i s) = true
  ∧ ∀ j, j < i → Text.is_prefix p (Text.drop j s) = false.
Proof.
  revert i. induction s as [|c s IH]; intros i.
  - simpl index_of. destruct (Text.is_prefix p "") eqn:E.
    + split.
      * intros [= <-]. split; [done|]. split; [done|]. intros j Hj. lia.
      * intros (Hi & _ & _). simpl in Hi. f_equal. lia.
    + split; [done|]. intros (Hi & Hp & _). simpl in Hi.
      assert (i = 0) as -> by lia. simpl in Hp. congruence.
  - simpl index_of. destruct (Text.is_prefix p (String c s)) eqn:E.
    + split.
      * intros [= <-]. split; [simpl; lia|]. split; [done|]. intros j Hj. lia.
      * intros (_ & _ & Hmin). destruct i as [|i]; [done|].
        specialize (Hmin 0 ltac:(lia)). simpl in Hmin. congruence.
    + destruct i as [|i].
      * split; [by destruct (index_of p s)|]. intros (_ & Hp & _). simpl in Hp. congruence.
      * split.
        -- destruct (index_of p s) as [i'|] eqn:Ei; [|done]. intros [= <-].
           destruct (proj1 (IH i') eq_refl) as (Hi & Hp & Hmin).
           split; [simpl; lia|]. split; [done|].
           intros [|j] Hj; [done|]. apply Hmin. lia.
        -- intros (Hi & Hp & Hmin). simpl in Hi, Hp.
           assert (index_of p s = Some i) as ->; [|done].
           apply IH. split; [lia|]. split; [done|].
           intros j Hj. apply (Hmin (S j)). lia.
Qed.

Lemma index_of_split (p s : string) (k : nat) :
  index_of p s = Some k →
  s = Text.take k s +:+ p +:+ Text.drop (k + String.length p) s.
Proof.
  intros (Hk & Hp & _)%index_of_spec.
  rewrite <- (take_drop k s) at 1. f_equal.
  rewrite (is_prefix_split _ _ Hp) at 1. by rewrite str_drop_drop.
Qed.

(** X9. The dropdown the popup patcher finds starts at the first
    [<select id="mode">] of the file and ends with the nearest [</select>]
    after it; there is a match exactly when that first opening tag has a
    closing tag somewhere after it, and the text matched is the opening
    tag, what lies between, and the closing tag. *)
Theorem dropdown_is_first_open_to_nearest_close (content : string) (i n : nat) :
  Re.search select_pattern content = Some (i, n) ↔
  index_of select_open content = Some i
  ∧ ∃ k, index_of select_close (Text.drop (i + String.length select_open) content) = Some k
         ∧ n = String.length select_open + k + String.length select_close
         ∧ Re.group content (i, n)
           = select_open
             +:+ Text.take k (Text.drop (i + String.length select_open) content)
             +:+ select_close.
Proof.
  rewrite search_spec, index_of_spec. split.
  - intros (Hi & Hm & Hmin).
    pose proof Hm as Hm'. rewrite match_select in Hm'.
    destruct (Text.is_prefix select_open (Text.drop i content)) eqn:Hopen; [|done].
    destruct (index_of select_close _) as [k|] eqn:Ek; [|done].
    assert (n = String.length select_open + (k + String.length select_close)) as ->
      by (simpl in Hm'; injection Hm' as <-; reflexivity).
    clear Hm'. rewrite str_drop_drop in Ek.
    split.
    + split; [done|]. split; [done|]. intros j Hj. specialize (Hmin j Hj).
      rewrite match_select in Hmin.
      destruct (Text.is_prefix select_open (Text.drop j content)); [|done].
      replace (i + String.length select_open)
        with ((j + String.length select_open) + (i - j)) in Ek by lia.
      rewrite <- str_drop_drop in Ek. apply index_of_drop in Ek as [k' Ek'].
      rewrite str_drop_drop, Ek' in Hmin. done.
    + exists k. split; [done|]. split; [lia|].
      cbv [Re.group fst snd].
      rewrite (is_prefix_split _ _ Hopen) at 1.
      rewrite str_drop_drop.
      rewrite (index_of_split _ _ _ Ek) at 1.
      rewrite <- !str_app_assoc.
      replace (String.length select_open + (k + String.length select_close))
        with (String.length ((select_open
                              +:+ Text.take k (Text.drop (i + String.length select_open) content))
                             +:+ select_close)).
      * by rewrite str_take_app_length.
      * rewrite !str_length_app, str_take_length; [lia|].
        apply index_of_length in Ek. lia.
  - intros ((Hi & Hopen & Hmin) & k & Ek & -> & _).
    split; [done|]. split.
    + rewrite match_select, Hopen, str_drop_drop, Ek. simpl. f_equal; lia.
    + intros j Hj. by rewrite match_select, (Hmin j Hj).
Qed.

End Occurrences.

Section Lines.

Local Open Scope nat_scope.

Lemma is_prefix_before_newline (p line rest : string) :
  one_line p →
  Text.is_prefix p (line +:+ Text.nl +:+ rest) = true → Text.is_prefix p line = true.
Proof.
  unfold one_line. revert line. induction p as [|a p IH]; intros line; [done|].
  simpl Text.existsb. intros [Ha Hp]%orb_false_elim.
  apply bool_decide_eq_false in Ha.
  destruct line as [|c line].
  - simpl. case_decide; [congruence|done].
  - rewrite str_app_cons. simpl. case_decide; [|done]. by apply IH.
Qed.

Lemma index_of_none (p s : string) : index_of p s = None → Text.is_prefix p s = false.
Proof. destruct s; simpl; by destruct (Text.is_prefix p _). Qed.

Lemma index_of_line (p line rest : string) :
  one_line p → index_of p line = None →
  index_of p (line +:+ Text.nl +:+ rest)
  = (λ k, String.length line + 1 + k) <$> index_of p rest.
Proof.
  intros Hp. induction line as [|c line IH]; intros Hl.
  - pose proof (index_of_none _ _ Hl) as Hn.
    change ("" +:+ Text.nl +:+ rest) with (String "010" rest). simpl index_of.
    destruct (Text.is_prefix p (String "010" rest)) eqn:E.
    + apply (is_prefix_before_newline p "" rest Hp) in E. congruence.
    + by destruct (index_of p rest).
  - rewrite str_app_cons. simpl index_of.
    pose proof (index_of_none _ _ Hl) as Hn.
    simpl index_of in Hl. rewrite Hn in Hl.
    destruct (index_of p line) eqn:El; [done|].
    destruct (Text.is_prefix p (String c (line +:+ Text.nl +:+ rest))) eqn:E.
    + rewrite <- str_app_cons in E. apply is_prefix_before_newline in E; [congruence|done].
    + rewrite IH by done. by destruct (index_of p rest).
Qed.

Lemma index_of_lines (p : string) (lines : list string) (rest : string) :
  one_line p → p ≠ "" →
  (∀ line, line ∈ lines → index_of p line = None) →
  index_of p (Text.join Text.nl lines +:+ Text.nl +:+ rest)
  = (λ k, String.length (Text.join Text.nl lines) + 1 + k) <$> index_of p rest.
Proof.
  intros Hp Hne. induction lines as [|x lines IH]; intros Hl.
  - apply index_of_line; [done|]. destruct p; [done|reflexivity].
  - destruct lines as [|y lines].
    + apply index_of_line; [done|]. apply Hl. left.
    + change (Text.join Text.nl (x :: y :: lines))
        with (x +:+ Text.nl +:+ Text.join Text.nl (y :: lines)).
      rewrite !str_app_assoc, index_of_line; [|done|apply Hl; left].
      rewrite IH by (intros line Hin; apply Hl; by right).
      destruct (index_of p rest); [|done]. simpl. f_equal.
      rewrite !str_length_app. simpl. lia.
Qed.

Context `{!Runtime}.

Lemma no_cr_join (sep : string) (l : list string) :
  no_cr sep → Forall no_cr l → no_cr (Text.join sep l).
Proof.
  intros Hsep. induction 1 as [|a l Ha Hl IH]; [done|].
  destruct l as [|b l]; [done|].
  change (Text.join sep (a :: b :: l)) with (a +:+ sep +:+ Text.join sep (b :: l)).
  rewrite !no_cr_app. auto.
Qed.

(** The dropdown of [models] is one match of the dropdown pattern, and is
    read as it was written, when no option line holds the closing tag or
    a carriage return. *)
Lemma one_dropdown_of_lines (models : list dict) :
  (∀ model, model ∈ models →
            index_of select_close (option_text model) = None
            ∧ no_cr (option_text model)) →
  one_dropdown models.
Proof.
  intros Hl options_html Eo.
  apply map_result_Forall2 in Eo.
  assert (∀ line, line ∈ options_html →
                  index_of select_close line = None ∧ no_cr line) as Hlines.
  { intros line Hin. apply list_elem_of_lookup in Hin as [i Hi].
    destruct (Forall2_lookup_r _ _ _ _ _ Eo Hi) as (model & Hm & E).
    apply option_line_text in E as ->. apply Hl. by eapply list_elem_of_lookup_2. }
  split.
  - rewrite match_select. unfold new_select.
    rewrite is_prefix_self_app, str_drop_app_length.
    match goal with
    | |- context [index_of select_close (Text.nl +:+ ?r)] =>
        change (index_of select_close (Text.nl +:+ r))
          with (index_of select_close ("" +:+ Text.nl +:+ r));
        rewrite (index_of_line select_close "" r eq_refl eq_refl)
    end.
    rewrite (index_of_lines select_close options_html select_close eq_refl)
      by first [done | intros line Hin; by apply Hlines].
    change (index_of select_close select_close) with (Some 0).
    simpl. f_equal. rewrite !str_length_app. simpl. lia.
  - unfold new_select. rewrite !no_cr_app.
    split; [reflexivity|]. split; [reflexivity|]. split; [|split; reflexivity].
    apply no_cr_join; [reflexivity|].
    apply Forall_forall. intros line Hin. by apply Hlines.
Qed.

End Lines.

Section PopupAgain.

Context `{!Runtime} (self : updater).

(** X8. Patching popup.html twice with the same models is patching it
    once: when no option line holds [</select>] or a carriage return, a
    second call on the file the first one left returns the same flag,
    does not raise, and leaves the file as the first call left it. (A
    carriage return written is read back as a line feed: the dropdown
    found by the second call is then not the one the first call wrote.) *)
Theorem update_popup_html_twice (models : list dict) (w w1 v : world) (b : bool) :
  (∀ model, model ∈ models →
            index_of select_close (option_text model) = None
            ∧ no_cr (option_text model)) →
  update_popup_html self models w = Ret b w1 →
  files v !! popup_file self = files w1 !! popup_file self →
  ∃ w2, update_popup_html self models v = Ret b w2
        ∧ files w2 !! popup_file self = files w1 !! popup_file self.
Proof.
  intros Hone%one_dropdown_of_lines E1 Ev.
  rewrite (update_popup_html_files self _ _ _ _ E1) in Ev |- *.
  rewrite update_popup_html_run in E1. rewrite update_popup_html_run.
  unfold popup_after in Ev |- *.
  destruct (files w !! popup_file self) as [text|].
  2:{ injection E1 as <- <-. rewrite Ev. eexists. split; [reflexivity|]. exact Ev. }
  cbv zeta in E1, Ev |- *.
  destruct (Re.search select_pattern (Text.universal_newlines text)) as [[i n]|] eqn:Es.
  2:{ injection E1 as <- <-. rewrite Ev. cbv zeta. rewrite Es.
      eexists. split; [reflexivity|]. exact Ev. }
  destruct (map_result option_line models) as [opts|e] eqn:Eo; [|done].
  injection E1 as <- <-.
  destruct (Hone _ Eo) as [Hm Hcr].
  pose proof (patch_twice _ (new_select opts) i n Es Hm) as P.
  cbv zeta in P. destruct P as [S2 E2].
  rewrite Ev. cbv zeta.
  rewrite (universal_newlines_id (Text.replace _ _ _))
    by (apply replace_no_cr; [exact Hcr|apply universal_newlines_no_cr]).
  rewrite S2. eexists. split; [reflexivity|].
  simpl. rewrite lookup_insert_eq. f_equal. exact E2.
Qed.

Lemma option_line_sliceable (model : dict) :
  (∃ line, option_line model = Ok line) ↔ sliceable model = true.
Proof.
  unfold option_line, format_model_for_dropdown, sliceable.
  destruct (dict_get model "description" (JStr "")) as [|[]|n|x|s|l|d]; simpl;
    try match goal with
        | |- context [negb ?c] => destruct c; simpl
        end;
    first [ split; [done|intros _; eexists; reflexivity]
          | split; [intros [? [=]]|done] ].
Qed.

Lemma option_lines_sliceable (models : list dict) :
  (∃ lines, map_result option_line models = Ok lines)
  ↔ Forall (λ model, sliceable model = true) models.
Proof.
  induction models as [|model models IH]; simpl.
  - split; [constructor|eauto].
  - split.
    + intros [lines E].
      destruct (option_line model) as [line|] eqn:El; [|done].
      destruct (map_result option_line models) as [ls|] eqn:Els; [|done].
      constructor; [apply option_line_sliceable; eauto|apply IH; eauto].
    + intros [[line ->]%option_line_sliceable [ls ->]%IH]%Forall_cons. eauto.
Qed.

Lemma option_line_error (model : dict) (e : exn) :
  option_line model = Err e →
  sliceable model = false
  ∧ py_slice_to 50 (dict_get model "description" (JStr "")) = Err e.
Proof.
  intros E. split.
  - destruct (sliceable model) eqn:Hs; [|done].
    apply option_line_sliceable in Hs as [line Hl]. congruence.
  - revert E. unfold option_line, format_model_for_dropdown.
    destruct (truthy _); [|done].
    destruct (py_slice_to _ _); [done|]. by intros [= <-].
Qed.

Lemma option_lines_error (models : list dict) :
  Exists (λ model, sliceable model = false) models →
  ∃ e before model after,
    map_result option_line models = Err e
    ∧ models = before ++ model :: after
    ∧ Forall (λ m, sliceable m = true) before
    ∧ sliceable model = false
    ∧ py_slice_to 50 (dict_get model "description" (JStr "")) = Err e.
Proof.
  induction models as [|m models IH]; [by intros ?%Exists_nil|].
  intros He. cbn [map_result].
  destruct (option_line m) as [line|e] eqn:El.
  - assert (sliceable m = true) as Hm by (apply option_line_sliceable; eauto).
    apply Exists_cons in He as [He|He]; [congruence|].
    destruct (IH He) as (e & before & model & after & E & -> & Hb & Hs & Hc).
    exists e, (m :: before), model, after.
    rewrite E. repeat split; try done. by constructor.
  - destruct (option_line_error _ _ El) as [Hs Hc].
    exists e, [], m, models. repeat split; done.
Qed.

(** X10. When popup.html holds the dropdown and some model has a
    description that counts as true and is neither a text nor a list (a
    number, [true], an object), [update_popup_html] raises: with the
    exception of cutting the description of the first such model, and
    leaving every file and the log of opened files as they were. The
    label it builds from the description is never used, yet cutting it
    raises. *)
Theorem update_popup_html_raises_on_description (models : list dict) (w : world)
    (text : string) :
  files w !! popup_file self = Some text →
  is_Some (Re.search select_pattern (Text.universal_newlines text)) →
  Exists (λ model, sliceable model = false) models →
  ∃ e w' before model after,
    update_popup_html self models w = Raise e w'
    ∧ untouched w w'
    ∧ models = before ++ model :: after
    ∧ Forall (λ m, sliceable m = true) before
    ∧ sliceable model = false
    ∧ py_slice_to 50 (dict_get model "description" (JStr "")) = Err e.
Proof.
  intros Ef [m Es] He.
  destruct (option_lines_error models He) as (e & before & model & after & E & Hm & Hb & Hs & Hc).
  rewrite update_popup_html_run, Ef. cbv zeta. rewrite Es, E.
  eexists e, _, before, model, after. split; [reflexivity|]. done.
Qed.

End PopupAgain.

Lemma update_popup_html_twice_witness :
  let o1 := update_popup_html (H := Reference.runtime) Demo.self More.models Demo.world in
  let o2 := update_popup_html (H := Reference.runtime) Demo.self More.models (world_of o1) in
  returned o1 = Some true
  ∧ returned o2 = Some true
  ∧ files (world_of o2) !! popup_file Demo.self = files (world_of o1) !! popup_file Demo.self.
Proof.
  intros o1 o2.
  assert (returned o1 = Some true) as R1 by (vm_compute; reflexivity).
  split; [exact R1|].
  destruct (update_popup_html_twice (H := Reference.runtime) Demo.self More.models
              Demo.world (world_of o1) (world_of o1) true) as (w2 & E2 & F2).
  - intros model Hin. unfold More.models in Hin.
    repeat (apply elem_of_cons in Hin as [->|Hin]; [split; vm_compute; reflexivity|]).
    by apply elem_of_nil in Hin.
  - apply ret_world_of. exact R1.
  - reflexivity.
  - subst o2. rewrite E2. split; [reflexivity|exact F2].
Defined.

(** Without the condition on carriage returns the second call can change
    the file: the name of the model holds a carriage return, and the file
    holds, after an empty dropdown, the dropdown of that model with a line
    feed in its place. The first call fills the empty dropdown; the second
    reads the carriage return it wrote as a line feed, finds the text of
    the second dropdown, and rewrites both. *)
Lemma update_popup_html_twice_counterexample :
  let o1 := update_popup_html (H := Reference.runtime) Demo.self [More.mac_model]
              More.mac_popup in
  let o2 := update_popup_html (H := Reference.runtime) Demo.self [More.mac_model]
              (world_of o1) in
  index_of select_close (option_text (H := Reference.runtime) More.mac_model) = None
  ∧ returned o1 = Some true
  ∧ returned o2 = Some true
  ∧ files (world_of o1) !! "popup.html"
    = Some (More.mac_dropdown +:+ "<hr>" +:+ Text.universal_newlines More.mac_dropdown)
  ∧ files (world_of o2) !! "popup.html"
    = Some (More.mac_dropdown +:+ "<hr>" +:+ More.mac_dropdown).
Proof. vm_compute. repeat split; reflexivity. Qed.

Lemma update_popup_html_raises_on_description_witness :
  raised (update_popup_html (H := Reference.runtime) Demo.self
            [Demo.turbo; Cases.numeric_description_model] Demo.world)
  = Some (TypeError "'int' object is not subscriptable").
Proof.
  destruct (update_popup_html_raises_on_description (H := Reference.runtime) Demo.self
              [Demo.turbo; Cases.numeric_description_model] Demo.world Demo.popup_html)
    as (e & w' & before & model & after & -> & _ & Em & Hb & _ & Hc).
  - reflexivity.
  - vm_compute. eauto.
  - apply Exists_cons_tl, Exists_cons_hd. reflexivity.
  - destruct before as [|m0 [|m1 before]].
    + injection Em as <- _. apply Forall_nil in Hb as _. vm_compute in Hc. discriminate.
    + injection Em as _ <- _. vm_compute in Hc. injection Hc as <-. reflexivity.
    + injection Em as _ _ Em. by destruct before.
Defined.

Section Labels.

Context `{!Runtime}.

Local Open Scope nat_scope.

Lemma take_length_min (n : nat) (s : string) :
  String.length (Text.take n s) = Nat.min n (String.length s).
Proof. revert s. induction n as [|n IH]; intros [|c s]; simpl; try done. by rewrite IH. Qed.

(** X20. [format_model_for_dropdown] returns exactly when the
    description can be cut; the value is the model id, the name defaults
    to it, and the label is the name alone when the description counts as
    false, otherwise the name, [" - "], the first fifty characters of the
    description and ["..."], the dots also after a description shorter
    than fifty. *)
Theorem dropdown_label (model : dict) :
  let model_id := dict_get model "model_id" (JStr "") in
  let title := dict_get model "name" model_id in
  let about := dict_get model "description" (JStr "") in
  ((∃ entry, format_model_for_dropdown model = Ok entry) ↔ sliceable model = true)
  ∧ ∀ entry,
      format_model_for_dropdown model = Ok entry →
      value entry = model_id
      ∧ name entry = title
      ∧ description entry = about
      ∧ ∃ tail,
          label entry = py_str title +:+ tail
          ∧ (truthy about = false → tail = "")
          ∧ (∀ text, about = JStr text → text ≠ "" →
               tail = " - " +:+ Text.take 50 text +:+ "..."
               ∧ String.length tail = 6 + Nat.min 50 (String.length text)).
Proof.
  intros model_id title about.
  unfold format_model_for_dropdown, sliceable. fold model_id. fold title. fold about.
  destruct (truthy about) eqn:Et.
  - destruct about as [| | | |text|l|d] eqn:Ea; simpl py_slice_to;
      rewrite ?result_bind_err, ?result_bind_ok, ?Et;
      try solve [split; [split; [intros [? [=]]|done]|intros ? [=]]].
    + split; [split; [done|intros _; eexists; reflexivity]|].
      intros entry [= <-]. cbn [value name description label py_str].
      unfold Text.slice_to. repeat (split; [done|]).
      exists (" - " +:+ Text.take 50 text +:+ "..."). split; [reflexivity|]. split; [done|].
      intros text' E Hne. assert (text' = text) as -> by congruence.
      split; [reflexivity|].
      rewrite !str_length_app, take_length_min. simpl. lia.
    + split; [split; [done|intros _; eexists; reflexivity]|].
      intros entry [= <-]. simpl. repeat (split; [done|]).
      eexists. split; [reflexivity|]. split; [done|]. intros ? [=].
  - split.
    + split; [|intros _; eexists; reflexivity]. intros _.
      destruct about; simpl in Et |- *; by rewrite ?Et.
    + intros entry [= <-]. simpl. repeat (split; [done|]).
      exists "". split; [by rewrite str_app_nil_r|]. split; [done|].
      intros text -> Hne. simpl in Et. by rewrite bool_decide_false in Et.
Qed.

End Labels.
(** ** The mapping block and the declaration it replaces *)

Section Template.

Local Open Scope nat_scope.





Lemma replace_char (a b : ascii) (s : string) :
  Text.replace (String a "") (String b "") s
  = Text.map_chars (λ c, if decide (c = a) then b else c) s.
Proof.
  unfold Text.replace. induction s as [|c s IH]; [done|].
  simpl. rewrite <- IH.
  destruct (decide (a = c)) as [->|Hn].
  - by rewrite decide_True.
  - by rewrite decide_False by congruence.
Qed.

Lemma map_chars_length (f : ascii → ascii) (s : string) :
  String.length (Text.map_chars f s) = String.length s.
Proof. induction s as [|c s IH]; simpl; [done|]. by rewrite IH. Qed.

Lemma map_chars_map_chars (f g : ascii → ascii) (s : string) :
  Text.map_chars f (Text.map_chars g s) = Text.map_chars (λ c, f (g c)) s.
Proof. induction s as [|c s IH]; simpl; [done|]. by rewrite IH. Qed.

Lemma existsb_map_chars (p : ascii → bool) (f : ascii → ascii) (s : string) :
  (∀ c, p (f c) = false) → Text.existsb p (Text.map_chars f s) = false.
Proof. intros Hp. induction s as [|c s IH]; simpl; [done|]. by rewrite Hp, IH. Qed.

Lemma lower_char_not_upper (c : ascii) : Text.between 65 90 (Text.lower_char c) = false.
Proof. destruct c as [[] [] [] [] [] [] [] []]; reflexivity. Qed.

(** The key of a mode has the length of the name, no blank and no capital. *)
Lemma mode_key_shape (name : string) :
  String.length (mode_key name) = String.length name
  ∧ Text.existsb (λ c, bool_decide (c = " "%char) || Text.between 65 90 c) (mode_key name)
    = false
  ∧ mode_key name
    = Text.map_chars (λ c, if decide (Text.lower_char c = " "%char) then "_"%char
                           else Text.lower_char c) name.
Proof.
  unfold mode_key, Text.lower. rewrite replace_char, map_chars_map_chars.
  split; [apply map_chars_length|]. split; [|done].
  apply existsb_map_chars. intros c.
  destruct (decide (Text.lower_char c = " "%char)) as [E|E]; [done|].
  rewrite bool_decide_false by done. apply lower_char_not_upper.
Qed.

End Template.

Section MappingBlock.

Context `{!Runtime} (self : updater).




(** X21. In the mapping, the line of a model that is not the last one
    tests the mode against the name in lower case with every blank turned
    into an underscore: a key as long as the name, with no blank and no
    capital letter A to Z in it. *)
Theorem mode_key_in_mapping (model : dict) (name : string) (total i : nat) :
  dict_get model "name" (JStr "") = JStr name →
  Z.of_nat i ≠ Z.of_nat total - 1 →
  let id := py_str (dict_get model "model_id" (JStr "")) in
  mapping_line total i model
  = Ok ("    (mode === " +:+ Text.dq +:+ mode_key name +:+ Text.dq +:+ " || mode === "
        +:+ Text.dq +:+ id +:+ Text.dq +:+ ") ? " +:+ Text.dq +:+ id +:+ Text.dq +:+ " :")
  ∧ String.length (mode_key name) = String.length name
  ∧ Text.existsb (λ c, bool_decide (c = " "%char) || Text.between 65 90 c) (mode_key name)
    = false.
Proof.
  intros En Hi id. split; [|by destruct (mode_key_shape name) as (? & ? & _)].
  unfold mapping_line. rewrite En. simpl py_lower.
  rewrite result_bind_ok, bool_decide_false by done. reflexivity.
Qed.

End MappingBlock.

Section Declaration.

Local Open Scope nat_scope.

Lemma greedy_spaces (cls : ascii → bool) (rest : Re.pattern) (ws r : string) (m : nat) :
  Text.forallb cls ws = true →
  Re.match_here (Re.Star cls :: rest) r = Some m →
  Re.match_here (Re.Star cls :: rest) (ws +:+ r) = Some (String.length ws + m).
Proof.
  intros Hws Hm. induction ws as [|c ws IH]; [done|].
  simpl in Hws. apply andb_prop in Hws as [Hc Hws].
  rewrite str_app_cons. simpl. rewrite Hc.
  simpl in IH. by rewrite (IH Hws).
Qed.

Lemma index_of_newline (line post : string) :
  one_line line → index_of Text.nl (line +:+ Text.nl +:+ post) = Some (String.length line).
Proof.
  unfold one_line. induction line as [|c line IH]; [done|].
  simpl Text.existsb. intros [Hc Hl]%orb_false_elim. apply bool_decide_eq_false in Hc.
  rewrite str_app_cons. simpl. rewrite decide_False by congruence.
  by rewrite IH.
Qed.

Lemma match_here_lit (l : string) (rest : Re.pattern) (s : string) :
  Re.match_here (Re.Lit l :: rest) s
  = if Text.is_prefix l s
    then (λ n, String.length l + n) <$> Re.match_here rest (Text.drop (String.length l) s)
    else None.
Proof. reflexivity. Qed.

Lemma match_here_star_stop (cls : ascii → bool) (rest : Re.pattern) (c : ascii) (s : string) :
  cls c = false →
  Re.match_here (Re.Star cls :: rest) (String c s) = Re.match_here rest (String c s).
Proof. intros Hc. simpl. by rewrite Hc. Qed.

(** X22. The declaration the mapping patcher finds runs from the first
    [const model_id =] of the file over all the white space that follows
    it, line ends included, to the end of the first line that has
    something on it: a declaration whose value is on the next line is
    matched with that line. *)
Theorem declaration_runs_to_end_of_line (pre ws line post : string) (c : ascii) :
  let declared := "const model_id =" in
  let matched := declared +:+ ws +:+ String c line +:+ Text.nl in
  index_of declared (pre +:+ declared) = Some (String.length pre) →
  Text.forallb Text.is_space ws = true →
  Text.is_space c = false →
  one_line (String c line) →
  Re.search mapping_pattern (pre +:+ matched +:+ post)
  = Some (String.length pre, String.length matched)
  ∧ Re.group (pre +:+ matched +:+ post) (String.length pre, String.length matched) = matched.
Proof.
  intros declared matched Hfirst Hws Hc Hline.
  assert (matched +:+ post = declared +:+ ws +:+ String c line +:+ Text.nl +:+ post) as Em.
  { unfold matched. by rewrite !str_app_assoc. }
  split.
  - apply search_spec. split; [rewrite str_length_app; lia|]. split.
    + rewrite str_drop_app_length, Em. unfold mapping_pattern.
      rewrite match_here_lit, is_prefix_self_app, str_drop_app_length.
      rewrite (greedy_spaces _ _ ws _ (String.length (String c line) + 1)); [|done|].
      * simpl. f_equal. unfold matched. rewrite !str_length_app. simpl. lia.
      * rewrite str_app_cons, match_here_star_stop by done.
        rewrite <- str_app_cons, match_lazy_literal, index_of_newline by done.
        reflexivity.
    + intros j Hj.
      apply index_of_spec in Hfirst as (_ & _ & Hmin).
      specialize (Hmin j Hj).
      unfold mapping_pattern. rewrite match_here_lit.
      change "const model_id =" with declared.
      rewrite Em, <- (str_app_assoc pre).
      rewrite str_drop_app_le by (rewrite str_length_app; lia).
      rewrite str_drop_app_le by lia.
      rewrite str_drop_app_le in Hmin by lia.
      rewrite is_prefix_long, Hmin; [done|].
      apply (f_equal negb) in Hmin. simpl in Hmin.
      rewrite str_length_app. simpl. lia.
  - cbv [Re.group fst snd]. by rewrite str_drop_app_length, str_take_app_length.
Qed.

End Declaration.


Lemma mode_key_in_mapping_witness :
  mode_key "Eleven Multilingual v2" = "eleven_multilingual_v2"
  ∧ mapping_line (H := Reference.runtime) 2 0 Demo.multilingual
    = Ok ("    (mode === " +:+ Demo.q "eleven_multilingual_v2" +:+ " || mode === "
          +:+ Demo.q "eleven_multilingual_v2" +:+ ") ? " +:+ Demo.q "eleven_multilingual_v2"
          +:+ " :").
Proof.
  split; [vm_compute; reflexivity|].
  destruct (mode_key_in_mapping (H := Reference.runtime) Demo.multilingual
              "Eleven Multilingual v2" 2 0) as (A & _).
  - reflexivity.
  - discriminate.
  - rewrite A. vm_compute. reflexivity.
Defined.

Lemma declaration_runs_to_end_of_line_witness :
  let pre := "async function fetchResponse(mode, text) {" +:+ Text.nl +:+ "  " in
  let line := "ode === " +:+ Demo.q "englishfast" +:+ " ? " +:+ Demo.q "eleven_turbo_v2"
              +:+ " : " +:+ Demo.q "eleven_multilingual_v2" +:+ ";" in
  let matched := "const model_id =" +:+ (Text.nl +:+ "    ") +:+ String "m" line +:+ Text.nl in
  let post := "  return speak(model_id, text);" +:+ Text.nl +:+ "}" +:+ Text.nl in
  Demo.content_js = pre +:+ matched +:+ post
  ∧ Re.search mapping_pattern (pre +:+ matched +:+ post)
    = Some (String.length pre, String.length matched)
  ∧ Re.group (pre +:+ matched +:+ post) (String.length pre, String.length matched) = matched.
Proof.
  intros pre line matched post. split; [vm_compute; reflexivity|].
  apply (declaration_runs_to_end_of_line pre (Text.nl +:+ "    ") line post "m");
    vm_compute; reflexivity.
Defined.
(** ** What the steps keep, and the two entries of the script *)

Lemma keeps_ret {A} (I : world → Prop) (a : A) : keeps I (mret a).
Proof. by intros w Hw. Qed.

Lemma keeps_bind {A B} (I : world → Prop) (m : M A) (f : A → M B) :
  keeps I m → (∀ a, keeps I (f a)) → keeps I (m ≫= f).
Proof.
  intros Hm Hf w Hw. specialize (Hm w Hw). rewrite bind_run.
  destruct (m w) as [a w1|e w1]; [by apply Hf|done].
Qed.

Lemma keeps_lift {A} (I : world → Prop) (r : result A) : keeps I (lift r).
Proof. intros w Hw. by destruct r. Qed.

Lemma keeps_raise {A} (I : world → Prop) (e : exn) : keeps I (raise (A := A) e).
Proof. by intros w Hw. Qed.

Lemma keeps_try_except {A} (I : world → Prop) (m : M A) (h : exn → M A) :
  keeps I m → (∀ e, keeps I (h e)) → keeps I (try_except m h).
Proof.
  intros Hm Hh w Hw. specialize (Hm w Hw). unfold try_except.
  destruct (m w) as [a w1|e w1]; [done|].
  destruct (is_Exception e); [by apply Hh|done].
Qed.

Lemma keeps_for_each {A} (I : world → Prop) (l : list A) (body : A → M unit) :
  (∀ x, keeps I (body x)) → keeps I (for_each l body).
Proof.
  intros Hb. induction l as [|x l IH]; simpl; [apply keeps_ret|].
  apply keeps_bind; [apply Hb|done].
Qed.

Lemma keeps_if {A} (I : world → Prop) (b : bool) (m1 m2 : M A) :
  keeps I m1 → keeps I m2 → keeps I (if b then m1 else m2).
Proof. by destruct b. Qed.

Lemma keeps_print (I : world → Prop) (s : string) : blind_to_stdout I → keeps I (print s).
Proof. intros HI w Hw. by apply HI. Qed.

Lemma keeps_path_exists (I : world → Prop) (p : string) : keeps I (path_exists p).
Proof. by intros w Hw. Qed.

Lemma keeps_read_text (I : world → Prop) (p : string) : keeps I (read_text p).
Proof. intros w Hw. unfold read_text. by destruct (files w !! p). Qed.

Lemma keeps_now (I : world → Prop) : keeps I now.
Proof. by intros w Hw. Qed.

Lemma keeps_http_get (I : world → Prop) (url key : string) : keeps I (http_get url key).
Proof. by intros w Hw. Qed.

Lemma keeps_open_w (I : world → Prop) (p : string) : blind_to_files I → keeps I (open_w p).
Proof.
  intros HI w Hw. unfold open_w. destruct (can_open w p); [by apply HI|done].
Qed.

Lemma keeps_f_write (I : world → Prop) (p s : string) : blind_to_files I → keeps I (f_write p s).
Proof.
  intros HI w Hw. simpl.
  specialize (HI (λ fs, <[p := default "" (fs !! p) +:+ s]> fs) (λ o, o) w Hw).
  by destruct w.
Qed.

Lemma keeps_write_text (I : world → Prop) (p s : string) :
  blind_to_files I → keeps I (write_text p s).
Proof.
  intros HI. apply keeps_bind; [by apply keeps_open_w|]. intros _. by apply keeps_f_write.
Qed.

Create HintDb keeps discriminated.
#[global] Hint Resolve keeps_ret keeps_bind keeps_lift keeps_raise keeps_try_except
  keeps_for_each keeps_if keeps_print keeps_path_exists keeps_read_text keeps_now
  keeps_http_get keeps_open_w keeps_f_write keeps_write_text : keeps.
#[global] Hint Extern 1 (keeps _ (match ?x with _ => _ end)) => destruct x : keeps.
#[global] Hint Extern 1 (keeps _ (let _ := _ in _)) => cbv zeta : keeps.

Ltac keeps := auto 60 with keeps.

Lemma same_keyboard_stdout (w : world) : blind_to_stdout (same_keyboard w).
Proof. by intros f w' Hw. Qed.

Lemma same_keyboard_files (w : world) : blind_to_files (same_keyboard w).
Proof. by intros f g w' Hw. Qed.

#[global] Hint Resolve same_keyboard_stdout same_keyboard_files : keeps.

Section Keyboard.

Context `{!Runtime} (self : updater).

Lemma run_update_keeps_keyboard (w : world) : keeps (same_keyboard w) (run_update self).
Proof.
  unfold run_update, fetch_models, fetch_voices, get_user_subscription, update_popup_html,
    update_content_js_model_mapping, create_models_json, create_voices_json,
    update_manifest_version, create_update_report.
  keeps.
Qed.

End Keyboard.


Section Written.

Context `{!Runtime} (self : updater).

(** X12. [create_models_json] writes models.json and no other file, or
    nothing. When the file or its directory exists it returns [True]: one
    record per model, each with the same eight keys in the same order, a
    key of the model among the eight copied with its value as it is,
    every other key of the model left out. When neither exists it raises
    [FileNotFoundError] and leaves the world as it was. *)
Theorem models_json_projects (models : list dict) (w : world) :
  (if can_open w (models_file self) then
     ∃ w', create_models_json self models w = Ret true w'
           ∧ overwritten (models_file self) w w'
           ∧ files w' !! models_file self
             = Some (json_dumps (JList (JDict <$> (model_record <$> models))))
           ∧ ∀ p, p ≠ models_file self → files w' !! p = files w !! p
   else create_models_json self models w = Raise (no_such_file (models_file self)) w)
  ∧ ∀ model,
      (model_record model).*1 = model_keys
      ∧ (∀ k v, k ∈ model_keys → dict_lookup k model = Some v →
                dict_lookup k (model_record model) = Some v)
      ∧ (∀ k, k ∉ model_keys → dict_lookup k (model_record model) = None).
Proof.
  split.
  - rewrite create_models_json_run.
    destruct (can_open w (models_file self)); [|reflexivity].
    eexists. split; [reflexivity|].
    split; [done|]. split.
    + simpl. rewrite lookup_insert_eq. unfold models_snapshot.
      by rewrite list_fmap_compose.
    + intros p Hp. simpl. by rewrite lookup_insert_ne.
  - intros model. split; [done|]. split.
    + intros k v Hk Hv. unfold model_keys in Hk.
      repeat (apply elem_of_cons in Hk as [->|Hk];
              [unfold model_record, dict_get; rewrite Hv; reflexivity|]).
      by apply elem_of_nil in Hk.
    + intros k Hk. unfold model_record. simpl.
      repeat (rewrite decide_False;
              [|intros ->; apply Hk; unfold model_keys; repeat constructor]).
      done.
Qed.

(** X13. [create_voices_json] writes all or nothing: it returns [True]
    with voices.json overwritten by one record per voice, no other file
    changed; or it raises and leaves the world exactly as it was,
    voices.json not even opened: a [TypeError] (the voices cannot be
    iterated), an [AttributeError] (a voice is not an object), or, the
    records built, [FileNotFoundError] when neither the file nor its
    directory exists. *)
Theorem voices_json_all_or_nothing (voices : json) (w : world) :
  match create_voices_json self voices w with
  | Ret b w' =>
      b = true
      ∧ can_open w (voices_file self) = true
      ∧ overwritten (voices_file self) w w'
      ∧ (∀ p, p ≠ voices_file self → files w' !! p = files w !! p)
      ∧ ∃ records,
          (∃ items, py_iter voices = Ok items ∧ Forall2 (λ item record, voice_record item = Ok record) items records)
          ∧ files w' !! voices_file self = Some (json_dumps (JList (JDict <$> records)))
  | Raise e w' =>
      w' = w
      ∧ ((∃ msg, e = TypeError msg ∨ e = AttributeError msg)
         ∨ (e = no_such_file (voices_file self)
            ∧ can_open w (voices_file self) = false
            ∧ ∃ records, voices_snapshot voices = Ok (JList (JDict <$> records))))
  end.
Proof.
  unfold create_voices_json, voices_snapshot. fold (voices_file self).
  rewrite bind_run.
  destruct (py_iter voices) as [items|e] eqn:Ei.
  2:{ rewrite lift_err. split; [done|]. left.
      destruct voices; simpl in Ei; try discriminate; injection Ei as <-; eauto. }
  rewrite lift_ok, result_bind_ok. cbv beta iota. rewrite bind_run.
  destruct (map_result voice_record items) as [records|e] eqn:Er.
  - rewrite lift_ok, result_bind_ok. cbv beta iota.
    rewrite bind_run, write_text_run.
    destruct (can_open w (voices_file self)) eqn:Ec.
    + cbv beta iota. rewrite bind_run, print_run. cbv beta iota.
      split; [done|]. split; [done|]. split; [done|]. split.
      * intros p Hp. simpl. by rewrite lookup_insert_ne.
      * exists records. split.
        -- exists items. split; [done|]. by apply map_result_Forall2.
        -- simpl. by rewrite lookup_insert_eq.
    + split; [done|]. right. split; [done|]. split; [done|]. by exists records.
  - rewrite lift_err. split; [done|]. left. clear Ei.
    revert e Er. induction items as [|item items IH]; intros e; [done|].
    simpl. destruct (voice_record item) as [record|e'] eqn:Ev.
    + rewrite result_bind_ok.
      destruct (map_result voice_record items) as [|e'']; [done|].
      intros [= <-]. by eapply IH.
    + intros [= <-].
      destruct item; simpl in Ev; try discriminate; injection Ev as <-; eauto.
Qed.

Lemma report_begins_f_write (w : world) (head s : string) :
  keeps (report_begins self w head) (f_write (report_file self) s).
Proof.
  intros w' ([rest Hr] & Ho & Hf). unfold report_begins. simpl.
  split; [|split; [done|]].
  - exists (rest +:+ s). rewrite lookup_insert_eq, Hr. cbn [from_option]. unfold id.
    by rewrite str_app_assoc.
  - intros p Hp. rewrite lookup_insert_ne by done. by apply Hf.
Qed.

Lemma report_begins_stdout (w : world) (head : string) :
  blind_to_stdout (report_begins self w head).
Proof. by intros f w' Hw. Qed.

(** X14. When update_report.txt or its directory exists, then however
    [create_update_report] ends, returning or raising, it has opened the
    file once, what the file held before is gone, the file begins with
    the title, the date of the clock and the number of models, and no
    other file has changed. When neither exists it raises
    [FileNotFoundError] and leaves the world as it was. *)
Theorem report_is_begun_anew (models : list dict) (voices subscription : json) (w : world) :
  let o := create_update_report self models voices subscription w in
  if can_open w (report_file self) then
    report_begins self w
      (("=== ElevenLabs Extension Update Report ===" +:+ Text.nl +:+ Text.nl)
       +:+ ("Date: " +:+ clock w +:+ Text.nl)
       +:+ ("Models found: " +:+ pretty (length models) +:+ Text.nl))
      (world_of o)
  else o = Raise (no_such_file (report_file self)) w.
Proof.
  intros o. subst o. unfold create_update_report. fold (report_file self).
  rewrite bind_run. unfold open_w. cbv beta.
  destruct (can_open w (report_file self)); [|reflexivity]. cbv beta iota.
  rewrite bind_run. unfold f_write at 1. cbv beta iota.
  rewrite bind_run. unfold now at 1. cbv beta iota.
  rewrite bind_run. unfold f_write at 1. cbv beta iota.
  rewrite bind_run. unfold f_write at 1. cbv beta iota.
  match goal with |- report_begins _ _ ?h (world_of (?m ?w1)) =>
    assert (keeps (report_begins self w h) m) as K;
    [|apply K]
  end.
  - pose proof report_begins_f_write. pose proof report_begins_stdout. keeps.
  - unfold report_begins. simpl. split; [|split; [done|]].
    + exists "". rewrite !lookup_insert_eq. simpl. f_equal.
      by rewrite str_app_nil_r, !str_app_assoc.
    + intros p Hp. by rewrite !lookup_insert_ne.
Qed.

End Written.


Section Prompts.

Context `{!Runtime}.

(** X15. However [run_update] ends, it has changed no file other than
    the six it names in the extension directory and opened no other for
    writing, it has only added to standard output, and it has left the
    API, the clock and the keyboard as they were. *)
Theorem run_update_touches_only_outputs (self : updater) (w : world) :
  let w' := world_of (run_update self w) in
  outputs self
  = file self <$> [ "popup.html"; "content.js"; "models.json"; "voices.json";
                    "manifest.json"; "update_report.txt" ]
  ∧ (∀ p, p ∉ outputs self → files w' !! p = files w !! p)
  ∧ (∃ l, opened w' = opened w ++ l ∧ ∀ p, p ∈ l → p ∈ outputs self)
  ∧ (∃ out, stdout w' = stdout w ++ out)
  ∧ api w' = api w
  ∧ clock w' = clock w
  ∧ keyboard w' = keyboard w.
Proof.
  intros w'. split; [reflexivity|].
  destruct (run_update_confined self w) as (F & O & S & A & C).
  repeat (split; [done|]).
  by apply (run_update_keeps_keyboard self w w).
Qed.

Lemma main_run (w : world) :
  main w
  = match keyboard w with
    | [] => Raise (EOFError "") (printed banner w)
    | typed :: rest =>
        let api_key := Text.strip typed in
        let shown := (pretty (String.length api_key) +:+ " " +:+ Text.slice_last 4 api_key)
                     +:+ Text.nl in
        if bool_decide (api_key = "")
        then Raise (SystemExit 1)
               (set_keyboard rest
                  (printed (banner ++ [shown; "Error: API key is required" +:+ Text.nl]) w))
        else match rest with
             | [] => Raise (EOFError "EOF when reading a line")
                       (set_keyboard [] (printed (banner ++ [shown; path_prompt]) w))
             | typed_path :: rest' =>
                 let default_path := Text.strip typed_path in
                 let extension_path :=
                   if bool_decide (default_path = "") then "." else default_path in
                 match run_update (new_updater api_key extension_path)
                         (set_keyboard rest' (printed (banner ++ [shown; path_prompt]) w)) with
                 | Ret _ w' => Ret () w'
                 | Raise e w' => Raise e w'
                 end
             end
    end.
Proof.
  unfold main.
  rewrite bind_run, print_run. cbv beta iota.
  rewrite bind_run, print_run. cbv beta iota.
  rewrite bind_run. unfold getpass at 1. simpl keyboard.
  destruct (keyboard w) as [|typed rest] eqn:Ek.
  { unfold printed, banner, set_stdout. simpl. by rewrite <- app_assoc. }
  cbv beta iota zeta.
  rewrite bind_run, print_run. cbv beta iota.
  rewrite bind_run.
  destruct (bool_decide (Text.strip typed = "")).
  { rewrite bind_run, print_run. cbv beta iota. unfold raise.
    f_equal. unfold printed, banner, set_keyboard, set_stdout. simpl.
    f_equal. by rewrite <- !app_assoc. }
  cbv beta iota. unfold mret at 1, M_ret at 1. cbv beta iota.
  rewrite bind_run. unfold input at 1. simpl keyboard.
  destruct rest as [|typed_path rest'].
  { f_equal. unfold printed, banner, set_keyboard, set_stdout. simpl.
    f_equal. by rewrite <- !app_assoc. }
  cbv beta iota zeta. rewrite bind_run.
  match goal with |- match run_update ?u ?w1 with _ => _ end = match run_update ?u' ?w2 with _ => _ end =>
    replace w1 with w2; [by destruct (run_update u w2)|]
  end.
  unfold printed, banner, set_keyboard, set_stdout. simpl.
  f_equal. by rewrite <- !app_assoc.
Qed.

(** X16. [main] with nothing to read ends with the [EOFError] of
    [getpass], which carries no message, after its banner; with a key
    that is blank it prints [0] and an empty tail, the error, and exits
    with status 1, the second prompt never asked; with a key and no
    answer to the second prompt it ends with the [EOFError] of [input].
    In none of these cases is a file touched. *)
Theorem main_without_answers (w : world) :
  (keyboard w = [] →
   main w = Raise (EOFError "") (printed banner w))
  ∧ (∀ typed rest,
        keyboard w = typed :: rest → Text.strip typed = "" →
        main w
        = Raise (SystemExit 1)
            (set_keyboard rest
               (printed (banner ++ ["0 " +:+ Text.nl; "Error: API key is required" +:+ Text.nl])
                  w)))
  ∧ (∀ typed,
        keyboard w = [typed] → Text.strip typed ≠ "" →
        ∃ w', main w = Raise (EOFError "EOF when reading a line") w'
              ∧ files w' = files w ∧ opened w' = opened w).
Proof.
  rewrite main_run. split; [|split].
  - by intros ->.
  - intros typed rest -> E. cbv zeta. by rewrite E.
  - intros typed -> E. cbv zeta. rewrite bool_decide_false by done. eauto.
Qed.

(** X17. [main] with a key and an answer to the path prompt runs the
    update with the key stripped of blanks, in the directory typed, the
    current one when the answer is blank: it returns when the update
    returns, whatever flag the update returned, raises what it raises,
    consumes the two lines typed and changes no file outside the six
    outputs of that directory. *)
Theorem main_runs_update (w : world) (key path : string) (rest : list string) :
  keyboard w = key :: path :: rest →
  Text.strip key ≠ "" →
  let dir := if bool_decide (Text.strip path = "") then "." else Text.strip path in
  let self := new_updater (Text.strip key) dir in
  (∃ w2, files w2 = files w ∧ api w2 = api w ∧ clock w2 = clock w ∧ keyboard w2 = rest
         ∧ main w = match run_update self w2 with
                    | Ret _ w' => Ret () w'
                    | Raise e w' => Raise e w'
                    end)
  ∧ (∀ p, p ∉ outputs self → files (world_of (main w)) !! p = files w !! p)
  ∧ keyboard (world_of (main w)) = rest
  ∧ (Text.strip path = "" →
     outputs self = [ "popup.html"; "content.js"; "models.json"; "voices.json";
                      "manifest.json"; "update_report.txt" ]).
Proof.
  intros Ek Hkey dir self.
  rewrite main_run, Ek. cbv zeta. rewrite bool_decide_false by done.
  fold dir. fold self.
  set (w2 := set_keyboard rest _).
  pose proof (run_update_confined self w2) as (F & _).
  pose proof (run_update_keeps_keyboard self w2 w2 eq_refl) as K.
  unfold same_keyboard in K.
  split; [by exists w2|]. split; [|split].
  - intros p Hp. specialize (F p Hp). by destruct (run_update self w2).
  - by destruct (run_update self w2).
  - intros E. subst self dir. rewrite bool_decide_true by done. reflexivity.
Qed.

(** X18. The script with a key on the command line that is not empty
    runs the update with that key as it is and never reads the keyboard;
    with no key, or an empty one, it is [main]; the flag of [--auto]
    changes nothing. *)
Theorem script_dispatch (args : arguments) (w : world) :
  (∀ key,
      arg_api_key args = Some key → key ≠ "" →
      script args w = match run_update (new_updater key (arg_path args)) w with
                      | Ret _ w' => Ret () w'
                      | Raise e w' => Raise e w'
                      end
      ∧ keyboard (world_of (script args w)) = keyboard w)
  ∧ (arg_api_key args = None ∨ arg_api_key args = Some "" → script args w = main w)
  ∧ (∀ auto, script {| arg_api_key := arg_api_key args; arg_path := arg_path args;
                       arg_auto := auto |} w = script args w).
Proof.
  unfold script. split; [|split].
  - intros key -> Hkey. rewrite bool_decide_false by done. rewrite bind_run.
    pose proof (run_update_keeps_keyboard (new_updater key (arg_path args)) w w eq_refl) as K.
    unfold same_keyboard in K.
    by destruct (run_update _ w).
  - by intros [-> | ->].
  - done.
Qed.

End Prompts.

Lemma models_json_projects_witness :
  raised (create_models_json (H := Reference.runtime) Cases.elsewhere More.models
            Cases.no_directory)
  = Some (FileNotFoundError "[Errno 2] No such file or directory: 'nope/models.json'")
  ∧ ∃ w', create_models_json (H := Reference.runtime) Demo.self More.models Demo.world
          = Ret true w'
          ∧ overwritten (models_file Demo.self) Demo.world w'.
Proof.
  split.
  - destruct (models_json_projects (H := Reference.runtime) Cases.elsewhere More.models
                Cases.no_directory) as [A _].
    change (can_open Cases.no_directory (models_file Cases.elsewhere)) with false in A.
    cbv iota in A. rewrite A. reflexivity.
  - destruct (models_json_projects (H := Reference.runtime) Demo.self More.models
                Demo.world) as [A _].
    change (can_open Demo.world (models_file Demo.self)) with true in A.
    cbv iota in A. destruct A as (w' & E & O & _). eauto.
Defined.

Lemma voices_json_all_or_nothing_witness :
  let o := create_voices_json (H := Reference.runtime) Cases.elsewhere
             (JList [JDict [("voice_id", JStr "21m00Tcm4TlvDq8ikWAM")]])
             Cases.no_directory in
  raised o = Some (FileNotFoundError "[Errno 2] No such file or directory: 'nope/voices.json'")
  ∧ world_of o = Cases.no_directory.
Proof.
  intros o.
  assert (raised o
          = Some (FileNotFoundError
                    "[Errno 2] No such file or directory: 'nope/voices.json'")) as R
    by (vm_compute; reflexivity).
  split; [exact R|].
  pose proof (voices_json_all_or_nothing (H := Reference.runtime) Cases.elsewhere
                (JList [JDict [("voice_id", JStr "21m00Tcm4TlvDq8ikWAM")]])
                Cases.no_directory) as A.
  fold o in A. destruct o as [|e w']; [discriminate|]. by destruct A as [-> _].
Defined.

Lemma report_is_begun_anew_witness :
  let o := create_update_report (H := Reference.runtime) Demo.self More.models
             (JList []) (JDict []) Demo.world in
  returned o = Some true
  ∧ opened (world_of o) = ["update_report.txt"]
  ∧ ∃ rest, files (world_of o) !! "update_report.txt"
            = Some ((("=== ElevenLabs Extension Update Report ===" +:+ Text.nl +:+ Text.nl)
                     +:+ ("Date: 2024-05-01 12:00:00" +:+ Text.nl)
                     +:+ ("Models found: 2" +:+ Text.nl)) +:+ rest).
Proof.
  intros o. split; [vm_compute; reflexivity|].
  pose proof (report_is_begun_anew (H := Reference.runtime) Demo.self More.models
                (JList []) (JDict []) Demo.world) as A.
  cbv zeta in A. fold o in A.
  change (can_open Demo.world (report_file Demo.self)) with true in A.
  cbv iota in A. destruct A as ([rest Hr] & Ho & _).
  split; [exact Ho|]. exists rest. exact Hr.
Defined.

Lemma main_without_answers_witness :
  raised (main (H := Reference.runtime) More.blank_key) = Some (SystemExit 1)
  ∧ stdout (world_of (main (H := Reference.runtime) More.blank_key))
    = banner ++ ["0 " +:+ Text.nl; "Error: API key is required" +:+ Text.nl]
  ∧ keyboard (world_of (main (H := Reference.runtime) More.blank_key)) = ["."].
Proof.
  destruct (main_without_answers (H := Reference.runtime) More.blank_key) as (_ & A & _).
  rewrite (A "   " ["."]); [|reflexivity|vm_compute; reflexivity].
  repeat split; reflexivity.
Defined.

Lemma main_runs_update_witness :
  let o := main (H := Reference.runtime) Cases.interactive in
  returned o = Some ()
  ∧ keyboard (world_of o) = []
  ∧ ∀ p, p ∉ [ "popup.html"; "content.js"; "models.json"; "voices.json";
               "manifest.json"; "update_report.txt" ] →
         files (world_of o) !! p = files Cases.interactive !! p.
Proof.
  intros o.
  split; [vm_compute; reflexivity|].
  destruct (main_runs_update (H := Reference.runtime) Cases.interactive
              "  sk_0123456789abcdef " "" []) as (_ & F & K & O).
  - reflexivity.
  - vm_compute. discriminate.
  - split; [exact K|]. intros p Hp. apply F. rewrite O by reflexivity. exact Hp.
Defined.

Section Voices.

Context `{!Runtime}.

(** X19. [format_voice_for_dropdown] prints the voice before anything
    else, also when it then raises: for a voice that is not an object it
    raises after that one line; for an object it returns the four
    entries, the name defaulting to the voice id, the category to
    ["unknown"], the label being the name and the category in brackets. *)
Theorem format_voice_prints_first (voice : json) (w : world) :
  let w1 := printed [py_str voice +:+ Text.nl] w in
  match voice with
  | JDict d =>
      let voice_id := dict_get d "voice_id" (JStr "") in
      let name := dict_get d "name" voice_id in
      let category := dict_get d "category" (JStr "unknown") in
      format_voice_for_dropdown voice w
      = Ret [ ("value", voice_id);
              ("label", JStr (py_str name +:+ " (" +:+ py_str category +:+ ")"));
              ("name", name); ("category", category) ] w1
      ∧ (dict_lookup "name" d = None → name = voice_id)
      ∧ (dict_lookup "category" d = None → category = JStr "unknown")
  | _ => format_voice_for_dropdown voice w = Raise (no_attribute voice "get") w1
  end.
Proof.
  intros w1. unfold format_voice_for_dropdown.
  rewrite bind_run, print_run. cbv beta iota. fold (printed [py_str voice +:+ Text.nl] w).
  fold w1.
  destruct voice as [| | | | | |d]; try reflexivity.
  cbv zeta. split; [reflexivity|]. unfold dict_get. split; by intros ->.
Qed.

End Voices.
